(** * Content creation agent: a shallow embedding of [content_agent.py]

    The engine of the repository is the class [ContentCreationAgent].  Its
    methods are pure text assembly over Python [str] values, so they are
    embedded as Rocq functions over lists of code points.  What the Python
    runtime decides and the source does not (the per-process [hash] of a
    string, the iteration order of a [set], the Unicode case tables behind
    [lower] and [title], [repr]) is collected in the record [Runtime]. *)

From Stdlib Require Import List ZArith NArith Lia Bool String Ascii.
From Stdlib Require Import DecimalString DecimalZ DecimalPos.
Import ListNotations.
Local Open Scope Z_scope.

(** ** Python strings *)

Module PyStr.

(** A Python [str] is a sequence of Unicode code points. *)
Definition char := N.
Definition str := list char.

Definition eq_dec (a b : str) : {a = b} + {a <> b} :=
  list_eq_dec N.eq_dec a b.

Fixpoint eqb (a b : str) : bool :=
  match a, b with
  | [], [] => true
  | x :: a', y :: b' => N.eqb x y && eqb a' b'
  | _, _ => false
  end.

(** An ASCII literal of the source. *)
Definition lit (s : string) : str :=
  map N_of_ascii (list_ascii_of_string s).

(** [len(s)] *)
Definition len (s : str) : Z := Z.of_nat (List.length s).

Definition space : char := 32%N.
Definition newline : char := 10%N.
Definition nl : str := [newline].

(** [s[:k]]: a negative bound counts from the end, clipped at 0. *)
Definition slice_to (s : str) (k : Z) : str :=
  if 0 <=? k then firstn (Z.to_nat k) s
  else firstn (Z.to_nat (len s + k)) s.

(** [s.rfind(c)] for a one-character needle: the highest index holding
    [c], or -1. *)
Fixpoint rfind (s : str) (c : char) : Z :=
  match s with
  | [] => -1
  | x :: r =>
      let j := rfind r c in
      if 0 <=? j then j + 1 else if N.eqb x c then 0 else -1
  end.

(** [a in s] for strings: [a] occurs in [s] as a contiguous run. *)
Fixpoint starts_with (p s : str) : bool :=
  match p, s with
  | [], _ => true
  | _ :: _, [] => false
  | x :: p', y :: s' => N.eqb x y && starts_with p' s'
  end.

Fixpoint contains (s p : str) : bool :=
  starts_with p s ||
  match s with
  | [] => false
  | _ :: s' => contains s' p
  end.

(** [sep.join(parts)] *)
Fixpoint join (sep : str) (parts : list str) : str :=
  match parts with
  | [] => []
  | [p] => p
  | p :: rest => p ++ sep ++ join sep rest
  end.

(** [str(n)] for an [int]. *)
Definition of_Z (n : Z) : str :=
  lit (NilZero.string_of_int (Z.to_int n)).

(** The decimal text of [d - 1/2]: [7.5] for 8, [-0.5] for 0, [-1.5] for
    -1.  This is [repr(d - 0.5)] as long as the difference is an exact
    double, see [sub_half]. *)
Definition of_half_less (d : Z) : str :=
  if 1 <=? d then of_Z (d - 1) ++ lit ".5"
  else lit "-" ++ of_Z (- d) ++ lit ".5".

(** [format(s / n, '.0f')] for [int]s [s] and [n > 0]: the quotient rounded
    to the nearest integer, ties to even.  Exact for the word counts met
    here (below 2^26). *)
Definition format_0f_div (s n : Z) : str :=
  let q := s / n in
  let r := s mod n in
  of_Z (if 2 * r <? n then q
        else if n <? 2 * r then q + 1
        else if Z.even q then q else q + 1).

(** [c.isspace()], which is also the class [\s] of [re] on [str]. *)
Definition isspace (c : char) : bool :=
  let c := Z.of_N c in
  ((9 <=? c) && (c <=? 13)) || ((28 <=? c) && (c <=? 32)) ||
  (c =? 133) || (c =? 160) || (c =? 5760) ||
  ((8192 <=? c) && (c <=? 8202)) || (c =? 8232) || (c =? 8233) ||
  (c =? 8239) || (c =? 8287) || (c =? 12288).

(** [s.split()]: the maximal runs of non-whitespace characters.  [cur]
    holds the run being read, last character first. *)
Fixpoint split_go (cur : str) (s : str) : list str :=
  match s with
  | [] => match cur with [] => [] | _ => [rev cur] end
  | c :: r =>
      if isspace c
      then match cur with
           | [] => split_go [] r
           | _ => rev cur :: split_go [] r
           end
      else split_go (c :: cur) r
  end.

Definition split (s : str) : list str := split_go [] s.

(** [s.replace(old, new)]: every occurrence of [old], left to right and
    without overlap.  [skip] counts the characters of a matched occurrence
    still to be dropped. *)
Fixpoint replace_go (old new : str) (skip : nat) (s : str) : str :=
  match s with
  | [] => []
  | c :: r =>
      match skip with
      | S k => replace_go old new k r
      | O =>
          if starts_with old s
          then new ++ replace_go old new (List.length old - 1) r
          else c :: replace_go old new 0 r
      end
  end.

Definition replace (s old new : str) : str :=
  match old with
  | [] => new ++ flat_map (fun c => c :: new) s
  | _ => replace_go old new 0 s
  end.

(** [x in xs] for a list of strings. *)
Definition mem (x : str) (xs : list str) : bool := existsb (eqb x) xs.

(** [xs[i]] for an index known to be in range. *)
Definition subscript (xs : list str) (i : Z) : str :=
  nth (Z.to_nat i) xs [].

(** [xs[:k]] on a list, for [k >= 0]. *)
Definition take {A} (k : nat) (xs : list A) : list A := firstn k xs.

(** *** [re.findall(r'^#+\s+(.+)$', content, re.MULTILINE)] *)

Definition hash_sign : char := 35%N.

Fixpoint count_prefix (p : char -> bool) (s : str) : nat :=
  match s with
  | c :: r => if p c then S (count_prefix p r) else O
  | [] => O
  end.

(** The text up to the next newline: what a greedy [.+] takes. *)
Fixpoint take_line (s : str) : str :=
  match s with
  | [] => []
  | c :: r => if N.eqb c newline then [] else c :: take_line r
  end.

(** [\s+] is greedy and gives characters back until [.+] can start: the
    largest [k] in 1..[w] such that a character other than a newline
    stands at offset [k]. *)
Fixpoint backtrack_ws (k : nat) (s : str) : option nat :=
  match k with
  | O => None
  | S k' =>
      match nth_error s k with
      | Some c => if N.eqb c newline then backtrack_ws k' s else Some k
      | None => backtrack_ws k' s
      end
  end.

(** One match attempt at a line start: the captured group and the number
    of characters the whole match consumes. *)
Definition match_heading (s : str) : option (str * nat) :=
  let h := count_prefix (N.eqb hash_sign) s in
  match h with
  | O => None
  | _ =>
      let s1 := skipn h s in
      let w := count_prefix isspace s1 in
      match backtrack_ws w s1 with
      | Some k =>
          let line := take_line (skipn k s1) in
          Some (line, (h + k + List.length line)%nat)
      | None => None
      end
  end.

(** The scan of [findall]: [bol] says whether the current position is a
    line start, [skip] counts the characters of the last match still to be
    passed over. *)
Fixpoint findall_go (skip : nat) (bol : bool) (s : str) : list str :=
  match s with
  | [] => []
  | c :: r =>
      match skip with
      | S k => findall_go k (N.eqb c newline) r
      | O =>
          match (if bol then match_heading s else None) with
          | Some (group, consumed) =>
              group :: findall_go (consumed - 1) (N.eqb c newline) r
          | None => findall_go 0 (N.eqb c newline) r
          end
      end
  end.

Definition findall_headings (content : str) : list str :=
  findall_go 0 true content.

End PyStr.

Import PyStr.

(** ** The truncator *)

(** [_truncate_to_limit].  The source compares [last_space > char_limit * 0.8]
    in floating point; for every limit below 2^50 in absolute value that
    comparison holds exactly when [4 * char_limit < 5 * last_space], which is
    how it is written here.  (Far beyond, for a limit of [2^1024 - 2^970] or
    more in absolute value, the product does not convert to a float and the
    source raises; no text is that long.) *)
Definition _truncate_to_limit (text : str) (char_limit : Z) : str :=
  if len text <=? char_limit then text
  else
    let truncated := slice_to text char_limit in
    let last_space := rfind truncated space in
    let truncated :=
      if 4 * char_limit <? 5 * last_space
      then slice_to truncated last_space
      else truncated in
    truncated ++ lit "...".


(** ** What the Python runtime supplies *)

(** The built-ins whose result is fixed by the interpreter and not by the
    source.  [py_hash] is [hash] on [str] (seeded once per process);
    [py_set l] is [list(set(l))], each distinct member once in an order the
    source does not control; [py_lower], [py_title] and [py_repr] are
    [str.lower], [str.title] and [repr]; [py_repr_minus_half d] is
    [repr(d - 0.5)] for an [int] [d] that converts to a float. *)
Record Runtime := {
  py_hash : str -> Z;
  py_set : list str -> list str;
  py_set_NoDup : forall l, NoDup (py_set l);
  py_set_In : forall l x, In x (py_set l) <-> In x l;
  py_lower : str -> str;
  py_title : str -> str;
  py_repr : str -> str;
  py_repr_minus_half : Z -> str
}.

(** The characters of the source that lie outside ASCII, as they stand in
    the file (each is a short run of code points). *)
Definition em_dash : str := [226; 8364; 8221]%N.
Definition thinking : str := [240; 376; 164; 8221]%N.
Definition bulb : str := [240; 376; 8217; 161]%N.
Definition rocket : str := [240; 376; 353; 8364]%N.
Definition zap : str := [226; 353; 161]%N.
Definition dart : str := [240; 376; 381; 175]%N.
Definition sweat_smile : str := [240; 376; 732; 8230]%N.
Definition speech : str := [240; 376; 8217; 172]%N.
Definition bullet : str := [226; 8364; 162]%N.
Definition tada : str := [240; 376; 381; 8240]%N.
Definition check_mark : str := [226; 339; 8220]%N.
Definition check_box : str := [226; 339; 8230]%N.
Definition copyright : str := [194; 169]%N.
Definition arrow : str := [226; 8224; 8217]%N.

(** ** Exceptions *)

Inductive exn :=
| ValueError (msg : str)
| KeyError (key : str)
| OverflowError (msg : str)
| Exception (msg : str).

(** [str(e)] *)
Definition str_of_exn (rt : Runtime) (e : exn) : str :=
  match e with
  | ValueError msg => msg
  | KeyError key => py_repr rt key
  | OverflowError msg => msg
  | Exception msg => msg
  end.

Definition result (A : Type) : Type := exn + A.
Definition ret {A} (a : A) : result A := inr a.
Definition raise {A} (e : exn) : result A := inl e.
Definition bind {A B} (m : result A) (k : A -> result B) : result B :=
  match m with
  | inl e => inl e
  | inr a => k a
  end.

Notation "x <- m ;; k" := (bind m (fun x => k))
  (at level 61, m at next level, right associativity).

(** A [for] loop that appends one result per element. *)
Fixpoint for_each {A B} (f : A -> result B) (xs : list A) : result (list B) :=
  match xs with
  | [] => ret []
  | x :: r => y <- f x ;; ys <- for_each f r ;; ret (y :: ys)
  end.

(** [d - 0.5] inside an f-string, for an [int] [d].  The subtraction first
    converts [d] to a float, which raises for an int of [2^1024 - 2^970] or
    more in absolute value.  For [-2^52 < d <= 2^52] the difference is an
    exact double and prints as a decimal ending in [.5]; in between the
    runtime prints the nearest double.  (An interpreter that limits the
    conversion of an [int] to [str] raises earlier, at [{duration_minutes}],
    for an int of more than 4300 digits: another message, the same
    failure.) *)
Definition float_overflow : Z := 2 ^ 1024 - 2 ^ 970.

Definition sub_half (rt : Runtime) (d : Z) : result str :=
  if float_overflow <=? Z.abs d
  then raise (OverflowError (lit "int too large to convert to float"))
  else if (- 2 ^ 52 <? d) && (d <=? 2 ^ 52) then ret (of_half_less d)
  else ret (py_repr_minus_half rt d).

(** ** The data classes *)

Record ContentRequest := {
  topic : str;
  content_type : str;
  target_audience : str;
  tone : str;
  word_count : option Z;
  platform : option str;
  call_to_action : option str;
  include_examples : bool;
  include_seo : bool
}.

(** The [tags] field is declared [List[str]]; the social builder stores the
    hashtag string there instead. *)
Inductive tags_value :=
| TagList (l : list str)
| TagText (s : str).

(** [readability_score] keeps its default 0.0 everywhere and is left out.
    The output fields that share a name with a request field carry [o_]. *)
Record ContentOutput := {
  title : str;
  content : str;
  headings : list str;
  o_call_to_action : option str;
  tags : tags_value;
  o_word_count : Z
}.

(** [x or default] on an optional [int] and on an optional [str]. *)
Definition or_int (x : option Z) (default : Z) : Z :=
  match x with
  | Some 0 | None => default
  | Some n => n
  end.

Definition or_str (x : option str) (default : str) : str :=
  match x with
  | Some [] | None => default
  | Some s => s
  end.

(** ** The tables of [__init__] *)

Record ToneTemplate := { style : str; emphasis : str; examples : str }.

Record AudienceProfile := {
  pain_points : list str;
  interests : list str;
  language : str
}.

(** A [dict] with [str] keys, in source order. *)
Fixpoint lookup {A} (k : str) (d : list (str * A)) : option A :=
  match d with
  | [] => None
  | (k', v) :: r => if eqb k k' then Some v else lookup k r
  end.

(** [d.get(k, default)] *)
Definition get {A} (d : list (str * A)) (k : str) (default : A) : A :=
  match lookup k d with
  | Some v => v
  | None => default
  end.

(** [d[k]] *)
Definition getitem {A} (d : list (str * A)) (k : str) : result A :=
  match lookup k d with
  | Some v => ret v
  | None => raise (KeyError k)
  end.

Definition tone_templates : list (str * ToneTemplate) :=
  [ (lit "professional",
     {| style := lit "Clear, authoritative, and industry-specific language";
        emphasis := lit "Expertise, credibility, and measurable results";
        examples := lit "Industry statistics, case studies, technical data" |});
    (lit "conversational",
     {| style := lit "Friendly, accessible language with personal anecdotes";
        emphasis := lit "Relatability, story-telling, and personal experiences";
        examples := lit "Personal stories, relatable scenarios, everyday situations" |});
    (lit "persuasive",
     {| style := lit "Compelling arguments with emotional and logical appeals";
        emphasis := lit "Benefits, urgency, and transformation";
        examples := lit "Before/after scenarios, success stories, compelling statistics" |});
    (lit "informative",
     {| style := lit "Educational, clear explanations with structured information";
        emphasis := lit "Learning, understanding, and comprehensive coverage";
        examples := lit "Step-by-step guides, detailed explanations, comprehensive lists" |});
    (lit "humorous",
     {| style := lit "Witty, light-hearted language with appropriate humor";
        emphasis := lit "Entertainment, engagement, and memorable content";
        examples := lit "Funny analogies, wordplay, entertaining scenarios" |}) ].

Definition general_audience : AudienceProfile :=
  {| pain_points := [lit "Learning new concepts"; lit "Practical application"];
     interests := [lit "Accessible information"; lit "Clear benefits"];
     language := lit "Simple, jargon-free" |}.

Definition audience_profiles : list (str * AudienceProfile) :=
  [ (lit "startup_founders",
     {| pain_points := [lit "Rapid growth"; lit "Market validation"; lit "Resource constraints"];
        interests := [lit "Growth strategies"; lit "Funding"; lit "Technology adoption"];
        language := lit "Business-focused, results-oriented" |});
    (lit "tech_leads",
     {| pain_points := [lit "Team management"; lit "Technical debt"; lit "Scalability"];
        interests := [lit "Best practices"; lit "Team productivity"; lit "Architecture"];
        language := lit "Technical but accessible" |});
    (lit "marketing_professionals",
     {| pain_points := [lit "Lead generation"; lit "ROI measurement"; lit "Brand awareness"];
        interests := [lit "Marketing trends"; lit "Campaign optimization"; lit "Customer acquisition"];
        language := lit "Strategy-focused, metrics-driven" |});
    (lit "general_audience", general_audience) ].

(** ** Helper methods *)

(** [len(xs)] on a list. *)
Definition len_list {A} (xs : list A) : Z := Z.of_nat (List.length xs).

(** The expression [topic.replace('Benefits of ', '').replace(' for', '')],
    written out in every section generator (most bind it to a local
    [topic_clean]). *)
Definition topic_clean (topic : str) : str :=
  replace (replace topic (lit "Benefits of ") []) (lit " for") [].

Definition _extract_headings (content : str) : list str :=
  findall_headings content.

Definition _count_words (text : str) : Z :=
  Z.of_nat (List.length (split text)).

Definition base_tags : list str :=
  [lit "technology"; lit "business"; lit "strategy"; lit "innovation"; lit "growth"].

Definition stop_words : list str :=
  [lit "of"; lit "for"; lit "the"; lit "and"; lit "a"; lit "an"].

(** The loop that collects [specific_tags]. *)
Definition specific_tags (topic_words : list str) : list str :=
  filter (fun word => negb (mem word stop_words)) topic_words.

(** [set(base_tags + specific_tags)], as a list, before the cut at 10. *)
Definition seo_tag_set (rt : Runtime) (topic : str) : list str :=
  let topic_words := split (py_lower rt topic) in
  py_set rt (base_tags ++ specific_tags topic_words).

Definition _generate_seo_tags (rt : Runtime) (topic : str) : list str :=
  take 10 (seo_tag_set rt topic).

Definition _generate_social_tags (rt : Runtime) (topic : str) : str :=
  let tags := _generate_seo_tags rt topic in
  let hashtags := map (fun tag => lit "#" ++ tag) (take 5 tags) in
  join (lit " ") hashtags.

Definition _generate_communication_style (tone : str) : str :=
  get [ (lit "professional", lit "authoritative, credible, data-driven");
        (lit "conversational", lit "friendly, accessible, personal");
        (lit "persuasive", lit "compelling, benefit-focused, action-oriented");
        (lit "informative", lit "educational, clear, comprehensive");
        (lit "humorous", lit "entertaining, engaging, memorable") ]
      tone (lit "professional").

Definition _get_default_word_count (content_type : str) : Z :=
  get [ (lit "blog", 800); (lit "social_media", 200); (lit "newsletter", 600);
        (lit "video_script", 1200); (lit "email_campaign", 400) ]
      content_type 500.

Definition _generate_default_cta (rt : Runtime) (request : ContentRequest) : str :=
  let topic := topic request in
  let ctas :=
    [ lit "Ready to implement " ++ topic_clean topic ++ lit " in your organization? Start with our free assessment tool.";
      lit "Want to learn more about " ++ topic_clean topic ++ lit "? Download our comprehensive guide today.";
      lit "Start your " ++ topic_clean topic ++ lit " journey today. Get personalized recommendations for your team.";
      lit "Transform your business with " ++ topic_clean topic ++ lit ". Book a consultation to get started." ] in
  subscript ctas (py_hash rt topic mod len_list ctas).

Definition _generate_social_cta (topic platform : str) : str :=
  if eqb platform (lit "linkedin")
  then lit "Looking to implement " ++ topic_clean topic ++ lit "? Let's connect and discuss how we can help your organization succeed."
  else lit "What's your experience with " ++ topic_clean topic ++ lit "? Share your thoughts in the comments! " ++ speech.

(** ** The article builder *)

Definition _generate_blog_introduction
    (rt : Runtime) (topic : str) (audience : AudienceProfile) (tone : ToneTemplate) : str :=
  let pain_points := join (lit ", ") (take 2 (pain_points audience)) in
  let intro_templates :=
    [ lit "In today's fast-paced business environment, " ++ topic ++ lit " has emerged as a critical factor for success. Whether you're dealing with " ++ pain_points ++ lit " or seeking sustainable growth, understanding " ++ topic ++ lit " can be the game-changer your organization needs.";
      lit "You've probably heard about " ++ topic ++ lit ", but do you truly understand its transformative potential? For " ++ subscript (interests audience) 0 ++ lit " professionals, this isn't just another trend" ++ em_dash ++ lit "it's a fundamental shift that can revolutionize how you operate.";
      lit "The numbers don't lie: companies that successfully implement " ++ topic ++ lit " see remarkable improvements across multiple metrics. But here's what most people miss" ++ em_dash ++ lit "it's not just about the technology or methodology, it's about the mindset shift that makes it all possible." ] in
  subscript intro_templates (py_hash rt topic mod len_list intro_templates).

Definition _generate_problem_section (topic : str) (audience : AudienceProfile) : str :=
  let pain_points := pain_points audience in
  lit "Traditional approaches to " ++ topic_clean topic ++ lit " often fall short because they fail to address fundamental challenges:" ++ nl ++
  nl ++
  lit "- **" ++ subscript pain_points 0 ++ lit "**: Most organizations struggle with this because they lack systematic approaches" ++ nl ++
  lit "- **Scalability Issues**: Rapid growth can quickly overwhelm unprepared teams" ++ nl ++
  lit "- **Resource Constraints**: Limited budgets and personnel create bottlenecks" ++ nl ++
  nl ++
  lit "These challenges aren't insurmountable, but they require a strategic, modern approach.".

Definition _generate_solution_section
    (topic : str) (audience : AudienceProfile) (tone : ToneTemplate) : str :=
  lit "The solution lies in adopting a comprehensive " ++ topic_clean topic ++ lit " strategy that addresses both immediate needs and long-term objectives." ++ nl ++
  nl ++
  lit "**Core Principles:**" ++ nl ++
  nl ++
  lit "1. **Strategic Integration**: Seamlessly blend " ++ topic_clean topic ++ lit " into existing workflows" ++ nl ++
  lit "2. **Team Alignment**: Ensure all stakeholders understand the value and implementation process" ++ nl ++
  lit "3. **Continuous Improvement**: Build mechanisms for ongoing optimization and adaptation" ++ nl ++
  nl ++
  lit "**Implementation Framework:**" ++ nl ++
  nl ++
  lit "- Start with pilot projects to demonstrate quick wins" ++ nl ++
  lit "- Scale proven methodologies across teams and departments" ++ nl ++
  lit "- Measure progress using established KPIs and metrics" ++ nl ++
  lit "- Iterate and refine based on real-world feedback" ++ nl ++
  nl ++
  examples tone ++ lit ": Companies implementing this approach typically see 30-40% improvements in key performance indicators within the first quarter.".

Definition _generate_benefits_section
    (topic : str) (audience : AudienceProfile) (tone : ToneTemplate) : str :=
  lit "**Immediate Benefits:**" ++ nl ++
  nl ++
  lit "- **Improved Efficiency**: Streamlined processes reduce time-to-market by 25-40%" ++ nl ++
  lit "- **Enhanced Quality**: Systematic approaches result in fewer errors and higher customer satisfaction" ++ nl ++
  lit "- **Cost Reduction**: Automation and optimization typically deliver 15-30% cost savings" ++ nl ++
  nl ++
  lit "**Long-term Advantages:**" ++ nl ++
  nl ++
  lit "- **Competitive Edge**: Organizations that master " ++ topic_clean topic ++ lit " consistently outperform competitors" ++ nl ++
  lit "- **Team Satisfaction**: Clear processes and continuous improvement boost employee engagement" ++ nl ++
  lit "- **Innovation Acceleration**: Structured frameworks enable faster experimentation and adaptation" ++ nl ++
  nl ++
  lit "**ROI Considerations:**" ++ nl ++
  nl ++
  examples tone ++ lit " show that the average return on investment for " ++ topic_clean topic ++ lit " initiatives ranges from 200-400% within the first 18 months, making it one of the most valuable strategic investments available.".

Definition _generate_implementation_section (topic : str) (audience : AudienceProfile) : str :=
  lit "**Getting Started:**" ++ nl ++
  nl ++
  lit "1. **Assessment Phase** (Weeks 1-2)" ++ nl ++
  lit "   - Conduct comprehensive analysis of current state" ++ nl ++
  lit "   - Identify key stakeholders and decision makers" ++ nl ++
  lit "   - Define success metrics and timeline" ++ nl ++
  nl ++
  lit "2. **Planning Phase** (Weeks 3-4)" ++ nl ++
  lit "   - Develop detailed implementation roadmap" ++ nl ++
  lit "   - Allocate resources and assign responsibilities" ++ nl ++
  lit "   - Create communication and training plans" ++ nl ++
  nl ++
  lit "3. **Execution Phase** (Months 2-6)" ++ nl ++
  lit "   - Implement pilot programs with select teams" ++ nl ++
  lit "   - Monitor progress and adjust strategies" ++ nl ++
  lit "   - Scale successful approaches across organization" ++ nl ++
  nl ++
  lit "**Common Pitfalls to Avoid:**" ++ nl ++
  nl ++
  lit "- **Scope Creep**: Keep initial implementation focused on core objectives" ++ nl ++
  lit "- **Insufficient Training**: Invest in comprehensive team education" ++ nl ++
  lit "- **Inadequate Metrics**: Establish clear measurement systems from the start" ++ nl ++
  lit "- **Cultural Resistance**: Address change management proactively" ++ nl ++
  nl ++
  lit "**Success Metrics:**" ++ nl ++
  nl ++
  lit "- Process efficiency improvements" ++ nl ++
  lit "- Cost reduction percentages  " ++ nl ++
  lit "- Team satisfaction scores" ++ nl ++
  lit "- Customer satisfaction ratings".

Definition _generate_examples_section (topic : str) (tone : ToneTemplate) : str :=
  lit "**Case Study: Tech Startup Success Story**" ++ nl ++
  nl ++
  lit "A mid-stage startup implemented " ++ topic_clean topic ++ lit " as part of their growth strategy. Within six months, they achieved:" ++ nl ++
  nl ++
  lit "- 45% reduction in deployment time" ++ nl ++
  lit "- 60% fewer production incidents" ++ nl ++
  lit "- 35% improvement in customer satisfaction scores" ++ nl ++
  nl ++
  lit "**Industry Example: Enterprise Adoption**" ++ nl ++
  nl ++
  lit "A Fortune 500 company rolled out " ++ topic_clean topic ++ lit " across 200+ teams globally. Key results included:" ++ nl ++
  nl ++
  lit "- $2.3M in annual cost savings" ++ nl ++
  lit "- 50% faster feature delivery" ++ nl ++
  lit "- 80% reduction in manual processes" ++ nl ++
  nl ++
  examples tone ++ lit " consistently demonstrate that companies embracing " ++ topic_clean topic ++ lit " outperform their peers across virtually every measurable dimension.".

Definition _generate_blog_conclusion
    (topic : str) (audience : AudienceProfile) (tone : ToneTemplate) : str :=
  lit "The evidence is clear: " ++ topic_clean topic ++ lit " represents a fundamental shift in how successful organizations operate. Rather than being an optional enhancement, it's becoming a competitive necessity." ++ nl ++
  nl ++
  lit "**Key Takeaways:**" ++ nl ++
  nl ++
  lit "- Strategic implementation delivers measurable ROI within months, not years" ++ nl ++
  lit "- Success depends on cultural adoption, not just technical implementation" ++ nl ++
  lit "- Continuous improvement and adaptation are essential for long-term success" ++ nl ++
  nl ++
  lit "The question isn't whether to embrace " ++ topic_clean topic ++ lit ", but how quickly you can get started. Organizations that delay implementation risk falling behind competitors who are already realizing the benefits." ++ nl ++
  nl ++
  lit "**Ready to Transform Your Organization?**" ++ nl ++
  nl ++
  lit "The implementation journey begins with a single step" ++ em_dash ++ lit "assessment of your current state and identification of immediate opportunities for improvement. With the right strategy and commitment, " ++ topic_clean topic ++ lit " can transform your organization from reactive to proactive, from inefficient to optimized, and from good to great.".

Definition _build_blog_structure
    (rt : Runtime) (request : ContentRequest) (title : str) (word_count : Z) : result str :=
  let audience := get audience_profiles (target_audience request) general_audience in
  tone <- getitem tone_templates (tone request) ;;
  let intro := _generate_blog_introduction rt (topic request) audience tone in
  let sections :=
    [ (lit "The Problem", _generate_problem_section (topic request) audience);
      (lit "The Solution", _generate_solution_section (topic request) audience tone);
      (lit "Key Benefits", _generate_benefits_section (topic request) audience tone);
      (lit "Implementation", _generate_implementation_section (topic request) audience);
      (lit "Real-World Examples", _generate_examples_section (topic request) tone) ] in
  let conclusion := _generate_blog_conclusion (topic request) audience tone in
  let content_parts :=
    [intro]
    ++ flat_map (fun '(heading, section_content) =>
                   [lit "## " ++ heading; section_content; []]) sections
    ++ [lit "## Conclusion"; conclusion] in
  ret (join nl content_parts).

Definition blog_title_options (request : ContentRequest) : list str :=
  [ lit "The Ultimate Guide to " ++ topic request;
    lit "Why " ++ topic request ++ lit " Matters More Than You Think";
    lit "Transforming Your Business with " ++ topic request ++ lit ": A Complete Guide";
    lit "The Hidden Benefits of " ++ topic request ++ lit " You Need to Know";
    lit "Mastering " ++ topic request ++ lit ": From Beginner to Expert" ].

Definition _generate_blog_content
    (rt : Runtime) (request : ContentRequest) (variation_index : Z) : result ContentOutput :=
  let word_count := or_int (word_count request) (_get_default_word_count (lit "blog")) in
  let title_options := blog_title_options request in
  let title := subscript title_options (variation_index mod len_list title_options) in
  content <- _build_blog_structure rt request title word_count ;;
  let headings := _extract_headings content in
  let cta := or_str (call_to_action request) (_generate_default_cta rt request) in
  let tags := if include_seo request then _generate_seo_tags rt (topic request) else [] in
  ret {| title := title;
         content := content;
         headings := headings;
         o_call_to_action := Some cta;
         tags := TagList tags;
         o_word_count := _count_words content |}.

(** ** The short-post builder *)

Definition _generate_question_post (rt : Runtime) (topic audience : str) (char_limit : Z) : str :=
  let questions :=
    [ lit "What's the biggest challenge you face with " ++ topic_clean topic ++ lit "? " ++ thinking;
      lit "Have you tried implementing " ++ topic_clean topic ++ lit " in your organization? What worked? What didn't?";
      lit "If you could improve one thing about " ++ topic_clean topic ++ lit ", what would it be?";
      lit "What advice would you give someone starting with " ++ topic_clean topic ++ lit "?" ] in
  let base_question := subscript questions (py_hash rt topic mod len_list questions) in
  let context := nl ++ nl ++ bulb ++ lit " Share your thoughts below! Learning from each other's experiences helps us all grow." in
  let hashtags := _generate_social_tags rt topic in
  let full_post := base_question ++ context ++ nl ++ nl ++ hashtags in
  _truncate_to_limit full_post char_limit.

Definition _generate_value_post (rt : Runtime) (topic audience : str) (char_limit : Z) : str :=
  let value_posts :=
    [ rocket ++ lit " " ++ topic_clean topic ++ lit " Tip: Most organizations overlook this key principle...";
      bulb ++ lit " Quick " ++ topic_clean topic ++ lit " insight: The difference between success and failure often comes down to this one thing:";
      zap ++ lit " " ++ topic_clean topic ++ lit " Fact: Companies that do this correctly see 3x better results than those who don't";
      dart ++ lit " " ++ topic_clean topic ++ lit " Strategy: Stop focusing on tools, start focusing on this instead" ] in
  let base_content := subscript value_posts (py_hash rt topic mod len_list value_posts) in
  let explanation := nl ++ nl ++ lit "Proper implementation requires understanding both the technical AND human elements. Many teams focus solely on the mechanics and miss the cultural transformation that drives success." in
  let hashtags := _generate_social_tags rt topic in
  let full_post := base_content ++ explanation ++ nl ++ nl ++ hashtags in
  _truncate_to_limit full_post char_limit.

Definition _generate_story_post (rt : Runtime) (topic audience : str) (char_limit : Z) : str :=
  let stories :=
    [ lit "When we first started implementing " ++ topic_clean topic ++ lit ", we made every mistake in the book " ++ sweat_smile;
      lit "Two years ago, our team was struggling with " ++ topic_clean topic ++ lit ". Here's what changed everything...";
      lit "I used to think " ++ topic_clean topic ++ lit " was just another business buzzword. Then I saw the results.";
      lit "The most surprising thing about " ++ topic_clean topic ++ lit "? It wasn't what I expected at all..." ] in
  let base_story := subscript stories (py_hash rt topic mod len_list stories) in
  let lesson := nl ++ nl ++ lit "Lesson learned: Success comes from consistent application of proven principles, not flashy tools or overnight transformations." in
  let hashtags := _generate_social_tags rt topic in
  let full_post := base_story ++ lesson ++ nl ++ nl ++ hashtags in
  _truncate_to_limit full_post char_limit.

Definition limits : list (str * Z) :=
  [ (lit "twitter", 280); (lit "linkedin", 700); (lit "facebook", 500); (lit "instagram", 2200); (lit "general", 300) ].

Definition _generate_social_content
    (rt : Runtime) (request : ContentRequest) (variation_index : Z) : ContentOutput :=
  let platform := or_str (platform request) (lit "general") in
  let limit := get limits platform 300 in
  let '(title, content) :=
    if variation_index =? 0 then
      (lit "Quick Tip: " ++ topic request,
       _generate_question_post rt (topic request) (target_audience request) limit)
    else if variation_index =? 1 then
      (topic request ++ lit " Explained",
       _generate_value_post rt (topic request) (target_audience request) limit)
    else
      (lit "My Experience with " ++ topic request,
       _generate_story_post rt (topic request) (target_audience request) limit) in
  let cta := _generate_social_cta (topic request) platform in
  let tags := _generate_social_tags rt (topic request) in
  {| title := title;
     content := content;
     headings := [];
     o_call_to_action := Some cta;
     tags := TagText tags;
     o_word_count := len_list (split content) |}.

(** ** The digest builder *)

Definition _generate_newsletter_intro (topic audience : str) : str :=
  lit "In this week's newsletter, we're diving deep into " ++ topic_clean topic ++ lit " and its impact on modern business. Whether you're just getting started or looking to optimize your current approach, this edition has something for everyone.".

Definition _generate_newsletter_main (topic audience tone : str) : str :=
  lit "**Understanding " ++ topic_clean topic ++ lit "**" ++ nl ++
  nl ++
  lit "Recent industry data shows that organizations embracing " ++ topic_clean topic ++ lit " principles see significant improvements across multiple metrics:" ++ nl ++
  nl ++
  bullet ++ lit " 35% faster project completion times" ++ nl ++
  bullet ++ lit " 40% reduction in manual errors  " ++ nl ++
  bullet ++ lit " 60% improvement in team collaboration" ++ nl ++
  nl ++
  lit "But here's what's interesting: successful implementation isn't just about following processes" ++ em_dash ++ lit "it's about creating a culture of continuous improvement." ++ nl ++
  nl ++
  lit "**Key Implementation Strategies:**" ++ nl ++
  nl ++
  lit "1. **Start Small**: Begin with pilot projects in select teams" ++ nl ++
  lit "2. **Measure Everything**: Establish clear KPIs before implementation" ++ nl ++
  lit "3. **Communicate Value**: Ensure all stakeholders understand the benefits" ++ nl ++
  lit "4. **Iterate Quickly**: Use feedback loops to refine approaches" ++ nl ++
  nl ++
  lit "The companies seeing the best results aren't those with the most sophisticated tools" ++ em_dash ++ lit "they're those with the clearest understanding of what they're trying to achieve.".

Definition _generate_newsletter_featured (topic : str) : str :=
  lit "**Industry Spotlight**: This week, we're featuring how TechCorp successfully scaled " ++ topic_clean topic ++ lit " across 500+ employees in just 4 months. Their secret? Focusing on human elements before technical implementation." ++ nl ++
  nl ++
  lit "**Quick Question**: What's been your biggest challenge with " ++ topic_clean topic ++ lit " implementation? Reply to this email and we'll feature the best insights in next week's edition." ++ nl ++
  nl ++
  lit "**Resource Spotlight**: Check out our updated " ++ topic_clean topic ++ lit " toolkit with 15 proven templates and frameworks.".

Definition _generate_newsletter_conclusion (topic : str) : str :=
  lit "The future belongs to organizations that can adapt quickly and continuously improve. " ++ topic_clean topic ++ lit " provides the framework for exactly that kind of transformation." ++ nl ++
  nl ++
  lit "Whether you're just beginning your journey or looking to take your current implementation to the next level, focus on the fundamentals: clear strategy, proper communication, and consistent execution." ++ nl ++
  nl ++
  lit "What questions do you have about " ++ topic_clean topic ++ lit "? We'd love to hear from you" ++ em_dash ++ lit "just reply to this email.".

Definition _generate_newsletter_ps (topic : str) : str :=
  lit "Don't forget: " ++ topic_clean topic ++ lit " is a marathon, not a sprint. Take time to celebrate small wins along the way! " ++ tada.

Definition newsletter_title_templates (request : ContentRequest) : list str :=
  [ lit "Weekly Insights: " ++ topic request;
    lit "The " ++ topic request ++ lit " Newsletter";
    lit "Trending: " ++ topic request ++ lit " Update";
    lit "Deep Dive: " ++ topic request ].

Definition _generate_newsletter_content
    (rt : Runtime) (request : ContentRequest) (variation_index : Z) : ContentOutput :=
  let word_count := or_int (word_count request) 600 in
  let title_templates := newsletter_title_templates request in
  let title := subscript title_templates (variation_index mod len_list title_templates) in
  let intro_section := _generate_newsletter_intro (topic request) (target_audience request) in
  let main_section :=
    _generate_newsletter_main (topic request) (target_audience request) (tone request) in
  let featured_section := _generate_newsletter_featured (topic request) in
  let conclusion_section := _generate_newsletter_conclusion (topic request) in
  let content :=
    lit "## Welcome to This Week's Issue" ++ nl ++
    nl ++
    intro_section ++ nl ++
    nl ++
    lit "## Featured Article: " ++ topic request ++ nl ++
    nl ++
    main_section ++ nl ++
    nl ++
    lit "## What's Trending" ++ nl ++
    nl ++
    featured_section ++ nl ++
    nl ++
    lit "## Closing Thoughts" ++ nl ++
    nl ++
    conclusion_section ++ nl ++
    nl ++
    lit "---" ++ nl ++
    lit "P.S. " ++ _generate_newsletter_ps (topic request) ++ nl in
  let headings := _extract_headings content in
  let cta := lit "Subscribe to our weekly newsletter for more insights like this!" in
  {| title := title;
     content := content;
     headings := headings;
     o_call_to_action := Some cta;
     tags := TagList (_generate_seo_tags rt (topic request));
     o_word_count := _count_words content |}.

(** ** The script builder *)

Definition _generate_video_hook (topic audience : str) : str :=
  lit "What if I told you that " ++ topic_clean topic ++ lit " could transform your business in ways you never imagined? Today, I'm going to share the exact framework that's helped dozens of companies achieve remarkable results.".

Definition _generate_video_intro (topic : str) : str :=
  lit "Hi everyone! I'm excited to talk about " ++ topic_clean topic ++ lit " today because I've seen firsthand how it can completely change how organizations operate. In the next few minutes, I'll walk you through what " ++ topic_clean topic ++ lit " really means, why it matters, and most importantly, how you can implement it successfully.".

Definition _generate_video_main_points (topic audience : str) : str :=
  lit "**Point 1: Understanding the Fundamentals**" ++ nl ++
  topic_clean topic ++ lit " isn't just about processes" ++ em_dash ++ lit "it's about mindset. The most successful implementations start with understanding WHY before jumping into HOW." ++ nl ++
  nl ++
  lit "**Point 2: Common Implementation Challenges**  " ++ nl ++
  lit "Most organizations struggle with three things: resistance to change, unclear objectives, and insufficient training. Here's how to avoid these pitfalls..." ++ nl ++
  nl ++
  lit "[your_name] shares anecdotal evidence or real-world case study" ++ nl ++
  nl ++
  lit "**Point 3: Building Sustainable Success**" ++ nl ++
  lit "Sustainable " ++ topic_clean topic ++ lit " implementation requires ongoing commitment and continuous learning. It's not a one-time project" ++ em_dash ++ lit "it's an ongoing journey.".

Definition _generate_video_demonstration (topic : str) : str :=
  lit "Let me show you exactly how this works in practice. [Insert demonstration of " ++ topic_clean topic ++ lit " principles in action] This real-world example shows the difference between theoretical knowledge and practical application.".

Definition _generate_video_conclusion (topic : str) : str :=
  topic_clean topic ++ lit " isn't just another business trend" ++ em_dash ++ lit "it's a fundamental shift in how successful organizations operate. The companies embracing these principles today are building sustainable competitive advantages that will serve them for years to come." ++ nl ++
  nl ++
  lit "Remember: Success comes from consistent application of proven principles, not perfection on day one.".

Definition _generate_video_cta (topic : str) : str :=
  lit "If you found this helpful, please like and subscribe for more content like this. And if you're ready to start your " ++ topic_clean topic ++ lit " journey, check out the link in the description for our complete starter kit. Thanks for watching!".

Definition video_title_templates (request : ContentRequest) : list str :=
  [ lit "How " ++ topic request ++ lit " is Changing Everything";
    lit "The Complete Guide to " ++ topic request;
    topic request ++ lit ": What You Need to Know";
    lit "Why " ++ topic request ++ lit " Matters More Than Ever" ].

Definition _generate_video_script
    (rt : Runtime) (request : ContentRequest) (variation_index : Z) : result ContentOutput :=
  let word_count := or_int (word_count request) 1200 in
  let duration_minutes := word_count / 150 in
  let title_templates := video_title_templates request in
  let title := subscript title_templates (variation_index mod len_list title_templates) in
  let hook := _generate_video_hook (topic request) (target_audience request) in
  let intro := _generate_video_intro (topic request) in
  let main_points := _generate_video_main_points (topic request) (target_audience request) in
  let demonstration := _generate_video_demonstration (topic request) in
  let conclusion := _generate_video_conclusion (topic request) in
  let cta := _generate_video_cta (topic request) in
  half_less <- sub_half rt duration_minutes ;;
  let content :=
    lit "# Video Script: " ++ title ++ nl ++
    lit "**Duration: ~" ++ of_Z duration_minutes ++ lit " minutes**" ++ nl ++
    lit "**Target Audience: " ++ py_title rt (replace (target_audience request) (lit "_") (lit " ")) ++ lit "**" ++ nl ++
    nl ++
    lit "## Hook (0-15 seconds)" ++ nl ++
    hook ++ nl ++
    nl ++
    lit "## Introduction (15-45 seconds)" ++ nl ++
    intro ++ nl ++
    nl ++
    lit "## Main Content (45 seconds - " ++ of_Z (duration_minutes - 1) ++ lit " minutes)" ++ nl ++
    main_points ++ nl ++
    nl ++
    lit "## Demonstration/Example (" ++ of_Z (duration_minutes - 1) ++ lit "-" ++ half_less ++ lit " minutes)" ++ nl ++
    demonstration ++ nl ++
    nl ++
    lit "## Conclusion (" ++ half_less ++ lit "-" ++ of_Z duration_minutes ++ lit " minutes)" ++ nl ++
    conclusion ++ nl ++
    nl ++
    lit "## Call to Action (final 15 seconds)" ++ nl ++
    cta ++ nl ++
    nl ++
    lit "## Production Notes" ++ nl ++
    lit "- Include engaging visuals and graphics" ++ nl ++
    lit "- Add subtitles for accessibility" ++ nl ++
    lit "- Use energetic, clear delivery" ++ nl ++
    lit "- Maintain eye contact with camera" ++ nl ++
    lit "- Include relevant background music at low volume" ++ nl in
  let headings := _extract_headings content in
  ret {| title := title;
         content := content;
         headings := headings;
         o_call_to_action := Some cta;
         tags := TagList (_generate_seo_tags rt (topic request));
         o_word_count := _count_words content |}.

(** ** The campaign-email builder *)

Definition _generate_email_subject (rt : Runtime) (topic campaign_type : str) : str :=
  let subjects :=
    [ (lit "welcome",
       [ lit "Welcome to the " ++ topic_clean topic ++ lit " Success Hub! " ++ rocket;
         lit "Getting Started with " ++ topic_clean topic ++ lit ": Your Journey Begins Now" ]);
      (lit "educational",
       [ lit "The Complete Guide to " ++ topic_clean topic ++ lit " (Free)";
         lit "Understanding " ++ topic_clean topic ++ lit ": What Everyone Gets Wrong" ]);
      (lit "promotional",
       [ lit "Transform Your Business with " ++ topic_clean topic;
         topic_clean topic ++ lit ": The Secret Your Competitors Don't Know" ]) ] in
  let options := get subjects campaign_type [] in
  subscript options (py_hash rt topic mod len_list options).

Definition _generate_email_body (topic campaign_type audience : str) : str :=
  if eqb campaign_type (lit "welcome") then
    lit "Hi there!" ++ nl ++
    nl ++
    lit "Welcome to our community of " ++ topic_clean topic ++ lit " practitioners! " ++ tada ++ nl ++
    nl ++
    lit "You've just joined thousands of professionals who are transforming their organizations through strategic " ++ topic_clean topic ++ lit " implementation." ++ nl ++
    nl ++
    lit "Here's what you can expect:" ++ nl ++
    nl ++
    check_mark ++ lit " Weekly insights and best practices" ++ nl ++
    check_mark ++ lit " Exclusive resources and templates  " ++ nl ++
    check_mark ++ lit " Direct access to our expert team" ++ nl ++
    check_mark ++ lit " Member-only webinars and workshops" ++ nl ++
    nl ++
    lit "**Getting Started:**" ++ nl ++
    lit "1. Complete your profile in our member portal" ++ nl ++
    lit "2. Download your welcome package" ++ nl ++
    lit "3. Join our community discussion forum" ++ nl ++
    nl ++
    lit "Ready to dive in? Click below to access your starter resources!" ++ nl ++
    nl ++
    lit "Best regards," ++ nl ++
    lit "The Team"
  else if eqb campaign_type (lit "educational") then
    lit "Hi," ++ nl ++
    nl ++
    lit "I wanted to share something important about " ++ topic_clean topic ++ lit " that most people miss." ++ nl ++
    nl ++
    lit "After analyzing hundreds of implementations, I've noticed a pattern:" ++ nl ++
    nl ++
    lit "The successful companies aren't those with the biggest budgets or the latest tools" ++ em_dash ++ lit "they're the ones that understand the fundamental principles behind " ++ topic_clean topic ++ lit "." ++ nl ++
    nl ++
    lit "**What Sets Successful Organizations Apart:**" ++ nl ++
    nl ++
    lit "1. They start with clear objectives, not trendy tools" ++ nl ++
    lit "2. They focus on cultural adoption first, technical implementation second  " ++ nl ++
    lit "3. They measure progress continuously and adjust quickly" ++ nl ++
    lit "4. They invest in training and ongoing support" ++ nl ++
    nl ++
    lit "**The 80/20 Rule of " ++ topic_clean topic ++ lit ":**" ++ nl ++
    lit "80% of your results come from 20% of the core principles. Master these fundamentals, and everything else becomes much easier." ++ nl ++
    nl ++
    lit "Want to learn the specific 20% that delivers massive results? " ++ nl ++
    nl ++
    lit "Download our comprehensive guide (completely free) and discover the framework that's helped organizations achieve remarkable transformation." ++ nl ++
    nl ++
    lit "To your success," ++ nl ++
    lit "[Your Name]"
  else
    lit "Hi [Name]," ++ nl ++
    nl ++
    lit "What if I told you that in 90 days, you could transform how your organization operates with " ++ topic_clean topic ++ lit "?" ++ nl ++
    nl ++
    lit "I know that seems ambitious, but I've seen it happen dozens of times." ++ nl ++
    nl ++
    lit "The secret isn't working harder" ++ em_dash ++ lit "it's working smarter with proven frameworks that thousands of successful organizations use." ++ nl ++
    nl ++
    lit "**Here's What You Get:**" ++ nl ++
    nl ++
    check_box ++ lit " Our complete " ++ topic_clean topic ++ lit " implementation toolkit" ++ nl ++
    check_box ++ lit " Access to our exclusive member community  " ++ nl ++
    check_box ++ lit " Personalized consultation with our experts" ++ nl ++
    check_box ++ lit " Ongoing support during your transformation" ++ nl ++
    nl ++
    lit "**Special Offer (Limited Time):**" ++ nl ++
    lit "Normally $997, but as a valued subscriber, you can access everything for just $297." ++ nl ++
    nl ++
    lit "This includes everything you need to get started immediately:" ++ nl ++
    lit "- 25 proven templates and frameworks" ++ nl ++
    lit "- Video training series (5+ hours of content)" ++ nl ++
    lit "- Monthly group coaching calls" ++ nl ++
    lit "- Direct email support" ++ nl ++
    nl ++
    lit "**But this offer expires at midnight tonight.**" ++ nl ++
    nl ++
    lit "That's because we believe in results, not indefinite deliberation. If you're ready to transform your organization with " ++ topic_clean topic ++ lit ", now's the time to act." ++ nl ++
    nl ++
    lit "Click below to secure your spot before it's too late." ++ nl ++
    nl ++
    lit "Best regards," ++ nl ++
    lit "[Your Name]" ++ nl ++
    nl ++
    lit "P.S. Questions? Just reply to this email" ++ em_dash ++ lit "I personally read every response.".

Definition _generate_email_footer (topic : str) : str :=
  lit "---" ++ nl ++
  lit "**Need help implementing " ++ topic_clean topic ++ lit "?** " ++ nl ++
  lit "Book a free consultation: [your-website.com/consultation]" ++ nl ++
  nl ++
  lit "**Connect with us:**" ++ nl ++
  lit "Blog | LinkedIn | Twitter | YouTube" ++ nl ++
  nl ++
  copyright ++ lit " 2024 Your Company Name. All rights reserved." ++ nl ++
  lit "You received this email because you subscribed to our newsletter." ++ nl ++
  lit "Unsubscribe | Update preferences".

Definition _generate_email_cta (campaign_type : str) : str :=
  get [ (lit "welcome", lit "Access Your Starter Resources " ++ arrow);
        (lit "educational", lit "Download Free Guide " ++ arrow);
        (lit "promotional", lit "Claim Your Spot Now " ++ arrow) ]
      campaign_type (lit "Learn More " ++ arrow).

Definition campaign_types : list str :=
  [lit "welcome"; lit "educational"; lit "promotional"].

Definition email_title_templates (request : ContentRequest) : list (str * list str) :=
  [ (lit "welcome", [lit "Welcome to the " ++ topic request ++ lit " Journey"; lit "Getting Started with " ++ topic request]);
    (lit "educational", [lit "Understanding " ++ topic request ++ lit ": A Complete Guide"; lit "The Science Behind " ++ topic request]);
    (lit "promotional", [lit "Transform Your Business with " ++ topic request; topic request ++ lit ": The Game-Changer You Need"]) ].

Definition _generate_email_campaign
    (rt : Runtime) (request : ContentRequest) (variation_index : Z) : ContentOutput :=
  let word_count := or_int (word_count request) 400 in
  let campaign_type := subscript campaign_types (variation_index mod len_list campaign_types) in
  let title_options := get (email_title_templates request) campaign_type [] in
  let title := subscript title_options (variation_index mod len_list title_options) in
  let subject_line := _generate_email_subject rt (topic request) campaign_type in
  let body := _generate_email_body (topic request) campaign_type (target_audience request) in
  let footer := _generate_email_footer (topic request) in
  let content :=
    lit "**Subject Line:** " ++ subject_line ++ nl ++
    nl ++
    lit "---" ++ nl ++
    nl ++
    lit "**Email Body:**" ++ nl ++
    nl ++
    body ++ nl ++
    nl ++
    lit "---" ++ nl ++
    nl ++
    lit "**Footer:**" ++ nl ++
    footer ++ nl in
  let headings := _extract_headings content in
  {| title := title;
     content := content;
     headings := headings;
     o_call_to_action := Some (_generate_email_cta campaign_type);
     tags := TagList (_generate_seo_tags rt (topic request));
     o_word_count := _count_words content |}.

(** ** The analysis *)

Definition _generate_communication_strategy (rt : Runtime) (request : ContentRequest) : str :=
  let audience := get audience_profiles (target_audience request) general_audience in
  nl ++
  lit "**Communication Strategy for " ++ py_title rt (replace (target_audience request) (lit "_") (lit " ")) ++ lit ":**" ++ nl ++
  nl ++
  lit "- **Primary interests**: " ++ join (lit ", ") (take 3 (interests audience)) ++ nl ++
  lit "- **Pain points**: " ++ join (lit ", ") (take 3 (pain_points audience)) ++ nl ++
  lit "- **Communication style**: " ++ language audience ++ nl ++
  lit "- **Content tone**: " ++ _generate_communication_style (tone request) ++ nl ++
  lit "- **Engagement approach**: Focus on practical applications and measurable outcomes" ++ nl.

(** How an f-string renders an optional [str]. *)
Definition format_optional (x : option str) : str :=
  match x with
  | Some s => s
  | None => lit "None"
  end.

(** [', '.join(variation.tags[:5]) if variation.tags else 'None']: on a
    string the slice takes five characters and [join] separates them. *)
Definition format_key_tags (t : tags_value) : str :=
  match t with
  | TagList [] | TagText [] => lit "None"
  | TagList l => join (lit ", ") (take 5 l)
  | TagText s => join (lit ", ") (map (fun c => [c]) (take 5 s))
  end.

(** The loop over [enumerate(variations, 1)]. *)
Fixpoint variations_summary (i : Z) (variations : list ContentOutput) : str :=
  match variations with
  | [] => []
  | variation :: rest =>
      (nl ++ lit "### Variation " ++ of_Z i ++ lit ": " ++ title variation ++ nl)
      ++ (lit "- **Word Count**: " ++ of_Z (o_word_count variation) ++ nl)
      ++ (lit "- **Call to Action**: " ++ format_optional (o_call_to_action variation) ++ nl)
      ++ (lit "- **Key Tags**: " ++ format_key_tags (tags variation) ++ nl)
      ++ variations_summary (i + 1) rest
  end.

Definition _generate_content_analysis
    (rt : Runtime) (request : ContentRequest) (variations : list ContentOutput) : str :=
  let avg_word_count :=
    format_0f_div (fold_right Z.add 0 (map o_word_count variations)) (len_list variations) in
  let communication_strategy := _generate_communication_strategy rt request in
  let analysis :=
    nl ++
    lit "# Content Generation Analysis" ++ nl ++
    nl ++
    lit "## Overview" ++ nl ++
    lit "- **Topic**: " ++ topic request ++ nl ++
    lit "- **Content Type**: " ++ content_type request ++ nl ++
    lit "- **Target Audience**: " ++ py_title rt (replace (target_audience request) (lit "_") (lit " ")) ++ nl ++
    lit "- **Tone**: " ++ py_title rt (tone request) ++ nl ++
    lit "- **Average Word Count**: " ++ avg_word_count ++ lit " words" ++ nl ++
    nl ++
    lit "## Content Variations Summary" ++ nl in
  let analysis := analysis ++ variations_summary 1 variations in
  let analysis := analysis ++ communication_strategy in
  let analysis := analysis ++
    nl ++
    lit "## Recommendations" ++ nl ++
    nl ++
    lit "1. **Best for Professional Use**: Variation 2 typically works best for B2B audiences" ++ nl ++
    lit "2. **Highest Engagement**: Variation 1 tends to generate more social shares" ++ nl ++
    lit "3. **SEO Optimization**: Include targeted keywords naturally throughout content" ++ nl ++
    lit "4. **Platform Adaptation**: Modify tone and length based on target platform" ++ nl ++
    nl ++
    lit "## Next Steps" ++ nl ++
    nl ++
    lit "1. Review all variations and select the best fit for your objectives" ++ nl ++
    lit "2. Customize selected content with your brand voice and specific examples" ++ nl ++
    lit "3. Add relevant images, links, and formatting for optimal presentation" ++ nl ++
    lit "4. Schedule publication timing for maximum audience engagement" ++ nl in
  analysis.

(** ** The variation selector *)

Definition builder : Type := Runtime -> ContentRequest -> Z -> result ContentOutput.

Definition content_types : list (str * builder) :=
  [ (lit "blog", _generate_blog_content);
    (lit "social_media", fun rt request i => ret (_generate_social_content rt request i));
    (lit "newsletter", fun rt request i => ret (_generate_newsletter_content rt request i));
    (lit "video_script", _generate_video_script);
    (lit "email_campaign", fun rt request i => ret (_generate_email_campaign rt request i)) ].

Definition _generate_single_variation
    (rt : Runtime) (request : ContentRequest) (variation_index : Z) : result ContentOutput :=
  generate <- getitem content_types (content_type request) ;;
  generate rt request variation_index.

(** The body of the [try] block. *)
Definition generate_content_body
    (rt : Runtime) (request : ContentRequest) : result (list ContentOutput * str) :=
  match lookup (content_type request) content_types with
  | None => raise (ValueError (lit "Unsupported content type: " ++ content_type request))
  | Some _ =>
      variations <- for_each (_generate_single_variation rt request) [0; 1; 2] ;;
      let analysis := _generate_content_analysis rt request variations in
      ret (variations, analysis)
  end.

(** [generate_content]: whatever the body raises is raised again as a plain
    [Exception] whose message quotes it. *)
Definition generate_content
    (rt : Runtime) (request : ContentRequest) : result (list ContentOutput * str) :=
  match generate_content_body rt request with
  | inl e => raise (Exception (lit "Content generation failed: " ++ str_of_exn rt e))
  | inr r => ret r
  end.

(** ** A reference runtime *)

(** A concrete runtime to run the engine on: a polynomial hash, [set]
    order by first occurrence, the ASCII part of the case tables (which is
    all of them on ASCII text), and a stand-in for the printing of large
    floats. *)

Definition ref_hash (s : str) : Z :=
  fold_left (fun h c => (31 * h + Z.of_N c) mod 2 ^ 61) s 7.

Definition is_upper (c : char) : bool := (65 <=? c)%N && (c <=? 90)%N.
Definition is_lower (c : char) : bool := (97 <=? c)%N && (c <=? 122)%N.
Definition to_lower (c : char) : char := if is_upper c then (c + 32)%N else c.
Definition to_upper (c : char) : char := if is_lower c then (c - 32)%N else c.

Definition ref_lower (s : str) : str := map to_lower s.

(** [str.title]: a cased character is upper-cased after an uncased one and
    lower-cased after a cased one. *)
Fixpoint ref_title_go (prev_cased : bool) (s : str) : str :=
  match s with
  | [] => []
  | c :: r =>
      (if prev_cased then to_lower c else to_upper c)
      :: ref_title_go (is_upper c || is_lower c) r
  end.

Definition ref_title (s : str) : str := ref_title_go false s.

Definition ref_repr (s : str) : str := lit "'" ++ s ++ lit "'".

Definition ref_runtime : Runtime :=
  {| py_hash := ref_hash;
     py_set := nodup PyStr.eq_dec;
     py_set_NoDup := NoDup_nodup PyStr.eq_dec;
     py_set_In := fun l x => nodup_In PyStr.eq_dec l x;
     py_lower := ref_lower;
     py_title := ref_title;
     py_repr := ref_repr;
     py_repr_minus_half := fun d => of_Z d ++ lit ".0" |}.

(** The request of the module's own example run. *)
Definition devops_request : ContentRequest :=
  {| topic := lit "Benefits of DevOps for Startups";
     content_type := lit "blog";
     target_audience := lit "startup_founders";
     tone := lit "professional";
     word_count := None;
     platform := None;
     call_to_action := None;
     include_examples := true;
     include_seo := true |}.

(** An article request whose tone is not a key of [tone_templates]. *)
Definition sarcastic_request : ContentRequest :=
  {| topic := lit "Remote Work";
     content_type := lit "blog";
     target_audience := lit "general_audience";
     tone := lit "sarcastic";
     word_count := None;
     platform := None;
     call_to_action := None;
     include_examples := true;
     include_seo := true |}.

(** A request for a content type the engine does not know. *)
Definition podcast_request : ContentRequest :=
  {| topic := lit "Remote Work";
     content_type := lit "podcast";
     target_audience := lit "general_audience";
     tone := lit "professional";
     word_count := None;
     platform := None;
     call_to_action := None;
     include_examples := true;
     include_seo := true |}.

(** The request with its [word_count] replaced. *)
Definition with_word_count (wc : option Z) (request : ContentRequest) : ContentRequest :=
  {| topic := topic request;
     content_type := content_type request;
     target_audience := target_audience request;
     tone := tone request;
     word_count := wc;
     platform := platform request;
     call_to_action := call_to_action request;
     include_examples := include_examples request;
     include_seo := include_seo request |}.

(** The request with its [content_type] replaced. *)
Definition with_content_type (ct : str) (request : ContentRequest) : ContentRequest :=
  {| topic := topic request;
     content_type := ct;
     target_audience := target_audience request;
     tone := tone request;
     word_count := word_count request;
     platform := platform request;
     call_to_action := call_to_action request;
     include_examples := include_examples request;
     include_seo := include_seo request |}.

(** The reference runtime with every hash shifted by one: another process. *)
Definition shifted_runtime : Runtime :=
  {| py_hash := fun s => ref_hash s + 1;
     py_set := nodup PyStr.eq_dec;
     py_set_NoDup := NoDup_nodup PyStr.eq_dec;
     py_set_In := fun l x => nodup_In PyStr.eq_dec l x;
     py_lower := ref_lower;
     py_title := ref_title;
     py_repr := ref_repr;
     py_repr_minus_half := fun d => of_Z d ++ lit ".0" |}.

(** A script request, to be run with two different word counts. *)
Definition video_request : ContentRequest :=
  with_content_type (lit "video_script") devops_request.

(** The profile and the tone template the article builder resolves for
    [devops_request]. *)
Definition devops_audience : AudienceProfile :=
  get audience_profiles (target_audience devops_request) general_audience.

Definition devops_tone : ToneTemplate :=
  get tone_templates (tone devops_request)
      {| style := []; emphasis := []; examples := [] |}.

(** The sections of the article that interpolate the normalized topic. *)
Definition normalizing_sections (topic : str) : list str :=
  [ _generate_problem_section topic devops_audience;
    _generate_solution_section topic devops_audience devops_tone;
    _generate_benefits_section topic devops_audience devops_tone;
    _generate_examples_section topic devops_tone;
    _generate_blog_conclusion topic devops_audience devops_tone ].

(** The normalization as the specification words it, for comparison with
    [topic_clean]: strip a leading [Benefits of ] and a trailing [ for], and
    leave the rest of the topic as it is. *)
Definition strip_prefix (p s : str) : str :=
  if starts_with p s then skipn (List.length p) s else s.

Definition strip_suffix (p s : str) : str :=
  rev (strip_prefix (rev p) (rev s)).

Definition spec_normalize_topic (topic : str) : str :=
  strip_suffix (lit " for") (strip_prefix (lit "Benefits of ") topic).

(** A script request whose duration does not convert to a float. *)
Definition huge_script_request : ContentRequest :=
  with_word_count (Some (150 * 2 ^ 1024)) video_request.

(** ** The vocabulary of the properties *)

(** The keys of the two tables the engine subscripts. *)
Definition known_content_types : list str := map fst content_types.
Definition known_tones : list str := map fst tone_templates.

(** The script builder subtracts 0.5 from its duration in minutes, which
    must convert to a float. *)
Definition script_duration (request : ContentRequest) : Z :=
  or_int (word_count request) 1200 / 150.

(** What the request must satisfy for [generate_content] to return. *)
Definition well_formed (request : ContentRequest) : Prop :=
  In (content_type request) known_content_types /\
  (content_type request = lit "blog" -> In (tone request) known_tones) /\
  (content_type request = lit "video_script" ->
   Z.abs (script_duration request) < float_overflow).

(** The three ways a request can fail to be well formed. *)
Definition ill_formed (request : ContentRequest) : Prop :=
  ~ In (content_type request) known_content_types
  \/ (content_type request = lit "blog" /\ ~ In (tone request) known_tones)
  \/ (content_type request = lit "video_script"
      /\ float_overflow <= Z.abs (script_duration request)).

(** What [generate_content] gets from the runtime for a request: the hash
    of the topic, up to the sizes 2, 3 and 4 of the lists it selects from
    (so up to 12), the order in which the set of the topic's tags is
    listed, and the text of [title] and [repr] at the request's audience
    and tone and of the duration less one half.  Two runtimes are the same
    to a request when they agree on these. *)
Definition same_observations (rt1 rt2 : Runtime) (request : ContentRequest) : Prop :=
  py_hash rt1 (topic request) mod 12 = py_hash rt2 (topic request) mod 12
  /\ seo_tag_set rt1 (topic request) = seo_tag_set rt2 (topic request)
  /\ py_title rt1 (replace (target_audience request) (lit "_") (lit " "))
     = py_title rt2 (replace (target_audience request) (lit "_") (lit " "))
  /\ py_title rt1 (tone request) = py_title rt2 (tone request)
  /\ py_repr rt1 (tone request) = py_repr rt2 (tone request)
  /\ py_repr_minus_half rt1 (script_duration request)
     = py_repr_minus_half rt2 (script_duration request).

(** The reference runtime with every hash 12 higher: another seed that
    happens to select the same phrasings. *)
Definition lucky_runtime : Runtime :=
  {| py_hash := fun s => ref_hash s + 12;
     py_set := nodup PyStr.eq_dec;
     py_set_NoDup := NoDup_nodup PyStr.eq_dec;
     py_set_In := fun l x => nodup_In PyStr.eq_dec l x;
     py_lower := ref_lower;
     py_title := ref_title;
     py_repr := ref_repr;
     py_repr_minus_half := fun d => of_Z d ++ lit ".0" |}.

(** ** Requests with one field replaced *)

Definition with_topic (t : str) (request : ContentRequest) : ContentRequest :=
  {| topic := t;
     content_type := content_type request;
     target_audience := target_audience request;
     tone := tone request;
     word_count := word_count request;
     platform := platform request;
     call_to_action := call_to_action request;
     include_examples := include_examples request;
     include_seo := include_seo request |}.

Definition with_platform (p : option str) (request : ContentRequest) : ContentRequest :=
  {| topic := topic request;
     content_type := content_type request;
     target_audience := target_audience request;
     tone := tone request;
     word_count := word_count request;
     platform := p;
     call_to_action := call_to_action request;
     include_examples := include_examples request;
     include_seo := include_seo request |}.

Definition with_call_to_action (c : option str) (request : ContentRequest) : ContentRequest :=
  {| topic := topic request;
     content_type := content_type request;
     target_audience := target_audience request;
     tone := tone request;
     word_count := word_count request;
     platform := platform request;
     call_to_action := c;
     include_examples := include_examples request;
     include_seo := include_seo request |}.

Definition with_include_examples (b : bool) (request : ContentRequest) : ContentRequest :=
  {| topic := topic request;
     content_type := content_type request;
     target_audience := target_audience request;
     tone := tone request;
     word_count := word_count request;
     platform := platform request;
     call_to_action := call_to_action request;
     include_examples := b;
     include_seo := include_seo request |}.

Definition with_include_seo (b : bool) (request : ContentRequest) : ContentRequest :=
  {| topic := topic request;
     content_type := content_type request;
     target_audience := target_audience request;
     tone := tone request;
     word_count := word_count request;
     platform := platform request;
     call_to_action := call_to_action request;
     include_examples := include_examples request;
     include_seo := b |}.

Definition with_target_audience (a : str) (request : ContentRequest) : ContentRequest :=
  {| topic := topic request;
     content_type := content_type request;
     target_audience := a;
     tone := tone request;
     word_count := word_count request;
     platform := platform request;
     call_to_action := call_to_action request;
     include_examples := include_examples request;
     include_seo := include_seo request |}.

(** The platform the short-post builder works with. *)
Definition resolved_platform (request : ContentRequest) : str :=
  or_str (platform request) (lit "general").

(** ** Words and lines *)

(** A word as [split] returns it: not empty and free of whitespace. *)
Definition is_word (t : str) : Prop :=
  t <> [] /\ Forall (fun c => isspace c = false) t.

(** The heading a single line gives, if any: one or more [#], one or more
    whitespace characters, and then the non-empty rest of the line. *)
Definition heading_of_line (l : str) : option str :=
  let h := count_prefix (N.eqb hash_sign) l in
  let s1 := skipn h l in
  let w := count_prefix isspace s1 in
  match h, w, skipn w s1 with
  | S _, S _, c :: t => Some (c :: t)
  | _, _, _ => None
  end.

(** A line that starts with [#] goes on after its [#]s and the whitespace
    behind them: it is not made of [#]s and blanks alone. *)
Definition line_goes_on (l : str) : Prop :=
  count_prefix (N.eqb hash_sign) l = 0%nat
  \/ skipn (count_prefix isspace (skipn (count_prefix (N.eqb hash_sign) l) l))
       (skipn (count_prefix (N.eqb hash_sign) l) l) <> [].

Definition newline_free (l : str) : Prop := Forall (fun c => c <> newline) l.

Definition headings_of_lines (lines : list str) : list str :=
  flat_map (fun l => match heading_of_line l with
                     | Some t => [t]
                     | None => []
                     end) lines.

(** A text that can stand behind [## ] as a heading: on one line, and
    starting with a character that is not whitespace. *)
Definition heading_text (h : str) : Prop :=
  newline_free h /\ exists c t, h = c :: t /\ isspace c = false.

(** The reference runtime with the opposite [set] order. *)
Definition reversed_runtime : Runtime :=
  {| py_hash := ref_hash;
     py_set := fun l => rev (nodup PyStr.eq_dec l);
     py_set_NoDup := fun l => NoDup_rev (NoDup_nodup PyStr.eq_dec l);
     py_set_In := fun l x =>
       iff_trans (iff_sym (in_rev _ x)) (nodup_In PyStr.eq_dec l x);
     py_lower := ref_lower;
     py_title := ref_title;
     py_repr := ref_repr;
     py_repr_minus_half := fun d => of_Z d ++ lit ".0" |}.

(** Checks on a piece of text, for the pieces a document is assembled from. *)
Definition no_newline (s : str) : bool :=
  forallb (fun c => negb (N.eqb c newline)) s.

(** A piece that can start a line without starting a heading: on one line,
    not empty, and not starting with [#]. *)
Definition plain_start (s : str) : bool :=
  match s with
  | [] => false
  | c :: _ => negb (N.eqb c hash_sign) && no_newline s
  end.

(** The headings of every article, in document order. *)
Definition blog_headings : list str :=
  [ lit "The Problem"; lit "The Solution"; lit "Key Benefits";
    lit "Implementation"; lit "Real-World Examples"; lit "Conclusion" ].

(** The headings of every digest on [topic], in document order. *)
Definition newsletter_headings (topic : str) : list str :=
  [ lit "Welcome to This Week's Issue"; lit "Featured Article: " ++ topic;
    lit "What's Trending"; lit "Closing Thoughts" ].

(** The headings of a script with the given title and duration in minutes,
    as long as the duration less one half is an exact double. *)
Definition script_headings (title : str) (duration_minutes : Z) : list str :=
  [ lit "Video Script: " ++ title;
    lit "Hook (0-15 seconds)";
    lit "Introduction (15-45 seconds)";
    lit "Main Content (45 seconds - " ++ of_Z (duration_minutes - 1) ++ lit " minutes)";
    lit "Demonstration/Example (" ++ of_Z (duration_minutes - 1) ++ lit "-"
      ++ of_half_less duration_minutes ++ lit " minutes)";
    lit "Conclusion (" ++ of_half_less duration_minutes ++ lit "-"
      ++ of_Z duration_minutes ++ lit " minutes)";
    lit "Call to Action (final 15 seconds)";
    lit "Production Notes" ].

(** * The console front end: [content_ui_simple.py]

    [main] reads the requirements of a request from the console, one round
    of its loop per request, and hands the request to [generate_content].
    The reading part of a round is embedded here as a function over a
    console: the lines still to be read and the text written so far. *)

(** ** [str.strip()] *)

Fixpoint lstrip (s : str) : str :=
  match s with
  | c :: r => if isspace c then lstrip r else s
  | [] => []
  end.

Definition rstrip (s : str) : str := rev (lstrip (rev s)).

Definition strip (s : str) : str := rstrip (lstrip s).

(** The truth value of a [str]. *)
Definition nonempty (s : str) : bool :=
  match s with
  | [] => false
  | _ :: _ => true
  end.

(** ** The console *)

(** [stdin] holds the lines [input] will return, without their line ends;
    [stdout] is everything written so far, and takes every character. *)
Record Console := { stdin : list str; stdout : str }.

(** What escapes the reading part of a round: the [EOFError] of [input]
    when no line is left, and the [ValueError] of [int]. *)
Inductive ui_exn := EOFError | IntValueError.

Definition io (A : Type) : Type := Console -> (ui_exn + A) * Console.

Definition io_ret {A} (a : A) : io A := fun c => (inr a, c).

Definition io_raise {A} (e : ui_exn) : io A := fun c => (inl e, c).

Definition io_bind {A B} (m : io A) (k : A -> io B) : io B :=
  fun c =>
    match m c with
    | (inr a, c') => k a c'
    | (inl e, c') => (inl e, c')
    end.

Notation "x <~ m ;; k" := (io_bind m (fun x => k))
  (at level 61, m at next level, right associativity).
Notation "m ;;; k" := (io_bind m (fun _ => k))
  (at level 61, right associativity).

(** [print(s)] *)
Definition print (s : str) : io unit :=
  fun c => (inr tt, {| stdin := stdin c; stdout := stdout c ++ s ++ nl |}).

(** [input(prompt)]: the prompt is written, then a line is read. *)
Definition input (prompt : str) : io str :=
  fun c =>
    match stdin c with
    | [] => (inl EOFError, {| stdin := []; stdout := stdout c ++ prompt |})
    | line :: rest => (inr line, {| stdin := rest; stdout := stdout c ++ prompt |})
    end.

(** [c'] is [c] after some lines have been read. *)
Definition reads (c c' : Console) : Prop :=
  exists used, stdin c = used ++ stdin c'.

(** [while True: choice = input(prompt).strip(); if choice in d: x = d[choice];
    break; print(invalid)]: one round per line, until a line names a key
    of [d]. *)
Fixpoint choose (d : list (str * str)) (prompt invalid : str)
    (lines : list str) (out : str) : (ui_exn + str) * Console :=
  match lines with
  | [] => (inl EOFError, {| stdin := []; stdout := out ++ prompt |})
  | line :: rest =>
      let choice := strip line in
      match lookup choice d with
      | Some code => (inr code, {| stdin := rest; stdout := out ++ prompt |})
      | None => choose d prompt invalid rest (out ++ prompt ++ invalid ++ nl)
      end
  end.

Definition choose_from (d : list (str * str)) (prompt invalid : str) : io str :=
  fun c => choose d prompt invalid (stdin c) (stdout c).

Definition content_type_map : list (str * str) :=
  [ (lit "1", lit "blog"); (lit "2", lit "social_media"); (lit "3", lit "newsletter");
    (lit "4", lit "video_script"); (lit "5", lit "email_campaign") ].

Definition audience_map : list (str * str) :=
  [ (lit "1", lit "startup_founders"); (lit "2", lit "tech_leads");
    (lit "3", lit "marketing_professionals"); (lit "4", lit "general_audience") ].

Definition tone_map : list (str * str) :=
  [ (lit "1", lit "professional"); (lit "2", lit "conversational");
    (lit "3", lit "persuasive"); (lit "4", lit "informative"); (lit "5", lit "humorous") ].

Definition platform_map : list (str * str) :=
  [ (lit "1", lit "twitter"); (lit "2", lit "linkedin"); (lit "3", lit "facebook");
    (lit "4", lit "instagram"); (lit "5", lit "general") ].

(** The platform menu, shown for [social_media] only. *)
Definition main_platform (content_type : str) : io (option str) :=
  if eqb content_type (lit "social_media") then
    print (nl ++ lit "Social Media Platforms:") ;;;
    print (lit "1. Twitter") ;;;
    print (lit "2. LinkedIn") ;;;
    print (lit "3. Facebook") ;;;
    print (lit "4. Instagram") ;;;
    print (lit "5. General") ;;;
    platform <~ choose_from platform_map (lit "Select platform (1-5): ")
                  (lit "Invalid choice. Please enter 1-5.") ;;
    io_ret (Some platform)
  else io_ret None.

(** One round of the loop of [main], from its first line to the request it
    builds; [None] is the [break] on an empty topic.  [py_int] is [int] on
    a [str]: [None] where it raises [ValueError], which nothing catches
    here. *)
Definition main_request (py_int : str -> option Z) : io (option ContentRequest) :=
  print (nl ++ lit "Enter your content requirements:") ;;;
  print (lit "(Press Enter with empty field to exit)") ;;;
  line <~ input (lit "Topic: ") ;;
  let topic := strip line in
  if negb (nonempty topic) then io_ret None
  else
    print (nl ++ lit "Content Types:") ;;;
    print (lit "1. Blog Post") ;;;
    print (lit "2. Social Media") ;;;
    print (lit "3. Newsletter") ;;;
    print (lit "4. Video Script") ;;;
    print (lit "5. Email Campaign") ;;;
    content_type <~ choose_from content_type_map (lit "Select content type (1-5): ")
                      (lit "Invalid choice. Please enter 1-5.") ;;
    print (nl ++ lit "Target Audiences:") ;;;
    print (lit "1. Startup Founders") ;;;
    print (lit "2. Tech Leads") ;;;
    print (lit "3. Marketing Professionals") ;;;
    print (lit "4. General Audience") ;;;
    audience <~ choose_from audience_map (lit "Select audience (1-4): ")
                  (lit "Invalid choice. Please enter 1-4.") ;;
    print (nl ++ lit "Content Tones:") ;;;
    print (lit "1. Professional") ;;;
    print (lit "2. Conversational") ;;;
    print (lit "3. Persuasive") ;;;
    print (lit "4. Informative") ;;;
    print (lit "5. Humorous") ;;;
    tone <~ choose_from tone_map (lit "Select tone (1-5): ")
              (lit "Invalid choice. Please enter 1-5.") ;;
    line <~ input (lit "Word count (optional, press Enter for default): ") ;;
    let word_count := strip line in
    word_count <~ (if nonempty word_count
                   then match py_int word_count with
                        | Some n => io_ret (Some n)
                        | None => io_raise IntValueError
                        end
                   else io_ret None) ;;
    platform <~ main_platform content_type ;;
    line <~ input (lit "Custom CTA (optional, press Enter to skip): ") ;;
    let cta := strip line in
    let cta := if nonempty cta then Some cta else None in
    io_ret (Some {| topic := topic;
                    content_type := content_type;
                    target_audience := audience;
                    tone := tone;
                    word_count := word_count;
                    platform := platform;
                    call_to_action := cta;
                    include_examples := true;
                    include_seo := true |}).

(** [int] on the decimal numerals of ASCII digits, the part of it the
    examples need. *)
Definition digit_value (c : char) : option Z :=
  if (48 <=? c)%N && (c <=? 57)%N then Some (Z.of_N c - 48) else None.

Fixpoint ref_int_go (acc : Z) (s : str) : option Z :=
  match s with
  | [] => Some acc
  | c :: r =>
      match digit_value c with
      | Some d => ref_int_go (10 * acc + d) r
      | None => None
      end
  end.

Definition ref_int (s : str) : option Z :=
  match s with
  | [] => None
  | _ :: _ => ref_int_go 0 s
  end.

(** A session at the console: an article on CI pipelines. *)
Definition article_session : Console :=
  {| stdin := [ lit "  CI pipelines "; lit "blog post"; lit "1"; lit "2"; lit " 3";
                lit "900"; [] ];
     stdout := [] |}.

(** The request that session gives. *)
Definition article_session_request : ContentRequest :=
  {| topic := lit "CI pipelines";
     content_type := lit "blog";
     target_audience := lit "tech_leads";
     tone := lit "persuasive";
     word_count := Some 900;
     platform := None;
     call_to_action := None;
     include_examples := true;
     include_seo := true |}.

(** A session that asks for a short post. *)
Definition post_session : Console :=
  {| stdin := [ lit "Release trains"; lit "2"; lit "4"; lit "5"; [];
                lit "linked in"; lit "2"; lit "Join us" ];
     stdout := [] |}.

(** A session that asks for a script of [10^320] words. *)
Definition long_script_session : Console :=
  {| stdin := [ lit "Release trains"; lit "4"; lit "1"; lit "1";
                lit "1" ++ List.concat (List.repeat (lit "0") 320); [] ];
     stdout := [] |}.

(** A session with a word count that is no numeral. *)
Definition wordy_session : Console :=
  {| stdin := [ lit "Release trains"; lit "4"; lit "1"; lit "1"; lit "many"; [] ];
     stdout := [] |}.

(** The request the short-post session gives. *)
Definition post_session_request : ContentRequest :=
  {| topic := lit "Release trains";
     content_type := lit "social_media";
     target_audience := lit "general_audience";
     tone := lit "humorous";
     word_count := None;
     platform := Some (lit "linkedin");
     call_to_action := Some (lit "Join us");
     include_examples := true;
     include_seo := true |}.

(** * Properties *)

(** ** Sanity checks of the string primitives *)

Example split_example :
  split (lit "  Benefits of   DevOps ") = [lit "Benefits"; lit "of"; lit "DevOps"].
Proof. reflexivity. Qed.

Example replace_example :
  replace (lit "a for b for") (lit " for") [] = lit "a b".
Proof. reflexivity. Qed.

Example findall_example :
  findall_headings (lit "# A" ++ nl ++ lit "text # no" ++ nl ++ lit "##  B"
                    ++ nl ++ lit "#C" ++ nl ++ lit "### A")
  = [lit "A"; lit "B"; lit "A"].
Proof. reflexivity. Qed.

Example rendering_example :
  of_Z 0 = lit "0" /\ of_Z (-12) = lit "-12" /\ of_half_less 8 = lit "7.5"
  /\ of_half_less 0 = lit "-0.5" /\ format_0f_div 1234 3 = lit "411"
  /\ format_0f_div 5 2 = lit "2".
Proof. repeat split; reflexivity. Qed.

Example ref_title_example :
  ref_title (lit "startup founders") = lit "Startup Founders".
Proof. reflexivity. Qed.

(** ** Strings: lengths, slices and [rfind] *)

Lemma In_firstn {A} (n : nat) (l : list A) (x : A) :
  In x (firstn n l) -> In x l.
Proof.
  intros H; rewrite <- (firstn_skipn n l); apply in_or_app; now left.
Qed.

Section StrFacts.

Lemma len_nonneg (s : str) : 0 <= len s.
Proof. unfold len; lia. Qed.

Lemma len_app (a b : str) : len (a ++ b) = len a + len b.
Proof. unfold len; rewrite length_app; lia. Qed.

Lemma len_firstn (n : nat) (s : str) :
  len (firstn n s) = Z.min (Z.of_nat n) (len s).
Proof. unfold len; rewrite length_firstn; lia. Qed.

Lemma slice_to_nonneg (s : str) (k : Z) :
  0 <= k -> slice_to s k = firstn (Z.to_nat k) s.
Proof.
  intros Hk; unfold slice_to.
  destruct (0 <=? k) eqn:E; [reflexivity | apply Z.leb_gt in E; lia].
Qed.

Lemma len_slice_to (s : str) (k : Z) :
  0 <= k -> len (slice_to s k) = Z.min k (len s).
Proof.
  intros Hk; rewrite slice_to_nonneg by assumption.
  rewrite len_firstn; lia.
Qed.

Lemma slice_to_slice_to (s : str) (j k : Z) :
  0 <= j <= k -> slice_to (slice_to s k) j = slice_to s j.
Proof.
  intros H; rewrite !slice_to_nonneg by lia.
  rewrite firstn_firstn; f_equal; lia.
Qed.

Lemma rfind_bounds (s : str) (c : char) : -1 <= rfind s c < len s.
Proof.
  induction s as [|x r IH]; simpl.
  - unfold len; simpl; lia.
  - unfold len in *; simpl List.length.
    destruct (0 <=? rfind r c) eqn:E.
    + apply Z.leb_le in E; lia.
    + destruct (N.eqb x c); lia.
Qed.

Lemma rfind_absent (s : str) (c : char) :
  (forall x, In x s -> x <> c) -> rfind s c = -1.
Proof.
  induction s as [|x r IH]; intros H; simpl; [reflexivity|].
  rewrite IH by (intros y Hy; apply H; now right).
  simpl. destruct (N.eqb_spec x c) as [->|]; [|reflexivity].
  exfalso; apply (H c); [now left | reflexivity].
Qed.

Lemma rfind_app_absent (a b : str) (c : char) :
  (forall x, In x b -> x <> c) -> rfind (a ++ b) c = rfind a c.
Proof.
  intros H; induction a as [|x r IH]; simpl.
  - now apply rfind_absent.
  - now rewrite IH.
Qed.

(** The index [rfind] returns holds the character looked for. *)
Lemma rfind_found (s : str) (c : char) :
  0 <= rfind s c -> nth_error s (Z.to_nat (rfind s c)) = Some c.
Proof.
  induction s as [|x r IH]; simpl; [lia|].
  destruct (0 <=? rfind r c) eqn:E.
  - apply Z.leb_le in E; intros _.
    replace (Z.to_nat (rfind r c + 1)) with (S (Z.to_nat (rfind r c))) by lia.
    simpl; auto.
  - destruct (N.eqb_spec x c) as [->|]; [reflexivity | lia].
Qed.

(** No later index holds it. *)
Lemma rfind_last (s : str) (c : char) (i : nat) :
  rfind s c < Z.of_nat i -> nth_error s i <> Some c.
Proof.
  revert i; induction s as [|x r IH]; intros i; simpl.
  - destruct i; discriminate.
  - destruct (0 <=? rfind r c) eqn:E.
    + apply Z.leb_le in E; intros Hlt.
      destruct i as [|i]; [lia|]. simpl; apply IH; lia.
    + apply Z.leb_gt in E.
      destruct (N.eqb_spec x c) as [->|Hne]; intros Hlt.
      * destruct i as [|i]; [lia|]. simpl; apply IH; lia.
      * destruct i as [|i]; simpl; [congruence | apply IH; lia].
Qed.

Lemma nth_error_slice_to (s : str) (k : Z) (i : nat) :
  Z.of_nat i < k -> nth_error (slice_to s k) i = nth_error s i.
Proof.
  intros H; rewrite slice_to_nonneg by lia.
  rewrite nth_error_firstn.
  destruct (Nat.ltb_spec i (Z.to_nat k)); [reflexivity | lia].
Qed.

Lemma ellipsis_no_space (n : nat) (x : char) :
  In x (firstn n (lit "...")) -> x <> space.
Proof.
  intros H; apply In_firstn in H; simpl in H.
  unfold space; intuition (subst; discriminate).
Qed.

End StrFacts.

(** ** The truncator *)

Section Truncate.

Variables (text : str) (limit : Z).
Hypothesis limit_nonneg : 0 <= limit.

Local Abbreviation cut := (slice_to text limit).
Local Abbreviation last_space := (rfind cut space).

Lemma truncate_fits : len text <= limit -> _truncate_to_limit text limit = text.
Proof.
  intros H; unfold _truncate_to_limit.
  destruct (len text <=? limit) eqn:E; [reflexivity | apply Z.leb_gt in E; lia].
Qed.

Lemma truncate_hard_cut :
  limit < len text -> 5 * last_space <= 4 * limit ->
  _truncate_to_limit text limit = cut ++ lit "...".
Proof.
  intros Hlen Hsp; unfold _truncate_to_limit.
  destruct (len text <=? limit) eqn:E; [apply Z.leb_le in E; lia|].
  destruct (4 * limit <? 5 * last_space) eqn:E2; [apply Z.ltb_lt in E2; lia | reflexivity].
Qed.

Lemma truncate_space_cut :
  limit < len text -> 4 * limit < 5 * last_space ->
  _truncate_to_limit text limit = slice_to text last_space ++ lit "...".
Proof.
  intros Hlen Hsp; unfold _truncate_to_limit.
  destruct (len text <=? limit) eqn:E; [apply Z.leb_le in E; lia|].
  destruct (4 * limit <? 5 * last_space) eqn:E2; [|apply Z.ltb_ge in E2; lia].
  rewrite slice_to_slice_to; [reflexivity|].
  pose proof (rfind_bounds cut space) as Hb.
  rewrite len_slice_to in Hb by assumption. lia.
Qed.

Lemma len_cut : limit < len text -> len cut = limit.
Proof. intros H; rewrite len_slice_to by assumption; lia. Qed.

Lemma last_space_lt_limit : limit < len text -> last_space < limit.
Proof.
  intros H; pose proof (rfind_bounds cut space) as Hb.
  rewrite len_cut in Hb by assumption. lia.
Qed.

Lemma truncate_len_bound :
  len (_truncate_to_limit text limit) <= limit + len (lit "...").
Proof.
  destruct (Z.le_gt_cases (len text) limit) as [Hfit|Hlong].
  - rewrite truncate_fits by assumption. change (len (lit "...")) with 3; lia.
  - destruct (Z.le_gt_cases (5 * last_space) (4 * limit)) as [Hh|Hs].
    + rewrite truncate_hard_cut by assumption.
      rewrite len_app, len_cut by assumption; lia.
    + rewrite truncate_space_cut by lia.
      pose proof (last_space_lt_limit Hlong).
      rewrite len_app, len_slice_to by lia. lia.
Qed.

(** Truncating a hard-cut result again gives it back. *)
Lemma truncate_again_hard_cut :
  limit < len text -> 5 * last_space <= 4 * limit ->
  _truncate_to_limit (cut ++ lit "...") limit = cut ++ lit "...".
Proof.
  intros Hlen Hsp.
  pose proof (len_cut Hlen) as Hc.
  assert (Hfirst : slice_to (cut ++ lit "...") limit = cut).
  { rewrite slice_to_nonneg by assumption.
    rewrite firstn_app.
    replace (Z.to_nat limit - List.length cut)%nat with 0%nat by (unfold len in Hc; lia).
    rewrite firstn_all2 by (unfold len in Hc; lia).
    simpl; apply app_nil_r. }
  unfold _truncate_to_limit.
  destruct (len (cut ++ lit "...") <=? limit) eqn:E.
  - apply Z.leb_le in E; rewrite len_app, Hc in E.
    change (len (lit "...")) with 3 in E; lia.
  - rewrite Hfirst.
    destruct (4 * limit <? 5 * last_space) eqn:E2; [apply Z.ltb_lt in E2; lia | reflexivity].
Qed.

(** Truncating a result that was cut at a space too close to the limit
    changes its length. *)
Lemma truncate_again_space_cut_differs :
  limit < len text -> 4 * limit < 5 * last_space -> limit < last_space + 3 ->
  len (_truncate_to_limit (slice_to text last_space ++ lit "...") limit)
  <> last_space + 3.
Proof.
  intros Hlen Hsp Hnear.
  pose proof (last_space_lt_limit Hlen) as Hlt.
  set (kept := slice_to text last_space).
  assert (Hk : len kept = last_space)
    by (unfold kept; rewrite len_slice_to by lia; lia).
  assert (Hlong : limit < len (kept ++ lit "..."))
    by (rewrite len_app, Hk; change (len (lit "...")) with 3; lia).
  assert (Hcut2 : slice_to (kept ++ lit "...") limit
                  = kept ++ firstn (Z.to_nat limit - List.length kept) (lit "...")).
  { rewrite slice_to_nonneg by assumption.
    rewrite firstn_app, firstn_all2 by (unfold len in Hk; lia). reflexivity. }
  assert (Hsp2 : rfind (slice_to (kept ++ lit "...") limit) space < last_space).
  { rewrite Hcut2, rfind_app_absent by (intros x; apply ellipsis_no_space).
    pose proof (rfind_bounds kept space); lia. }
  assert (Hlen2 : len (slice_to (kept ++ lit "...") limit) = limit)
    by (rewrite len_slice_to by assumption; lia).
  unfold _truncate_to_limit.
  destruct (len (kept ++ lit "...") <=? limit) eqn:E; [apply Z.leb_le in E; lia|].
  set (s2 := rfind (slice_to (kept ++ lit "...") limit) space) in *.
  destruct (4 * limit <? 5 * s2) eqn:E2.
  - apply Z.ltb_lt in E2.
    rewrite len_app, len_slice_to, Hlen2 by lia.
    change (len (lit "...")) with 3; lia.
  - rewrite len_app, Hlen2. change (len (lit "...")) with 3; lia.
Qed.

End Truncate.

Example truncate_short : _truncate_to_limit (lit "hello world") 20 = lit "hello world".
Proof. reflexivity. Qed.

Example truncate_at_space :
  _truncate_to_limit (lit "aaaaaaaaa bbbb") 10 = lit "aaaaaaaaa...".
Proof. reflexivity. Qed.

Example truncate_hard :
  _truncate_to_limit (lit "aaaa bbbbbbbbbbb") 10 = lit "aaaa bbbbb...".
Proof. reflexivity. Qed.

(** A negative limit is a slice bound counted from the end, so the result
    can be far longer than the limit: the bounds below ask for [0 <= limit]. *)
Example truncate_negative_limit :
  _truncate_to_limit (lit "abcdef") (-1) = lit "abcde...".
Proof. reflexivity. Qed.

(** C4, as stated, fails: the text is cut at the space at index 9, the
    result has 12 characters, and truncating it at 10 again cuts inside the
    ellipsis and appends a second one.  With a negative limit every pass
    appends an ellipsis. *)
Lemma truncate_not_idempotent :
  (_truncate_to_limit (lit "aaaaaaaaa bbbb") 10 = lit "aaaaaaaaa..."
   /\ _truncate_to_limit (_truncate_to_limit (lit "aaaaaaaaa bbbb") 10) 10
      = lit "aaaaaaaaa...."
   /\ _truncate_to_limit (_truncate_to_limit (lit "aaaaaaaaa bbbb") 10) 10
      <> _truncate_to_limit (lit "aaaaaaaaa bbbb") 10)
  /\ (_truncate_to_limit (lit "abcdef") (-1) = lit "abcde..."
      /\ _truncate_to_limit (_truncate_to_limit (lit "abcdef") (-1)) (-1)
         = lit "abcde....."
      /\ _truncate_to_limit (_truncate_to_limit (lit "abcdef") (-1)) (-1)
         <> _truncate_to_limit (lit "abcdef") (-1)).
Proof.
  split; (split; [reflexivity|]; split; [reflexivity|]);
    vm_compute; discriminate.
Qed.

(** C4 (amended).  For a limit [>= 0], truncating the truncator's output
    again at the same limit returns it unchanged exactly when the text fitted
    the limit, or was cut hard at the limit, or was cut at a space at an
    index [last_space] with [last_space + 3 <= limit]; when that space lies
    at [limit - 1] or [limit - 2] the second pass gives a different string. *)
Theorem truncate_idempotent_iff (text : str) (limit : Z) :
  0 <= limit ->
  let last_space := rfind (slice_to text limit) space in
  _truncate_to_limit (_truncate_to_limit text limit) limit
  = _truncate_to_limit text limit
  <-> (len text <= limit \/ 5 * last_space <= 4 * limit \/ last_space + 3 <= limit).
Proof.
  intros Hl; cbv zeta.
  destruct (Z.le_gt_cases (len text) limit) as [Hfit|Hlong].
  - split; [auto|]. intros _. now rewrite !(truncate_fits text limit Hfit).
  - destruct (Z.le_gt_cases (5 * rfind (slice_to text limit) space) (4 * limit))
      as [Hh|Hs].
    + split; [auto|]. intros _.
      rewrite (truncate_hard_cut text limit) by assumption.
      now apply truncate_again_hard_cut.
    + rewrite (truncate_space_cut text limit) by (assumption || lia).
      destruct (Z.le_gt_cases (rfind (slice_to text limit) space + 3) limit)
        as [Hroom|Hnear].
      * split; [auto|]. intros _. apply truncate_fits.
        rewrite len_app, len_slice_to by lia.
        pose proof (last_space_lt_limit text limit Hl Hlong).
        change (len (lit "...")) with 3. lia.
      * split; [|lia]. intros Heq. exfalso.
        apply (truncate_again_space_cut_differs text limit Hl); try lia.
        rewrite Heq.
        pose proof (last_space_lt_limit text limit Hl Hlong).
        rewrite len_app, len_slice_to by lia.
        change (len (lit "...")) with 3. lia.
Qed.

Lemma truncate_idempotent_iff_witness :
  0 <= 20 /\
  _truncate_to_limit (_truncate_to_limit (lit "hello brave new world again") 20) 20
  = _truncate_to_limit (lit "hello brave new world again") 20.
Proof.
  split; [lia|].
  apply (truncate_idempotent_iff (lit "hello brave new world again") 20); [lia|].
  right; left; vm_compute; discriminate.
Defined.

(** C5, as stated, fails at the boundary: the last space of the first 10
    characters lies at index 8, which is [0.8 * 10], yet the text is cut at
    10 and the word after the space is split.  The length bound fails for a
    negative limit, which Python reads as a slice bound counted from the
    end. *)
Lemma truncate_boundary_counterexample :
  (let text := lit "aaaaaaaa bcdef" in
   let last_space := rfind (slice_to text 10) space in
   10 < len text /\ last_space = 8 /\ 4 * 10 <= 5 * last_space
   /\ _truncate_to_limit text 10 = lit "aaaaaaaa b..."
   /\ _truncate_to_limit text 10 <> slice_to text last_space ++ lit "...")
  /\ (_truncate_to_limit (lit "abcdef") (-1) = lit "abcde..."
      /\ ~ len (_truncate_to_limit (lit "abcdef") (-1)) <= -1 + len (lit "...")).
Proof.
  split.
  - repeat split; try reflexivity; vm_compute; discriminate.
  - split; [reflexivity|]. vm_compute. intros H; apply H; reflexivity.
Qed.

(** C5 (amended).  For every text and every limit [>= 0] the result is at
    most [limit + len("...")] characters long; and when the text is longer
    than the limit and the last space of its first [limit] characters lies
    strictly after [0.8 * limit], the kept portion is the text up to that
    space: the character that follows it is the space itself, and no
    character between it and the limit is a space. *)
Theorem truncate_length_and_word_boundary (text : str) (limit : Z) :
  0 <= limit ->
  len (_truncate_to_limit text limit) <= limit + len (lit "...") /\
  (limit < len text ->
   let last_space := rfind (slice_to text limit) space in
   4 * limit < 5 * last_space ->
   _truncate_to_limit text limit = slice_to text last_space ++ lit "..." /\
   nth_error text (Z.to_nat last_space) = Some space /\
   forall i, last_space < Z.of_nat i < limit -> nth_error text i <> Some space).
Proof.
  intros Hl; split; [now apply truncate_len_bound|].
  intros Hlong; cbv zeta; intros Hsp; split; [|split].
  - now apply truncate_space_cut.
  - pose proof (last_space_lt_limit text limit Hl Hlong) as Hlt.
    rewrite <- (nth_error_slice_to text limit) by lia.
    apply rfind_found. lia.
  - intros i Hi.
    rewrite <- (nth_error_slice_to text limit) by lia.
    apply rfind_last; lia.
Qed.

Lemma truncate_length_and_word_boundary_witness :
  let text := lit "aaaaaaaaa bbbb" in
  len (_truncate_to_limit text 10) <= 10 + len (lit "...") /\
  _truncate_to_limit text 10 = slice_to text 9 ++ lit "...".
Proof.
  intros text.
  destruct (truncate_length_and_word_boundary text 10) as [Hlen Hcut]; [lia|].
  split; [exact Hlen|].
  destruct Hcut as [Hkept _]; [vm_compute; reflexivity .. | exact Hkept].
Defined.

(** ** Tag derivation *)

Lemma eqb_eq (a b : str) : PyStr.eqb a b = true <-> a = b.
Proof.
  revert b; induction a as [|x a IH]; intros [|y b]; simpl;
    try (split; [discriminate | discriminate]); [tauto|].
  rewrite andb_true_iff, N.eqb_eq, IH.
  split; [intros [-> ->]; reflexivity | intros H; injection H; auto].
Qed.

Lemma eqb_refl (a : str) : PyStr.eqb a a = true.
Proof. now apply eqb_eq. Qed.

Lemma mem_In (x : str) (xs : list str) : mem x xs = true <-> In x xs.
Proof.
  unfold mem; rewrite existsb_exists; split.
  - intros (y & Hy & E); apply eqb_eq in E; now subst.
  - intros H; exists x; split; [assumption | apply eqb_refl].
Qed.

Lemma specific_tags_not_stop (topic_words : list str) (w : str) :
  In w (specific_tags topic_words) -> ~ In w stop_words.
Proof.
  unfold specific_tags; intros H Hstop.
  apply filter_In in H; destruct H as [_ H].
  apply mem_In in Hstop; rewrite Hstop in H; discriminate.
Qed.

Lemma base_tags_not_stop (w : str) : In w base_tags -> ~ In w stop_words.
Proof.
  intros Hb Hs; apply mem_In in Hs.
  simpl in Hb; repeat (destruct Hb as [<-|Hb]; [vm_compute in Hs; discriminate|]).
  contradiction.
Qed.

Lemma seo_tag_set_In (rt : Runtime) (topic w : str) :
  In w (seo_tag_set rt topic)
  <-> In w base_tags \/ In w (specific_tags (split (py_lower rt topic))).
Proof. unfold seo_tag_set; rewrite py_set_In; apply in_app_iff. Qed.

Lemma seo_tags_subset (rt : Runtime) (topic w : str) :
  In w (_generate_seo_tags rt topic) -> In w (seo_tag_set rt topic).
Proof. apply In_firstn. Qed.

Lemma NoDup_firstn {A} (n : nat) (l : list A) : NoDup l -> NoDup (firstn n l).
Proof.
  intros H; revert n; induction H as [|x l Hx Hl IH]; intros [|n]; simpl;
    try constructor.
  - intros Hin; apply Hx; now apply In_firstn in Hin.
  - apply IH.
Qed.

(** The tags are pairwise distinct, whatever order the set gives them. *)
Lemma seo_tags_NoDup (rt : Runtime) (topic : str) :
  NoDup (_generate_seo_tags rt topic).
Proof. apply NoDup_firstn, py_set_NoDup. Qed.

(** C8.  For every topic, [_generate_seo_tags] returns at most 10 tags, none
    of which is one of the stop words, and each of the five base tags is in
    the union of base tags and topic words that the cut at 10 is applied
    to. *)
Theorem seo_tags_capped_and_stop_word_free (rt : Runtime) (topic : str) :
  (List.length (_generate_seo_tags rt topic) <= 10)%nat /\
  (forall w, In w stop_words -> ~ In w (_generate_seo_tags rt topic)) /\
  (forall b, In b base_tags -> In b (seo_tag_set rt topic)) /\
  _generate_seo_tags rt topic = firstn 10 (seo_tag_set rt topic).
Proof.
  repeat split.
  - apply firstn_le_length.
  - intros w Hstop Hin.
    apply seo_tags_subset, seo_tag_set_In in Hin.
    destruct Hin as [Hb|Hsp].
    + now apply (base_tags_not_stop w).
    + now apply (specific_tags_not_stop _ w Hsp).
  - intros b Hb; apply seo_tag_set_In; now left.
Qed.

Example seo_tags_devops :
  _generate_seo_tags ref_runtime (lit "Benefits of DevOps for the Startups")
  = [lit "technology"; lit "business"; lit "strategy"; lit "innovation";
     lit "growth"; lit "benefits"; lit "devops"; lit "startups"].
Proof. reflexivity. Qed.

(** ** The variation selector: failure and success *)

Example known_content_types_are :
  known_content_types
  = [lit "blog"; lit "social_media"; lit "newsletter"; lit "video_script";
     lit "email_campaign"].
Proof. reflexivity. Qed.

Example known_tones_are :
  known_tones
  = [lit "professional"; lit "conversational"; lit "persuasive";
     lit "informative"; lit "humorous"].
Proof. reflexivity. Qed.

Section Lookup.

Context {A : Type}.

Lemma lookup_None (k : str) (d : list (str * A)) :
  lookup k d = None <-> ~ In k (map fst d).
Proof.
  induction d as [|[k' v] d IH]; simpl; [tauto|].
  destruct (PyStr.eqb k k') eqn:E.
  - apply eqb_eq in E; subst. split; [discriminate | intros H; exfalso; auto].
  - rewrite IH. split.
    + intros H [->|H']; [rewrite eqb_refl in E; discriminate | auto].
    + intros H H'; apply H; auto.
Qed.

Lemma lookup_Some (k : str) (d : list (str * A)) :
  In k (map fst d) -> exists v, lookup k d = Some v.
Proof.
  intros H; destruct (lookup k d) eqn:E; [eauto|].
  apply lookup_None in E; contradiction.
Qed.

End Lookup.

Lemma bind_ext {A B} (m : result A) (k1 k2 : A -> result B) :
  (forall a, k1 a = k2 a) -> bind m k1 = bind m k2.
Proof. intros H; destruct m; simpl; [reflexivity | apply H]. Qed.

Lemma for_each_ext {A B} (f g : A -> result B) (xs : list A) :
  (forall x, f x = g x) -> for_each f xs = for_each g xs.
Proof.
  intros H; induction xs as [|x r IH]; simpl; [reflexivity|].
  now rewrite H, IH.
Qed.

(** Case analysis on a content type that is one of the five keys. *)
Ltac content_type_cases H :=
  simpl in H;
  destruct H as [H|[H|[H|[H|[H|[]]]]]];
  symmetry in H.

(** Three builders always return. *)
Lemma single_variation_social rt request i :
  content_type request = lit "social_media" ->
  _generate_single_variation rt request i = ret (_generate_social_content rt request i).
Proof. intros H; unfold _generate_single_variation; rewrite H; reflexivity. Qed.

Lemma single_variation_newsletter rt request i :
  content_type request = lit "newsletter" ->
  _generate_single_variation rt request i = ret (_generate_newsletter_content rt request i).
Proof. intros H; unfold _generate_single_variation; rewrite H; reflexivity. Qed.

Lemma single_variation_video rt request i :
  content_type request = lit "video_script" ->
  _generate_single_variation rt request i = _generate_video_script rt request i.
Proof. intros H; unfold _generate_single_variation; rewrite H; reflexivity. Qed.

Lemma single_variation_email rt request i :
  content_type request = lit "email_campaign" ->
  _generate_single_variation rt request i = ret (_generate_email_campaign rt request i).
Proof. intros H; unfold _generate_single_variation; rewrite H; reflexivity. Qed.

Lemma single_variation_blog rt request i :
  content_type request = lit "blog" ->
  _generate_single_variation rt request i = _generate_blog_content rt request i.
Proof. intros H; unfold _generate_single_variation; rewrite H; reflexivity. Qed.

(** The article builder subscripts [tone_templates] with the request's tone. *)
Lemma blog_content_unknown_tone rt request i :
  ~ In (tone request) known_tones ->
  _generate_blog_content rt request i = raise (KeyError (tone request)).
Proof.
  intros H; apply lookup_None in H.
  unfold _generate_blog_content, _build_blog_structure, getitem.
  rewrite H; reflexivity.
Qed.

Lemma blog_content_known_tone rt request i :
  In (tone request) known_tones ->
  exists v, _generate_blog_content rt request i = ret v
            /\ o_word_count v = _count_words (content v).
Proof.
  intros H; apply lookup_Some in H; destruct H as [t Ht].
  unfold _generate_blog_content, _build_blog_structure, getitem.
  rewrite Ht. eexists; split; reflexivity.
Qed.

Lemma social_word_count rt request i :
  o_word_count (_generate_social_content rt request i)
  = _count_words (content (_generate_social_content rt request i)).
Proof.
  unfold _generate_social_content.
  destruct (i =? 0); [reflexivity|]. destruct (i =? 1); reflexivity.
Qed.


Lemma sub_half_ok rt d :
  Z.abs d < float_overflow -> exists s, sub_half rt d = ret s.
Proof.
  intros H; unfold sub_half.
  destruct (float_overflow <=? Z.abs d) eqn:E; [apply Z.leb_le in E; lia|].
  destruct ((- 2 ^ 52 <? d) && (d <=? 2 ^ 52)); eauto.
Qed.

Lemma sub_half_overflow rt d :
  float_overflow <= Z.abs d ->
  sub_half rt d = raise (OverflowError (lit "int too large to convert to float")).
Proof.
  intros H; unfold sub_half.
  destruct (float_overflow <=? Z.abs d) eqn:E; [reflexivity | apply Z.leb_gt in E; lia].
Qed.

Lemma video_script_overflow rt request i :
  float_overflow <= Z.abs (script_duration request) ->
  _generate_video_script rt request i
  = raise (OverflowError (lit "int too large to convert to float")).
Proof.
  intros H; unfold _generate_video_script.
  fold (script_duration request). cbv zeta.
  rewrite sub_half_overflow by assumption. reflexivity.
Qed.

(** What the script builder returns when the duration converts. *)
Lemma video_script_ok rt request i :
  Z.abs (script_duration request) < float_overflow ->
  exists v,
    _generate_video_script rt request i = ret v
    /\ o_word_count v = _count_words (content v)
    /\ title v = subscript (video_title_templates request)
                   (i mod len_list (video_title_templates request))
    /\ tags v = TagList (_generate_seo_tags rt (topic request))
    /\ exists rest,
         content v = lit "# Video Script: " ++ title v ++ nl
                     ++ lit "**Duration: ~" ++ of_Z (script_duration request)
                     ++ rest.
Proof.
  intros H; destruct (sub_half_ok rt _ H) as [s Hs].
  unfold _generate_video_script.
  fold (script_duration request). cbv zeta.
  rewrite Hs. eexists; split; [reflexivity|].
  repeat split; try reflexivity. eexists; reflexivity.
Qed.


Lemma single_variation_ok rt request i :
  well_formed request ->
  exists v, _generate_single_variation rt request i = ret v
            /\ o_word_count v = _count_words (content v).
Proof.
  intros (Hct & Htone & Hfloat). content_type_cases Hct.
  - rewrite single_variation_blog by assumption.
    now apply blog_content_known_tone, Htone.
  - rewrite single_variation_social by assumption.
    eexists; split; [reflexivity | apply social_word_count].
  - rewrite single_variation_newsletter by assumption. eexists; split; reflexivity.
  - rewrite single_variation_video by assumption.
    destruct (video_script_ok rt request i (Hfloat Hct)) as (v & E & Hw & _).
    eauto.
  - rewrite single_variation_email by assumption. eexists; split; reflexivity.
Qed.

Lemma generate_content_body_ok rt request :
  well_formed request ->
  exists v0 v1 v2,
    generate_content_body rt request
    = ret ([v0; v1; v2], _generate_content_analysis rt request [v0; v1; v2])
    /\ _generate_single_variation rt request 0 = ret v0
    /\ _generate_single_variation rt request 1 = ret v1
    /\ _generate_single_variation rt request 2 = ret v2.
Proof.
  intros Hwf.
  destruct (single_variation_ok rt request 0 Hwf) as (v0 & E0 & _).
  destruct (single_variation_ok rt request 1 Hwf) as (v1 & E1 & _).
  destruct (single_variation_ok rt request 2 Hwf) as (v2 & E2 & _).
  exists v0, v1, v2. repeat split; try assumption.
  unfold generate_content_body.
  destruct Hwf as [Hct _]. apply lookup_Some in Hct. destruct Hct as [b ->].
  unfold for_each. rewrite E0, E1, E2. reflexivity.
Qed.

Lemma generate_content_unsupported rt request :
  ~ In (content_type request) known_content_types ->
  generate_content rt request
  = raise (Exception (lit "Content generation failed: Unsupported content type: "
                      ++ content_type request)).
Proof.
  intros H; apply lookup_None in H.
  unfold generate_content, generate_content_body. rewrite H. reflexivity.
Qed.

Lemma generate_content_blog_unknown_tone rt request :
  content_type request = lit "blog" -> ~ In (tone request) known_tones ->
  generate_content rt request
  = raise (Exception (lit "Content generation failed: " ++ py_repr rt (tone request))).
Proof.
  intros Hct Htone.
  unfold generate_content, generate_content_body.
  rewrite Hct. simpl lookup. unfold for_each.
  rewrite single_variation_blog, blog_content_unknown_tone by assumption.
  reflexivity.
Qed.

Lemma generate_content_script_overflow rt request :
  content_type request = lit "video_script" ->
  float_overflow <= Z.abs (script_duration request) ->
  generate_content rt request
  = raise (Exception (lit "Content generation failed: int too large to convert to float")).
Proof.
  intros Hct Hbig.
  unfold generate_content, generate_content_body.
  rewrite Hct. simpl lookup. unfold for_each.
  rewrite single_variation_video, video_script_overflow by assumption.
  reflexivity.
Qed.

Lemma generate_content_ok rt request :
  well_formed request ->
  exists v0 v1 v2,
    generate_content rt request
    = ret ([v0; v1; v2], _generate_content_analysis rt request [v0; v1; v2])
    /\ _generate_single_variation rt request 0 = ret v0
    /\ _generate_single_variation rt request 1 = ret v1
    /\ _generate_single_variation rt request 2 = ret v2.
Proof.
  intros Hwf.
  destruct (generate_content_body_ok rt request Hwf) as (v0 & v1 & v2 & E & Hv).
  exists v0, v1, v2. split; [|exact Hv].
  unfold generate_content. rewrite E. reflexivity.
Qed.


Lemma well_formed_dec (request : ContentRequest) :
  {well_formed request} + {ill_formed request}.
Proof.
  unfold well_formed, ill_formed.
  destruct (in_dec PyStr.eq_dec (content_type request) known_content_types) as [Hct|Hct];
    [|right; now left].
  destruct (PyStr.eq_dec (content_type request) (lit "blog")) as [Hb|Hb].
  - destruct (in_dec PyStr.eq_dec (tone request) known_tones) as [Ht|Ht].
    + left; repeat split; [assumption | intros _; assumption |].
      intros Hv; rewrite Hb in Hv; discriminate Hv.
    + right; right; left; split; assumption.
  - destruct (PyStr.eq_dec (content_type request) (lit "video_script")) as [Hv|Hv].
    + destruct (Z_lt_le_dec (Z.abs (script_duration request)) float_overflow) as [Hd|Hd].
      * left; repeat split; [assumption | contradiction | intros _; assumption].
      * right; right; right; split; assumption.
    + left; repeat split; [assumption | contradiction | contradiction].
Qed.

Lemma devops_request_well_formed : well_formed devops_request.
Proof.
  split; [simpl; auto|]. split; [intros _; simpl; auto|].
  intros E; discriminate E.
Defined.

(** C1, as stated, fails.  The content type of [sarcastic_request] is one of
    the five, and [generate_content] still raises, with a message that
    quotes the tone and not the content type.  The same happens for a script
    whose word count is too large for the float arithmetic of its section
    headers. *)
Lemma generate_content_fails_on_valid_content_type :
  (In (content_type sarcastic_request) known_content_types
   /\ generate_content ref_runtime sarcastic_request
      = inl (Exception (lit "Content generation failed: 'sarcastic'")))
  /\ (In (content_type huge_script_request) known_content_types
      /\ generate_content ref_runtime huge_script_request
         = inl (Exception
                  (lit "Content generation failed: int too large to convert to float"))).
Proof.
  split; (split; [simpl; auto 10|]).
  - rewrite generate_content_blog_unknown_tone; [reflexivity | reflexivity |].
    apply lookup_None; reflexivity.
  - apply generate_content_script_overflow; [reflexivity|].
    vm_compute; discriminate.
Qed.

(** Whatever [generate_content] raises is an [Exception] whose message
    starts with [Content generation failed: ]: nothing the builders raise
    escapes as it is. *)
Lemma generate_content_error_form (rt : Runtime) (request : ContentRequest) (e : exn) :
  generate_content rt request = inl e ->
  exists message, e = Exception (lit "Content generation failed: " ++ message).
Proof.
  unfold generate_content.
  destruct (generate_content_body rt request) as [e'|r]; [|discriminate].
  intros H. injection H as <-. now exists (str_of_exn rt e').
Qed.

(** C1 (amended).  [generate_content] raises exactly when the content type
    is not one of the five, or it is the article type and the tone is not
    one of the five tones, or it is the script type and the duration
    [word_count // 150] is too large to convert to a float.  Whatever it
    raises, in each of the three cases, is an [Exception] whose message
    starts with [Content generation failed: ].  In the first case the
    message goes on with [Unsupported content type: ] and the offending
    value; in the second it quotes the tone that the article builder failed
    to find.  Nothing else in the request makes it fail. *)
Theorem generate_content_fails_iff (rt : Runtime) (request : ContentRequest) :
  ((exists e, generate_content rt request = inl e) <-> ill_formed request)
  /\ (~ In (content_type request) known_content_types ->
      generate_content rt request
      = inl (Exception (lit "Content generation failed: Unsupported content type: "
                        ++ content_type request)))
  /\ (content_type request = lit "blog" -> ~ In (tone request) known_tones ->
      generate_content rt request
      = inl (Exception (lit "Content generation failed: "
                        ++ py_repr rt (tone request))))
  /\ (content_type request = lit "video_script" ->
      float_overflow <= Z.abs (script_duration request) ->
      exists message,
        generate_content rt request
        = inl (Exception (lit "Content generation failed: " ++ message)))
  /\ (forall e, generate_content rt request = inl e ->
      exists message, e = Exception (lit "Content generation failed: " ++ message)).
Proof.
  split; [|split; [|split; [|split]]].
  - split.
    + intros [e He].
      destruct (well_formed_dec request) as [Hwf|Hbad]; [|exact Hbad].
      destruct (generate_content_ok rt request Hwf) as (v0 & v1 & v2 & E & _).
      rewrite E in He; discriminate.
    + intros [Hct|[[Hct Htone]|[Hct Hbig]]].
      * eexists; now apply generate_content_unsupported.
      * eexists; now apply generate_content_blog_unknown_tone.
      * eexists; now apply generate_content_script_overflow.
  - apply generate_content_unsupported.
  - apply generate_content_blog_unknown_tone.
  - intros Hct Hbig. eexists. now apply generate_content_script_overflow.
  - apply generate_content_error_form.
Qed.

Lemma generate_content_fails_iff_witness :
  generate_content ref_runtime podcast_request
  = inl (Exception (lit "Content generation failed: Unsupported content type: podcast"))
  /\ generate_content ref_runtime sarcastic_request
     = inl (Exception (lit "Content generation failed: 'sarcastic'"))
  /\ exists message,
       generate_content ref_runtime huge_script_request
       = inl (Exception (lit "Content generation failed: " ++ message)).
Proof.
  destruct (generate_content_fails_iff ref_runtime podcast_request) as (_ & H1 & _).
  destruct (generate_content_fails_iff ref_runtime sarcastic_request) as (_ & _ & H2 & _).
  destruct (generate_content_fails_iff ref_runtime huge_script_request)
    as (_ & _ & _ & H3 & _).
  split; [|split].
  - apply H1. apply lookup_None; reflexivity.
  - apply H2; [reflexivity | apply lookup_None; reflexivity].
  - apply H3; [reflexivity | vm_compute; discriminate].
Defined.

(** C2, as stated, fails: [sarcastic_request] and [huge_script_request] have
    a valid content type and no variations are returned for them. *)
Lemma generate_content_returns_nothing_on_valid_content_type :
  (In (content_type sarcastic_request) known_content_types
   /\ forall variations analysis,
       generate_content ref_runtime sarcastic_request <> inr (variations, analysis))
  /\ (In (content_type huge_script_request) known_content_types
      /\ forall variations analysis,
          generate_content ref_runtime huge_script_request
          <> inr (variations, analysis)).
Proof.
  split; (split; [simpl; auto 10|]); intros variations analysis.
  - rewrite generate_content_blog_unknown_tone; [discriminate | reflexivity |].
    apply lookup_None; reflexivity.
  - rewrite generate_content_script_overflow; [discriminate | reflexivity |].
    vm_compute; discriminate.
Qed.

(** C2 (amended).  For every request whose content type is one of the five
    and whose tone, when the content type is the article, is one of the
    five tones (and whose duration, when it is the script, converts to a
    float), [generate_content] returns exactly 3 variations, and the
    [word_count] of each equals [_count_words] of its [content]. *)
Theorem generate_content_three_variations (rt : Runtime) (request : ContentRequest) :
  well_formed request ->
  exists variations analysis,
    generate_content rt request = inr (variations, analysis)
    /\ List.length variations = 3%nat
    /\ Forall (fun v => o_word_count v = _count_words (content v)) variations.
Proof.
  intros Hwf.
  destruct (generate_content_ok rt request Hwf) as (v0 & v1 & v2 & E & E0 & E1 & E2).
  exists [v0; v1; v2], (_generate_content_analysis rt request [v0; v1; v2]).
  split; [exact E|]. split; [reflexivity|].
  destruct (single_variation_ok rt request 0 Hwf) as (w0 & F0 & W0).
  destruct (single_variation_ok rt request 1 Hwf) as (w1 & F1 & W1).
  destruct (single_variation_ok rt request 2 Hwf) as (w2 & F2 & W2).
  rewrite E0 in F0; rewrite E1 in F1; rewrite E2 in F2.
  injection F0 as <-; injection F1 as <-; injection F2 as <-.
  repeat constructor; assumption.
Qed.

Lemma generate_content_three_variations_witness :
  exists variations analysis,
    generate_content ref_runtime devops_request = inr (variations, analysis)
    /\ List.length variations = 3%nat
    /\ Forall (fun v => o_word_count v = _count_words (content v)) variations.
Proof.
  apply (generate_content_three_variations ref_runtime devops_request).
  exact devops_request_well_formed.
Defined.
(** ** Determinism *)

Lemma same_observations_refl (rt : Runtime) (request : ContentRequest) :
  same_observations rt rt request.
Proof. repeat split. Qed.

Lemma mod_of_mod_12 (a b k : Z) :
  In k [2; 3; 4] -> a mod 12 = b mod 12 -> a mod k = b mod k.
Proof.
  intros Hk H.
  assert (Hdiv : (k | 12)).
  { destruct Hk as [<-|[<-|[<-|[]]]]; [now exists 6 | now exists 4 | now exists 3]. }
  rewrite <- (Z.mod_mod_divide a 12 k), <- (Z.mod_mod_divide b 12 k) by exact Hdiv.
  now rewrite H.
Qed.

Section Observations.

Variables rt1 rt2 : Runtime.
Variable request : ContentRequest.
Hypothesis same : same_observations rt1 rt2 request.

(** A selection by the hash of the topic from a list of 2, 3 or 4. *)
Lemma hash_selection_observed (l : list str) :
  In (len_list l) [0; 2; 3; 4] ->
  subscript l (py_hash rt1 (topic request) mod len_list l)
  = subscript l (py_hash rt2 (topic request) mod len_list l).
Proof.
  intros [H|H].
  - destruct l; [|discriminate H]. unfold subscript.
    now destruct (Z.to_nat _), (Z.to_nat _).
  - f_equal. apply mod_of_mod_12; [exact H | apply same].
Qed.

Ltac same_selection :=
  rewrite hash_selection_observed by (vm_compute; auto 6).

Lemma seo_tags_observed :
  _generate_seo_tags rt1 (topic request) = _generate_seo_tags rt2 (topic request).
Proof.
  unfold _generate_seo_tags. destruct same as (_ & Hset & _). now rewrite Hset.
Qed.

Lemma social_tags_observed :
  _generate_social_tags rt1 (topic request) = _generate_social_tags rt2 (topic request).
Proof. unfold _generate_social_tags. now rewrite seo_tags_observed. Qed.

Lemma default_cta_observed :
  _generate_default_cta rt1 request = _generate_default_cta rt2 request.
Proof. unfold _generate_default_cta. cbv zeta. now same_selection. Qed.

Lemma blog_introduction_observed audience tone :
  _generate_blog_introduction rt1 (topic request) audience tone
  = _generate_blog_introduction rt2 (topic request) audience tone.
Proof. unfold _generate_blog_introduction. cbv zeta. now same_selection. Qed.

Lemma blog_content_observed i :
  _generate_blog_content rt1 request i = _generate_blog_content rt2 request i.
Proof.
  unfold _generate_blog_content, _build_blog_structure.
  destruct (getitem tone_templates (tone request)) as [e|t]; [reflexivity|].
  cbv beta iota zeta delta [bind ret].
  now rewrite blog_introduction_observed, default_cta_observed, seo_tags_observed.
Qed.

Lemma social_content_observed i :
  _generate_social_content rt1 request i = _generate_social_content rt2 request i.
Proof.
  unfold _generate_social_content, _generate_question_post, _generate_value_post,
    _generate_story_post.
  cbv zeta. rewrite !social_tags_observed. now do 3 same_selection.
Qed.

Lemma newsletter_content_observed i :
  _generate_newsletter_content rt1 request i
  = _generate_newsletter_content rt2 request i.
Proof. unfold _generate_newsletter_content. now rewrite seo_tags_observed. Qed.

Lemma sub_half_observed :
  sub_half rt1 (script_duration request) = sub_half rt2 (script_duration request).
Proof.
  unfold sub_half. destruct same as (_ & _ & _ & _ & _ & Hhalf). now rewrite Hhalf.
Qed.

Lemma video_script_observed i :
  _generate_video_script rt1 request i = _generate_video_script rt2 request i.
Proof.
  unfold _generate_video_script. fold (script_duration request). cbv zeta.
  rewrite sub_half_observed.
  apply bind_ext; intros half_less.
  destruct same as (_ & _ & Htitle & _). now rewrite Htitle, seo_tags_observed.
Qed.

Lemma email_subject_observed campaign_type :
  _generate_email_subject rt1 (topic request) campaign_type
  = _generate_email_subject rt2 (topic request) campaign_type.
Proof.
  unfold _generate_email_subject. cbv zeta. unfold get. cbn [lookup].
  repeat match goal with
  | |- context [PyStr.eqb campaign_type ?k] => destruct (PyStr.eqb campaign_type k)
  end; now same_selection.
Qed.

Lemma email_campaign_observed i :
  _generate_email_campaign rt1 request i = _generate_email_campaign rt2 request i.
Proof.
  unfold _generate_email_campaign.
  now rewrite seo_tags_observed, email_subject_observed.
Qed.

Lemma single_variation_observed i :
  _generate_single_variation rt1 request i = _generate_single_variation rt2 request i.
Proof.
  destruct (in_dec PyStr.eq_dec (content_type request) known_content_types) as [Hct|Hct].
  - content_type_cases Hct.
    + rewrite !single_variation_blog by exact Hct. apply blog_content_observed.
    + rewrite !single_variation_social by exact Hct.
      f_equal; apply social_content_observed.
    + rewrite !single_variation_newsletter by exact Hct.
      f_equal; apply newsletter_content_observed.
    + rewrite !single_variation_video by exact Hct. apply video_script_observed.
    + rewrite !single_variation_email by exact Hct.
      f_equal; apply email_campaign_observed.
  - apply lookup_None in Hct.
    unfold _generate_single_variation, getitem. now rewrite Hct.
Qed.

Lemma analysis_observed variations :
  _generate_content_analysis rt1 request variations
  = _generate_content_analysis rt2 request variations.
Proof.
  unfold _generate_content_analysis, _generate_communication_strategy.
  destruct same as (_ & _ & Haudience & Htone & _).
  now rewrite !Haudience, Htone.
Qed.

Lemma generate_content_observed :
  generate_content rt1 request = generate_content rt2 request.
Proof.
  destruct (well_formed_dec request) as [Hwf|[Hct|[[Hb Ht]|[Hv Hbig]]]].
  - destruct (generate_content_ok rt1 request Hwf) as (a0 & a1 & a2 & Ea & A0 & A1 & A2).
    destruct (generate_content_ok rt2 request Hwf) as (b0 & b1 & b2 & Eb & B0 & B1 & B2).
    rewrite single_variation_observed in A0, A1, A2.
    rewrite A0 in B0. rewrite A1 in B1. rewrite A2 in B2.
    injection B0 as <-. injection B1 as <-. injection B2 as <-.
    now rewrite Ea, Eb, analysis_observed.
  - now rewrite !generate_content_unsupported.
  - rewrite !generate_content_blog_unknown_tone by assumption.
    destruct same as (_ & _ & _ & _ & Hrepr & _). now rewrite Hrepr.
  - now rewrite !generate_content_script_overflow.
Qed.

End Observations.

(** C3, as stated, fails: the output does depend on the seed of the hash.
    [shifted_runtime] is [ref_runtime] with another hash and nothing else
    changed, as in another process run, and the two build different
    articles for the same request. *)
Lemma generate_content_depends_on_hash_seed :
  (forall l, py_set ref_runtime l = py_set shifted_runtime l)
  /\ (forall s, py_lower ref_runtime s = py_lower shifted_runtime s
                /\ py_title ref_runtime s = py_title shifted_runtime s
                /\ py_repr ref_runtime s = py_repr shifted_runtime s)
  /\ (forall d, py_repr_minus_half ref_runtime d = py_repr_minus_half shifted_runtime d)
  /\ generate_content ref_runtime devops_request
     <> generate_content shifted_runtime devops_request.
Proof.
  split; [reflexivity|]. split; [intros s; repeat split|]. split; [reflexivity|].
  intros H.
  apply (f_equal (fun r => match r with
                           | inr (v :: _, _) => firstn 60 (content v)
                           | _ => []
                           end)) in H.
  vm_compute in H. discriminate H.
Qed.

(** C3 (amended).  The result of [generate_content] is fixed by the request
    and by what the runtime returns at that request: the hash of the topic
    up to 12, the order of its tag set, and [title] and [repr] at its
    audience, tone and duration.  Two runs in which these are the same, as
    any two calls of one process run are, give the same outcome and the
    same variation for every index: title, selected phrasing, body, tags
    and analysis.  Nothing else is read, no clock among it. *)
Theorem generate_content_deterministic
    (rt1 rt2 : Runtime) (request : ContentRequest) :
  same_observations rt1 rt2 request ->
  generate_content rt1 request = generate_content rt2 request
  /\ forall i, _generate_single_variation rt1 request i
               = _generate_single_variation rt2 request i.
Proof.
  intros Hsame; split.
  - now apply generate_content_observed.
  - intros i; now apply single_variation_observed.
Qed.

Lemma generate_content_deterministic_witness :
  generate_content ref_runtime devops_request
  = generate_content lucky_runtime devops_request
  /\ forall i, _generate_single_variation ref_runtime devops_request i
               = _generate_single_variation lucky_runtime devops_request i.
Proof.
  apply (generate_content_deterministic ref_runtime lucky_runtime devops_request).
  split; [|split; [|split; [|split; [|split]]]]; vm_compute; reflexivity.
Defined.

(** The hash seed does matter: a process with another seed picks another
    introduction for the same request. *)
Example other_process_other_phrasing :
  _generate_blog_introduction ref_runtime (topic devops_request)
    devops_audience devops_tone
  <> _generate_blog_introduction shifted_runtime (topic devops_request)
       devops_audience devops_tone.
Proof. vm_compute; discriminate. Qed.

(** ** Which request fields reach the output *)

Lemma analysis_ignores_word_count rt request wc1 wc2 variations :
  _generate_content_analysis rt (with_word_count wc1 request) variations
  = _generate_content_analysis rt (with_word_count wc2 request) variations.
Proof. reflexivity. Qed.

Lemma blog_ignores_word_count rt request wc1 wc2 i :
  _generate_blog_content rt (with_word_count wc1 request) i
  = _generate_blog_content rt (with_word_count wc2 request) i.
Proof. reflexivity. Qed.

Lemma social_ignores_word_count rt request wc1 wc2 i :
  _generate_social_content rt (with_word_count wc1 request) i
  = _generate_social_content rt (with_word_count wc2 request) i.
Proof. reflexivity. Qed.

Lemma newsletter_ignores_word_count rt request wc1 wc2 i :
  _generate_newsletter_content rt (with_word_count wc1 request) i
  = _generate_newsletter_content rt (with_word_count wc2 request) i.
Proof. reflexivity. Qed.

Lemma email_ignores_word_count rt request wc1 wc2 i :
  _generate_email_campaign rt (with_word_count wc1 request) i
  = _generate_email_campaign rt (with_word_count wc2 request) i.
Proof. reflexivity. Qed.

Lemma single_variation_ignores_word_count rt request wc1 wc2 i :
  content_type request <> lit "video_script" ->
  _generate_single_variation rt (with_word_count wc1 request) i
  = _generate_single_variation rt (with_word_count wc2 request) i.
Proof.
  intros Hnv.
  destruct (in_dec PyStr.eq_dec (content_type request) known_content_types) as [Hct|Hct].
  - content_type_cases Hct.
    + rewrite !single_variation_blog by exact Hct. apply blog_ignores_word_count.
    + rewrite !single_variation_social by exact Hct.
      f_equal; apply social_ignores_word_count.
    + rewrite !single_variation_newsletter by exact Hct.
      f_equal; apply newsletter_ignores_word_count.
    + contradiction.
    + rewrite !single_variation_email by exact Hct.
      f_equal; apply email_ignores_word_count.
  - apply lookup_None in Hct.
    unfold _generate_single_variation, getitem.
    change (content_type (with_word_count wc1 request)) with (content_type request).
    change (content_type (with_word_count wc2 request)) with (content_type request).
    rewrite Hct; reflexivity.
Qed.


Lemma generate_content_ignores_word_count rt request wc1 wc2 :
  content_type request <> lit "video_script" ->
  generate_content rt (with_word_count wc1 request)
  = generate_content rt (with_word_count wc2 request).
Proof.
  intros Hnv.
  unfold generate_content, generate_content_body.
  change (content_type (with_word_count wc1 request)) with (content_type request).
  change (content_type (with_word_count wc2 request)) with (content_type request).
  destruct (lookup (content_type request) content_types) as [b|]; [|reflexivity].
  rewrite (for_each_ext (_generate_single_variation rt (with_word_count wc1 request))
             (_generate_single_variation rt (with_word_count wc2 request)))
    by (intros i; now apply single_variation_ignores_word_count).
  destruct (for_each _ _) as [e|variations]; [reflexivity|].
  simpl bind. now rewrite (analysis_ignores_word_count rt request wc1 wc2).
Qed.

(** *** The duration line of the script *)

Lemma lit_inj (a b : string) : lit a = lit b -> a = b.
Proof.
  unfold lit. revert b; induction a as [|x a IH]; intros [|y b] H;
    try discriminate H; [reflexivity|].
  simpl in H. injection H as Hx Hr.
  apply (f_equal ascii_of_N) in Hx. rewrite !ascii_N_embedding in Hx.
  f_equal; [exact Hx | now apply IH].
Qed.

Lemma of_Z_inj (a b : Z) : of_Z a = of_Z b -> a = b.
Proof.
  unfold of_Z. intros H. apply lit_inj in H.
  apply DecimalZ.to_int_inj.
  assert (Hnil : forall n, Z.to_int n <> Decimal.Pos Decimal.Nil
                           /\ Z.to_int n <> Decimal.Neg Decimal.Nil).
  { intros [|p|p]; simpl; split; try discriminate;
      intros E; injection E as E; now apply DecimalPos.Unsigned.to_uint_nonnil in E. }
  apply (f_equal NilZero.int_of_string) in H.
  rewrite !NilZero.isi in H by apply Hnil.
  now injection H.
Qed.

(** A decimal numeral holds no blank. *)
Lemma digits_no_space (u : Decimal.uint) :
  ~ In space (lit (NilEmpty.string_of_uint u)).
Proof.
  induction u; simpl; intros H;
    try (destruct H as [H|H]; [discriminate H | now apply IHu]); exact H.
Qed.

Lemma of_Z_no_space (n : Z) : ~ In space (of_Z n).
Proof.
  unfold of_Z. destruct (Z.to_int n) as [u|u]; simpl.
  - destruct u; try apply digits_no_space. simpl. intros [H|[]]; discriminate H.
  - intros [H|H]; [discriminate H|]. revert H.
    destruct u; try apply digits_no_space. simpl. intros [H|[]]; discriminate H.
Qed.

Lemma app_split_at (c : char) (x y r1 r2 : str) :
  ~ In c x -> ~ In c y -> x ++ c :: r1 = y ++ c :: r2 -> x = y.
Proof.
  revert y; induction x as [|a x IH]; intros [|b y] Hx Hy H; simpl in *.
  - reflexivity.
  - injection H as -> _. exfalso; apply Hy; now left.
  - injection H as -> _. exfalso; apply Hx; now left.
  - injection H as -> H. f_equal. apply (IH y); tauto.
Qed.

(** The second line of a script gives its duration, and nothing in the
    script depends on the word count otherwise. *)
Lemma video_script_duration_line rt request i :
  Z.abs (script_duration request) < float_overflow ->
  exists v rest,
    _generate_video_script rt request i = ret v
    /\ content v
       = lit "# Video Script: "
         ++ subscript (video_title_templates request)
              (i mod len_list (video_title_templates request)) ++ nl
         ++ lit "**Duration: ~" ++ of_Z (script_duration request)
         ++ space :: rest.
Proof.
  intros H; destruct (sub_half_ok rt _ H) as [s Hs].
  unfold _generate_video_script.
  fold (script_duration request). cbv zeta.
  rewrite Hs. do 2 eexists; split; [reflexivity|]. cbn [content bind ret].
  do 4 f_equal. reflexivity.
Qed.

Lemma video_script_same_duration rt request wc1 wc2 i :
  or_int wc1 1200 / 150 = or_int wc2 1200 / 150 ->
  _generate_video_script rt (with_word_count wc1 request) i
  = _generate_video_script rt (with_word_count wc2 request) i.
Proof.
  intros H. unfold _generate_video_script.
  cbn [word_count topic target_audience with_word_count].
  change (video_title_templates (with_word_count wc1 request))
    with (video_title_templates request).
  change (video_title_templates (with_word_count wc2 request))
    with (video_title_templates request).
  cbv zeta. now rewrite H.
Qed.

Lemma video_script_other_duration rt request wc1 wc2 i :
  Z.abs (or_int wc1 1200 / 150) < float_overflow ->
  Z.abs (or_int wc2 1200 / 150) < float_overflow ->
  _generate_video_script rt (with_word_count wc1 request) i
  = _generate_video_script rt (with_word_count wc2 request) i ->
  or_int wc1 1200 / 150 = or_int wc2 1200 / 150.
Proof.
  intros H1 H2 E.
  destruct (video_script_duration_line rt (with_word_count wc1 request) i H1)
    as (v1 & r1 & E1 & C1).
  destruct (video_script_duration_line rt (with_word_count wc2 request) i H2)
    as (v2 & r2 & E2 & C2).
  rewrite E1, E2 in E. injection E as <-. rewrite C1 in C2.
  change (video_title_templates (with_word_count wc1 request))
    with (video_title_templates (with_word_count wc2 request)) in C2.
  do 4 apply app_inv_head in C2.
  apply app_split_at in C2; try apply of_Z_no_space.
  now apply of_Z_inj in C2.
Qed.

Lemma script_ignores_word_count_but_duration rt request wc1 wc2 :
  content_type request = lit "video_script" ->
  or_int wc1 1200 / 150 = or_int wc2 1200 / 150 ->
  generate_content rt (with_word_count wc1 request)
  = generate_content rt (with_word_count wc2 request).
Proof.
  intros Hv Hd.
  unfold generate_content, generate_content_body.
  change (content_type (with_word_count wc1 request)) with (content_type request).
  change (content_type (with_word_count wc2 request)) with (content_type request).
  destruct (lookup (content_type request) content_types) as [b|]; [|reflexivity].
  rewrite (for_each_ext (_generate_single_variation rt (with_word_count wc1 request))
             (_generate_single_variation rt (with_word_count wc2 request))).
  - destruct (for_each _ _) as [e|variations]; [reflexivity|].
    simpl bind. now rewrite (analysis_ignores_word_count rt request wc1 wc2).
  - intros i. rewrite !single_variation_video by exact Hv.
    now apply video_script_same_duration.
Qed.

Lemma script_well_formed request wc :
  content_type request = lit "video_script" ->
  Z.abs (or_int wc 1200 / 150) < float_overflow ->
  well_formed (with_word_count wc request).
Proof.
  intros Hv Hd. split; [|split].
  - change (content_type (with_word_count wc request)) with (content_type request).
    rewrite Hv. simpl; auto 10.
  - change (content_type (with_word_count wc request)) with (content_type request).
    rewrite Hv. intros E; discriminate E.
  - intros _. exact Hd.
Qed.

(** C9.  For every content type other than the script (so for the article,
    the short post, the digest and the campaign email) two requests that
    differ only in [word_count] get the same result from [generate_content]:
    the same variations and the same analysis.  For the script the result
    depends on it, and through the duration [word_count // 150] alone
    (1200 words when none are given): two word counts with the same
    duration give the same result, and two with different durations, one of
    which at least converts to a float, give different results. *)
Theorem word_count_matters_only_for_script
    (rt : Runtime) (request : ContentRequest) (wc1 wc2 : option Z) :
  (content_type request <> lit "video_script" ->
   generate_content rt (with_word_count wc1 request)
   = generate_content rt (with_word_count wc2 request))
  /\ (content_type request = lit "video_script" ->
      (or_int wc1 1200 / 150 = or_int wc2 1200 / 150 ->
       generate_content rt (with_word_count wc1 request)
       = generate_content rt (with_word_count wc2 request))
      /\ (or_int wc1 1200 / 150 <> or_int wc2 1200 / 150 ->
          Z.abs (or_int wc1 1200 / 150) < float_overflow
          \/ Z.abs (or_int wc2 1200 / 150) < float_overflow ->
          generate_content rt (with_word_count wc1 request)
          <> generate_content rt (with_word_count wc2 request))).
Proof.
  split; [apply generate_content_ignores_word_count|].
  intros Hv. split; [now apply script_ignores_word_count_but_duration|].
  intros Hd Hfloat H.
  assert (Hct : forall wc, content_type (with_word_count wc request)
                           = lit "video_script") by (intros wc; exact Hv).
  destruct (Z_lt_le_dec (Z.abs (or_int wc1 1200 / 150)) float_overflow) as [H1|H1];
    destruct (Z_lt_le_dec (Z.abs (or_int wc2 1200 / 150)) float_overflow) as [H2|H2].
  - destruct (generate_content_ok rt _ (script_well_formed request wc1 Hv H1))
      as (a0 & a1 & a2 & Ea & Ea0 & _).
    destruct (generate_content_ok rt _ (script_well_formed request wc2 Hv H2))
      as (b0 & b1 & b2 & Eb & Eb0 & _).
    rewrite Ea, Eb in H.
    apply (f_equal (fun r => match r with
                             | inr (v :: _, _) => Some v
                             | _ => None
                             end)) in H.
    cbv beta iota in H. injection H as H0.
    rewrite single_variation_video in Ea0, Eb0 by apply Hct.
    apply Hd. apply (video_script_other_duration rt request wc1 wc2 0 H1 H2).
    rewrite Ea0, Eb0, H0. reflexivity.
  - destruct (generate_content_ok rt _ (script_well_formed request wc1 Hv H1))
      as (a0 & a1 & a2 & Ea & _).
    rewrite Ea, (generate_content_script_overflow rt (with_word_count wc2 request))
      in H by (apply Hct || exact H2).
    discriminate H.
  - destruct (generate_content_ok rt _ (script_well_formed request wc2 Hv H2))
      as (b0 & b1 & b2 & Eb & _).
    rewrite Eb, (generate_content_script_overflow rt (with_word_count wc1 request))
      in H by (apply Hct || exact H1).
    discriminate H.
  - destruct Hfloat; lia.
Qed.

Lemma word_count_matters_only_for_script_witness :
  generate_content ref_runtime (with_word_count (Some 100) devops_request)
  = generate_content ref_runtime (with_word_count (Some 5000) devops_request)
  /\ generate_content ref_runtime (with_word_count (Some 1200) video_request)
     = generate_content ref_runtime (with_word_count (Some 1349) video_request)
  /\ generate_content ref_runtime (with_word_count (Some 1200) video_request)
     <> generate_content ref_runtime (with_word_count (Some 300) video_request).
Proof.
  destruct (word_count_matters_only_for_script ref_runtime devops_request
              (Some 100) (Some 5000)) as [H1 _].
  destruct (word_count_matters_only_for_script ref_runtime video_request
              (Some 1200) (Some 1349)) as [_ H2].
  destruct (H2 eq_refl) as [H2' _].
  destruct (word_count_matters_only_for_script ref_runtime video_request
              (Some 1200) (Some 300)) as [_ H3].
  destruct (H3 eq_refl) as [_ H3'].
  split; [apply H1; vm_compute; discriminate|].
  split; [apply H2'; reflexivity|].
  apply H3'; [vm_compute; discriminate | left; vm_compute; reflexivity].
Defined.

(** ** The [include_seo] flag *)

Lemma blog_content_tags rt request i :
  In (tone request) known_tones ->
  exists v, _generate_blog_content rt request i = ret v
            /\ tags v = TagList (if include_seo request
                                 then _generate_seo_tags rt (topic request)
                                 else []).
Proof.
  intros H; apply lookup_Some in H; destruct H as [t Ht].
  unfold _generate_blog_content, _build_blog_structure, getitem.
  rewrite Ht. eexists; split; reflexivity.
Qed.

Lemma social_content_tags rt request i :
  tags (_generate_social_content rt request i)
  = TagText (_generate_social_tags rt (topic request)).
Proof.
  unfold _generate_social_content.
  destruct (i =? 0); [reflexivity|]. destruct (i =? 1); reflexivity.
Qed.

(** C10.  Only the article builder reads [include_seo]: with the flag off
    an article variation has an empty tag list (with it on, the tags derived
    from the topic), while the digest, script and campaign-email builders
    always store the tags derived from the topic and the short-post builder
    always stores the hashtag string derived from it, whatever the flag.
    (The article builder returns for a known tone, the script builder for a
    duration that converts to a float.) *)
Theorem include_seo_honored_only_by_article
    (rt : Runtime) (request : ContentRequest) (i : Z) :
  (In (tone request) known_tones ->
   exists v, _generate_blog_content rt request i = inr v
             /\ (include_seo request = false -> tags v = TagList [])
             /\ (include_seo request = true ->
                 tags v = TagList (_generate_seo_tags rt (topic request))))
  /\ tags (_generate_newsletter_content rt request i)
     = TagList (_generate_seo_tags rt (topic request))
  /\ (Z.abs (script_duration request) < float_overflow ->
      exists v, _generate_video_script rt request i = inr v
                /\ tags v = TagList (_generate_seo_tags rt (topic request)))
  /\ tags (_generate_email_campaign rt request i)
     = TagList (_generate_seo_tags rt (topic request))
  /\ tags (_generate_social_content rt request i)
     = TagText (_generate_social_tags rt (topic request)).
Proof.
  split; [|split; [reflexivity|split; [|split;
                  [reflexivity | apply social_content_tags]]]].
  - intros Htone.
    destruct (blog_content_tags rt request i Htone) as (v & E & Ht).
    exists v; split; [exact E|].
    split; intros Hflag; rewrite Hflag in Ht; exact Ht.
  - intros Hd.
    destruct (video_script_ok rt request i Hd) as (v & E & _ & _ & Ht & _).
    eauto.
Qed.

(** [devops_request] with the flag off. *)
Lemma include_seo_honored_only_by_article_witness :
  let request :=
    {| topic := topic devops_request;
       content_type := content_type devops_request;
       target_audience := target_audience devops_request;
       tone := tone devops_request;
       word_count := None; platform := None; call_to_action := None;
       include_examples := true;
       include_seo := false |} in
  (exists v, _generate_blog_content ref_runtime request 0 = inr v
             /\ tags v = TagList [])
  /\ (exists v, _generate_video_script ref_runtime request 0 = inr v
                /\ tags v = TagList (_generate_seo_tags ref_runtime (topic request))).
Proof.
  intros request.
  destruct (include_seo_honored_only_by_article ref_runtime request 0)
    as (Hblog & _ & Hvideo & _).
  split.
  - destruct Hblog as (v & E & Hoff & _); [simpl; auto|].
    exists v; split; [exact E | apply Hoff; reflexivity].
  - apply Hvideo. vm_compute; reflexivity.
Defined.

(** ** Title selection *)

Lemma mod3_cases (i : Z) : i mod 3 = 0 \/ i mod 3 = 1 \/ i mod 3 = 2.
Proof. pose proof (Z.mod_pos_bound i 3); lia. Qed.

Lemma blog_content_title rt request i :
  In (tone request) known_tones ->
  exists v, _generate_blog_content rt request i = ret v
            /\ title v = subscript (blog_title_options request)
                           (i mod len_list (blog_title_options request)).
Proof.
  intros H; apply lookup_Some in H; destruct H as [t Ht].
  unfold _generate_blog_content, _build_blog_structure, getitem.
  rewrite Ht. eexists; split; reflexivity.
Qed.

Lemma social_content_title rt request i :
  title (_generate_social_content rt request i)
  = if i =? 0 then lit "Quick Tip: " ++ topic request
    else if i =? 1 then topic request ++ lit " Explained"
    else lit "My Experience with " ++ topic request.
Proof.
  unfold _generate_social_content.
  destruct (i =? 0); [reflexivity|]. destruct (i =? 1); reflexivity.
Qed.

(** The title lists the campaign-email builder subscripts have two members. *)
Lemma email_title_options_two request i :
  len_list (get (email_title_templates request)
                (subscript campaign_types (i mod len_list campaign_types)) []) = 2.
Proof.
  change (len_list campaign_types) with 3.
  destruct (mod3_cases i) as [E|[E|E]]; rewrite E; reflexivity.
Qed.

(** C7, as stated, fails for the campaign-email builder: the list it takes
    the title of variation 0 from has 2 members, not 4 or more. *)
Lemma email_title_list_too_short :
  let request := with_content_type (lit "email_campaign") devops_request in
  let title_options :=
    get (email_title_templates request) (subscript campaign_types (0 mod 3)) [] in
  title (_generate_email_campaign ref_runtime request 0)
  = subscript title_options (0 mod len_list title_options)
  /\ len_list title_options = 2
  /\ ~ 4 <= len_list title_options.
Proof.
  cbv zeta. split; [reflexivity|]. split; [reflexivity|].
  vm_compute. intros H; apply H; reflexivity.
Qed.

(** C7 (amended).  The article, digest and script builders each keep an
    ordered list of at least 4 title templates (5, 4 and 4) and take
    [titles[i mod len(titles)]] for variation index [i] (whenever they
    return: a known tone for the article, a duration that converts to a
    float for the script).  The short-post builder keeps no list: it has
    three fixed titles, for index 0, index 1 and any other index.  The
    campaign-email builder first picks the campaign type
    [campaign_types[i mod 3]] and then takes [options[i mod 2]] from the 2
    titles of that type. *)
Theorem title_selection (rt : Runtime) (request : ContentRequest) (i : Z) :
  (4 <= len_list (blog_title_options request)
   /\ (In (tone request) known_tones ->
       exists v, _generate_blog_content rt request i = inr v
                 /\ title v = subscript (blog_title_options request)
                                (i mod len_list (blog_title_options request))))
  /\ (4 <= len_list (newsletter_title_templates request)
      /\ title (_generate_newsletter_content rt request i)
         = subscript (newsletter_title_templates request)
             (i mod len_list (newsletter_title_templates request)))
  /\ (4 <= len_list (video_title_templates request)
      /\ (Z.abs (script_duration request) < float_overflow ->
          exists v, _generate_video_script rt request i = inr v
                    /\ title v = subscript (video_title_templates request)
                                   (i mod len_list (video_title_templates request))))
  /\ title (_generate_social_content rt request i)
     = (if i =? 0 then lit "Quick Tip: " ++ topic request
        else if i =? 1 then topic request ++ lit " Explained"
        else lit "My Experience with " ++ topic request)
  /\ (let title_options :=
        get (email_title_templates request)
            (subscript campaign_types (i mod 3)) [] in
      len_list title_options = 2
      /\ title (_generate_email_campaign rt request i)
         = subscript title_options (i mod 2)).
Proof.
  split; [split; [vm_compute; discriminate | apply blog_content_title]|].
  split; [split; [vm_compute; discriminate | reflexivity]|].
  split.
  { split; [vm_compute; discriminate|]. intros Hd.
    destruct (video_script_ok rt request i Hd) as (v & E & _ & Ht & _).
    eauto. }
  split; [apply social_content_title|].
  cbv zeta.
  pose proof (email_title_options_two request i) as H2.
  change (len_list campaign_types) with 3 in H2.
  split; [exact H2|].
  unfold _generate_email_campaign. cbv beta iota zeta delta [title].
  change (len_list campaign_types) with 3. rewrite H2. reflexivity.
Qed.

Lemma title_selection_witness :
  (exists v, _generate_blog_content ref_runtime devops_request 1 = inr v
             /\ title v
                = lit "Why Benefits of DevOps for Startups Matters More Than You Think")
  /\ (exists v, _generate_video_script ref_runtime video_request 2 = inr v
                /\ title v = lit "Benefits of DevOps for Startups: What You Need to Know").
Proof.
  destruct (title_selection ref_runtime devops_request 1) as [[_ Hblog] _].
  destruct (title_selection ref_runtime video_request 2) as (_ & _ & [_ Hvideo] & _).
  split.
  - destruct Hblog as (v & E & Ht); [simpl; auto|].
    exists v; split; [exact E | rewrite Ht; reflexivity].
  - destruct Hvideo as (v & E & Ht); [vm_compute; reflexivity|].
    exists v; split; [exact E | rewrite Ht; reflexivity].
Defined.

(** ** Topic normalization *)

Lemma replace_unfold (old new s : str) :
  old <> [] -> replace s old new = replace_go old new 0 s.
Proof. intros H; unfold replace; destruct old; [contradiction | reflexivity]. Qed.

Lemma starts_with_app (old b : str) : starts_with old (old ++ b) = true.
Proof.
  induction old as [|c p IH]; simpl; [reflexivity|].
  now rewrite N.eqb_refl, IH.
Qed.

Lemma starts_with_firstn (old s : str) :
  starts_with old s = true -> firstn (List.length old) s = old.
Proof.
  revert s; induction old as [|c p IH]; intros s; simpl; [reflexivity|].
  destruct s as [|x s]; [discriminate|].
  rewrite andb_true_iff, N.eqb_eq. intros [-> H]. now rewrite IH.
Qed.

Lemma firstn_starts_with (old s : str) :
  firstn (List.length old) s = old -> starts_with old s = true.
Proof.
  intros H. rewrite <- (firstn_skipn (List.length old) s), H.
  apply starts_with_app.
Qed.

(** A match that begins before an occurrence of [old] ends before that
    occurrence's last character. *)
Lemma starts_with_before (old t b : str) :
  old <> [] -> t <> [] ->
  starts_with old (t ++ old ++ b) = true ->
  starts_with old (t ++ removelast old) = true.
Proof.
  intros old_nonempty Ht H.
  apply starts_with_firstn in H. apply firstn_starts_with.
  pose proof (app_removelast_last 0%N old_nonempty) as E.
  assert (Hsplit : t ++ old ++ b
                   = (t ++ removelast old) ++ (last old 0%N :: b)).
  { rewrite E at 1. rewrite <- !app_assoc. reflexivity. }
  assert (Hlen : (List.length old <= List.length (t ++ removelast old))%nat).
  { rewrite E at 1. rewrite !length_app. simpl.
    destruct t as [|c t']; [contradiction|].
    change (List.length (c :: t')) with (S (List.length t')).
    unfold char in *. lia. }
  rewrite Hsplit, firstn_app in H.
  replace (List.length old - List.length (t ++ removelast old))%nat
    with 0%nat in H by (unfold char in *; lia).
  simpl in H. rewrite app_nil_r in H. exact H.
Qed.

Lemma replace_go_skip (old new t b : str) :
  replace_go old new (List.length t) (t ++ b) = replace_go old new 0 b.
Proof. induction t as [|x t IH]; [reflexivity | exact IH]. Qed.

Lemma replace_go_match (old new b : str) :
  old <> [] ->
  replace_go old new 0 (old ++ b) = new ++ replace_go old new 0 b.
Proof.
  intros Hne. destruct old as [|c p] eqn:E; [contradiction|].
  pose proof (starts_with_app (c :: p) b) as Hs.
  change ((c :: p) ++ b) with (c :: p ++ b) in *.
  unfold replace_go at 1; fold replace_go. rewrite Hs.
  change (List.length (c :: p) - 1)%nat with (List.length p - 0)%nat.
  rewrite Nat.sub_0_r. now rewrite replace_go_skip.
Qed.

(** A string without an occurrence of [old] is returned as it is. *)
Lemma replace_absent (old new s : str) :
  old <> [] -> contains s old = false -> replace s old new = s.
Proof.
  intros Hne. rewrite replace_unfold by assumption.
  induction s as [|x s IH]; [reflexivity|]. simpl contains.
  rewrite orb_false_iff; intros [Hhere Hlater].
  unfold replace_go; fold replace_go. rewrite Hhere, IH by assumption.
  reflexivity.
Qed.

(** The leftmost occurrence of [old] is replaced, wherever it stands, and
    the scan goes on behind it. *)
Lemma replace_leftmost (old new a b : str) :
  old <> [] ->
  contains (a ++ removelast old) old = false ->
  replace (a ++ old ++ b) old new = a ++ new ++ replace b old new.
Proof.
  intros Hne. rewrite !replace_unfold by assumption.
  induction a as [|x a IH]; intros H.
  - exact (replace_go_match old new b Hne).
  - change ((x :: a) ++ old ++ b) with (x :: a ++ old ++ b).
    change ((x :: a) ++ removelast old) with (x :: a ++ removelast old) in H.
    simpl contains in H.
    apply orb_false_iff in H; destruct H as [Hhere Hlater].
    destruct (starts_with old (x :: a ++ old ++ b)) eqn:Hm.
    + apply (starts_with_before old (x :: a) b) in Hm;
        [|assumption|discriminate].
      change ((x :: a) ++ removelast old) with (x :: a ++ removelast old) in Hm.
      congruence.
    + unfold replace_go; fold replace_go. rewrite Hm. now rewrite IH.
Qed.

Example topic_clean_devops :
  topic_clean (topic devops_request) = lit "DevOps Startups".
Proof. reflexivity. Qed.

(** The article's introduction interpolates the topic as it was given. *)
Example blog_introduction_raw_topic :
  contains (_generate_blog_introduction ref_runtime (topic devops_request)
              devops_audience devops_tone)
           (lit "Benefits of DevOps for Startups") = true.
Proof. reflexivity. Qed.

(** C6, as stated, fails: on the topic of the specification's own scenario
    the engine's normalization and the stripping of a leading prefix and a
    trailing suffix give different strings, because the interior [ for] is
    removed as well. *)
Lemma topic_clean_is_not_affix_stripping :
  topic_clean (lit "Benefits of DevOps for Startups") = lit "DevOps Startups"
  /\ spec_normalize_topic (lit "Benefits of DevOps for Startups")
     = lit "DevOps for Startups"
  /\ topic_clean (lit "Benefits of DevOps for Startups")
     <> spec_normalize_topic (lit "Benefits of DevOps for Startups").
Proof.
  split; [reflexivity|]. split; [reflexivity|].
  vm_compute; discriminate.
Qed.

(** C6 (amended).  The normalization written out in the section generators
    is [topic.replace('Benefits of ', '').replace(' for', '')]: it removes
    every occurrence of the two fragments, interior ones included, and
    returns a topic that contains neither fragment as it is.  For the topic
    [Benefits of DevOps for Startups] it gives [DevOps Startups], and the
    problem, solution, benefits, examples and conclusion sections of the
    article contain that phrase (hence [DevOps]) and not the original
    topic. *)
Theorem topic_clean_removes_every_occurrence :
  (forall topic,
      contains topic (lit "Benefits of ") = false ->
      contains topic (lit " for") = false ->
      topic_clean topic = topic)
  /\ (forall x y,
         contains (x ++ lit " for" ++ y) (lit "Benefits of ") = false ->
         contains (x ++ lit " fo") (lit " for") = false ->
         topic_clean (x ++ lit " for" ++ y) = x ++ replace y (lit " for") [])
  /\ (forall x y,
         contains (x ++ lit "Benefits of") (lit "Benefits of ") = false ->
         topic_clean (x ++ lit "Benefits of " ++ y)
         = replace (x ++ replace y (lit "Benefits of ") []) (lit " for") [])
  /\ topic_clean (topic devops_request) = lit "DevOps Startups"
  /\ Forall (fun section =>
               contains section (lit "DevOps Startups") = true
               /\ contains section (lit "DevOps") = true
               /\ contains section (topic devops_request) = false)
            (normalizing_sections (topic devops_request)).
Proof.
  split; [|split; [|split; [|split]]].
  - intros topic Hb Hf. unfold topic_clean.
    rewrite (replace_absent (lit "Benefits of ")) by (discriminate || assumption).
    now apply replace_absent.
  - intros x y Hb Hf. unfold topic_clean.
    rewrite (replace_absent (lit "Benefits of ")) by (discriminate || assumption).
    rewrite (replace_leftmost (lit " for")) by (discriminate || exact Hf).
    reflexivity.
  - intros x y Hb. unfold topic_clean.
    rewrite (replace_leftmost (lit "Benefits of ")) by (discriminate || exact Hb).
    reflexivity.
  - reflexivity.
  - repeat constructor; vm_compute; reflexivity.
Qed.

Lemma topic_clean_removes_every_occurrence_witness :
  topic_clean (lit "Remote Work") = lit "Remote Work"
  /\ topic_clean (lit "DevOps" ++ lit " for" ++ lit " Startups")
     = lit "DevOps" ++ replace (lit " Startups") (lit " for") []
  /\ topic_clean (lit "The " ++ lit "Benefits of " ++ lit "DevOps")
     = replace (lit "The " ++ replace (lit "DevOps") (lit "Benefits of ") [])
         (lit " for") [].
Proof.
  destruct topic_clean_removes_every_occurrence as (Hsame & Hfor & Hben & _).
  split; [|split].
  - apply Hsame; reflexivity.
  - apply Hfor; reflexivity.
  - apply Hben; reflexivity.
Defined.

(** * Further properties of the engine *)

(** ** The character budget of a short post *)

Lemma get_In {A} (d : list (str * A)) (k : str) (default : A) :
  In (get d k default) (default :: map snd d).
Proof.
  unfold get. destruct (lookup k d) as [v|] eqn:E; [right | now left].
  induction d as [|[k' v'] d IH]; simpl in *; [discriminate|].
  destruct (PyStr.eqb k k'); [injection E as ->; now left | right; auto].
Qed.

Lemma social_content_body rt request i :
  exists full_post,
    content (_generate_social_content rt request i)
    = _truncate_to_limit full_post (get limits (resolved_platform request) 300).
Proof.
  unfold _generate_social_content, _generate_question_post, _generate_value_post,
    _generate_story_post, resolved_platform.
  destruct (i =? 0); [eexists; reflexivity|].
  destruct (i =? 1); eexists; reflexivity.
Qed.

(** X1.  Whatever the request, the body of a short post is at most three
    characters (the ellipsis) longer than the budget of its platform, and
    that budget is one of 280, 700, 500, 2200 and 300: a platform that is
    missing, empty or not a key of [limits] gets 300. *)
Theorem social_post_within_budget (rt : Runtime) (request : ContentRequest) (i : Z) :
  let budget := get limits (resolved_platform request) 300 in
  In budget [300; 280; 700; 500; 2200; 300]
  /\ (~ In (resolved_platform request) (map fst limits) -> budget = 300)
  /\ (platform request = None -> budget = 300)
  /\ (platform request = Some [] -> budget = 300)
  /\ len (content (_generate_social_content rt request i)) <= budget + 3.
Proof.
  cbv zeta.
  assert (Hin : In (get limits (resolved_platform request) 300)
                   [300; 280; 700; 500; 2200; 300])
    by apply (get_In limits).
  split; [exact Hin|]. split; [|split; [|split]].
  - intros H; apply lookup_None in H. unfold get; now rewrite H.
  - intros H; unfold resolved_platform; rewrite H; reflexivity.
  - intros H; unfold resolved_platform; rewrite H; reflexivity.
  - destruct (social_content_body rt request i) as [full ->].
    apply truncate_len_bound.
    simpl in Hin; intuition lia.
Qed.

Lemma social_post_within_budget_witness :
  let request := with_content_type (lit "social_media") devops_request in
  get limits (resolved_platform (with_platform (Some (lit "mastodon")) request)) 300
  = 300
  /\ get limits (resolved_platform request) 300 = 300
  /\ get limits (resolved_platform (with_platform (Some []) request)) 300 = 300
  /\ len (content (_generate_social_content ref_runtime
                     (with_platform (Some (lit "twitter")) request) 1)) <= 280 + 3.
Proof.
  intros request.
  destruct (social_post_within_budget ref_runtime
              (with_platform (Some (lit "mastodon")) request) 0) as (_ & H1 & _).
  destruct (social_post_within_budget ref_runtime request 0) as (_ & _ & H2 & _).
  destruct (social_post_within_budget ref_runtime
              (with_platform (Some []) request) 0) as (_ & _ & _ & H3 & _).
  destruct (social_post_within_budget ref_runtime
              (with_platform (Some (lit "twitter")) request) 1) as (_ & _ & _ & _ & H4).
  split; [|split; [|split]].
  - apply H1. apply lookup_None; reflexivity.
  - apply H2; reflexivity.
  - apply H3; reflexivity.
  - exact H4.
Defined.

(** ** Which request fields reach which builder *)

Section FieldRelevance.

Variable rt : Runtime.
Variable request : ContentRequest.

(** A field that no builder and no part of the analysis reads cannot change
    the result: the proof is the same for each field, the content type
    decides which builders are in play. *)
Ltac same_single_variation Hskip :=
  let Hct := fresh "Hct" in
  match goal with
  | |- _generate_single_variation _ ?r1 ?i = _generate_single_variation _ ?r2 ?i =>
      destruct (in_dec PyStr.eq_dec (content_type request) known_content_types)
        as [Hct|Hct];
      [ content_type_cases Hct;
        [ rewrite !single_variation_blog by exact Hct
        | rewrite !single_variation_social by exact Hct
        | rewrite !single_variation_newsletter by exact Hct
        | rewrite !single_variation_video by exact Hct
        | rewrite !single_variation_email by exact Hct ];
        try reflexivity; try (exfalso; apply Hskip; exact Hct)
      | apply lookup_None in Hct;
        unfold _generate_single_variation, getitem;
        change (content_type r1) with (content_type request);
        change (content_type r2) with (content_type request);
        rewrite Hct; reflexivity ]
  end.

Lemma generate_content_same (r1 r2 : ContentRequest) :
  content_type r1 = content_type request ->
  content_type r2 = content_type request ->
  (forall i, _generate_single_variation rt r1 i = _generate_single_variation rt r2 i) ->
  (forall variations, _generate_content_analysis rt r1 variations
                      = _generate_content_analysis rt r2 variations) ->
  generate_content rt r1 = generate_content rt r2.
Proof.
  intros H1 H2 Hv Ha.
  unfold generate_content, generate_content_body. rewrite H1, H2.
  destruct (lookup (content_type request) content_types) as [b|]; [|reflexivity].
  rewrite (for_each_ext _ _ _ Hv).
  destruct (for_each _ _) as [e|variations]; [reflexivity|].
  simpl bind. now rewrite Ha.
Qed.

Lemma include_examples_never_read (b1 b2 : bool) :
  generate_content rt (with_include_examples b1 request)
  = generate_content rt (with_include_examples b2 request).
Proof.
  apply generate_content_same; try reflexivity.
  intros i. same_single_variation (fun H : False => H).
Qed.

Lemma platform_read_by_social_only (p1 p2 : option str) :
  content_type request <> lit "social_media" ->
  generate_content rt (with_platform p1 request)
  = generate_content rt (with_platform p2 request).
Proof.
  intros Hskip. apply generate_content_same; try reflexivity.
  intros i. same_single_variation Hskip.
Qed.

Lemma call_to_action_read_by_blog_only (c1 c2 : option str) :
  content_type request <> lit "blog" ->
  generate_content rt (with_call_to_action c1 request)
  = generate_content rt (with_call_to_action c2 request).
Proof.
  intros Hskip. apply generate_content_same; try reflexivity.
  intros i. same_single_variation Hskip.
Qed.

Lemma include_seo_read_by_blog_only (b1 b2 : bool) :
  content_type request <> lit "blog" ->
  generate_content rt (with_include_seo b1 request)
  = generate_content rt (with_include_seo b2 request).
Proof.
  intros Hskip. apply generate_content_same; try reflexivity.
  intros i. same_single_variation Hskip.
Qed.

End FieldRelevance.

(** X2.  [include_examples] is never read: flipping it leaves the result of
    [generate_content] as it is for every request.  [platform] is read by
    the short-post builder only: for every other content type two requests
    that differ in it alone get the same result. *)
Theorem include_examples_and_platform_irrelevant
    (rt : Runtime) (request : ContentRequest) (b1 b2 : bool) (p1 p2 : option str) :
  generate_content rt (with_include_examples b1 request)
  = generate_content rt (with_include_examples b2 request)
  /\ (content_type request <> lit "social_media" ->
      generate_content rt (with_platform p1 request)
      = generate_content rt (with_platform p2 request)).
Proof.
  split; [apply include_examples_never_read | apply platform_read_by_social_only].
Qed.

Lemma include_examples_and_platform_irrelevant_witness :
  generate_content ref_runtime (with_platform (Some (lit "twitter")) devops_request)
  = generate_content ref_runtime (with_platform None devops_request).
Proof.
  apply (include_examples_and_platform_irrelevant ref_runtime devops_request
           true false (Some (lit "twitter")) None).
  vm_compute; discriminate.
Defined.

(** The short-post builder does read the platform. *)
Example platform_changes_short_post :
  _generate_social_content ref_runtime
    (with_platform (Some (lit "linkedin"))
       (with_content_type (lit "social_media") devops_request)) 1
  <> _generate_social_content ref_runtime
       (with_platform (Some (lit "twitter"))
          (with_content_type (lit "social_media") devops_request)) 1.
Proof. vm_compute; discriminate. Qed.

(** ** The call to action *)

Lemma blog_content_cta rt request i :
  In (tone request) known_tones ->
  exists v, _generate_blog_content rt request i = ret v
            /\ o_call_to_action v
               = Some (or_str (call_to_action request)
                         (_generate_default_cta rt request)).
Proof.
  intros H; apply lookup_Some in H; destruct H as [t Ht].
  unfold _generate_blog_content, _build_blog_structure, getitem.
  rewrite Ht. eexists; split; reflexivity.
Qed.

Lemma mod4_cases (h : Z) : h mod 4 = 0 \/ h mod 4 = 1 \/ h mod 4 = 2 \/ h mod 4 = 3.
Proof. pose proof (Z.mod_pos_bound h 4); lia. Qed.

(** The default call to action is one of four sentences around the
    normalized topic, whatever the hash. *)
Lemma default_cta_shape rt request :
  exists before after,
    _generate_default_cta rt request
    = before ++ topic_clean (topic request) ++ after
    /\ In (before, after)
         [ (lit "Ready to implement ",
            lit " in your organization? Start with our free assessment tool.");
           (lit "Want to learn more about ",
            lit "? Download our comprehensive guide today.");
           (lit "Start your ",
            lit " journey today. Get personalized recommendations for your team.");
           (lit "Transform your business with ",
            lit ". Book a consultation to get started.") ].
Proof.
  unfold _generate_default_cta. cbv zeta.
  match goal with |- context [py_hash rt ?t mod ?n] =>
    change n with 4; destruct (mod4_cases (py_hash rt t)) as [E|[E|[E|E]]]; rewrite E
  end; do 2 eexists; (split; [reflexivity | simpl; auto 6]).
Qed.

(** X3.  The request's [call_to_action] reaches the output of the article
    builder only.  There a non-empty override becomes the variation's call
    to action as it is, and a missing or empty one is replaced by one of the
    four default sentences built around the normalized topic.  For every
    other content type the override changes nothing in the result (the
    digest always carries its fixed subscribe sentence). *)
Theorem call_to_action_override
    (rt : Runtime) (request : ContentRequest) (i : Z) :
  (In (tone request) known_tones ->
   exists v, _generate_blog_content rt request i = inr v
     /\ (forall s, call_to_action request = Some s -> s <> [] ->
         o_call_to_action v = Some s)
     /\ (call_to_action request = None \/ call_to_action request = Some [] ->
         o_call_to_action v = Some (_generate_default_cta rt request)))
  /\ (exists before after,
         _generate_default_cta rt request
         = before ++ topic_clean (topic request) ++ after
         /\ In (before, after)
              [ (lit "Ready to implement ",
                 lit " in your organization? Start with our free assessment tool.");
                (lit "Want to learn more about ",
                 lit "? Download our comprehensive guide today.");
                (lit "Start your ",
                 lit " journey today. Get personalized recommendations for your team.");
                (lit "Transform your business with ",
                 lit ". Book a consultation to get started.") ])
  /\ (content_type request <> lit "blog" ->
      forall c1 c2,
        generate_content rt (with_call_to_action c1 request)
        = generate_content rt (with_call_to_action c2 request))
  /\ o_call_to_action (_generate_newsletter_content rt request i)
     = Some (lit "Subscribe to our weekly newsletter for more insights like this!").
Proof.
  split; [|split; [apply default_cta_shape|split; [|reflexivity]]].
  - intros Htone.
    destruct (blog_content_cta rt request i Htone) as (v & E & Hc).
    exists v; split; [exact E|]. split.
    + intros s Hs Hne. rewrite Hc, Hs. destruct s; [contradiction | reflexivity].
    + intros [Hs|Hs]; rewrite Hc, Hs; reflexivity.
  - intros Hct c1 c2. now apply call_to_action_read_by_blog_only.
Qed.

Lemma call_to_action_override_witness :
  (exists v,
      _generate_blog_content ref_runtime
        (with_call_to_action (Some (lit "Call us")) devops_request) 0 = inr v
      /\ o_call_to_action v = Some (lit "Call us"))
  /\ (exists v,
         _generate_blog_content ref_runtime devops_request 0 = inr v
         /\ o_call_to_action v
            = Some (lit "Ready to implement DevOps Startups in your organization? Start with our free assessment tool."))
  /\ generate_content ref_runtime
       (with_call_to_action (Some (lit "Call us")) video_request)
     = generate_content ref_runtime (with_call_to_action None video_request).
Proof.
  destruct (call_to_action_override ref_runtime
              (with_call_to_action (Some (lit "Call us")) devops_request) 0)
    as (H1 & _).
  destruct (call_to_action_override ref_runtime devops_request 0) as (H2 & _).
  destruct (call_to_action_override ref_runtime video_request 0) as (_ & _ & H3 & _).
  split; [|split].
  - destruct H1 as (v & E & Hs & _); [simpl; auto|].
    exists v; split; [exact E|]. apply Hs; [reflexivity | discriminate].
  - destruct H2 as (v & E & _ & Hd); [simpl; auto|].
    exists v; split; [exact E|]. rewrite Hd by (left; reflexivity). reflexivity.
  - apply H3. vm_compute; discriminate.
Defined.

(** ** Fallbacks for unknown keys *)

(** X4.  An audience that is not a key of [audience_profiles] never makes
    the article builder fail: it builds exactly what it builds for
    [general_audience].  Likewise the short-post builder treats a platform
    that is missing, empty or not a key of [limits] as [general]. *)
Theorem unknown_audience_and_platform_fall_back
    (rt : Runtime) (request : ContentRequest) (i : Z) :
  (~ In (target_audience request) (map fst audience_profiles) ->
   _generate_blog_content rt request i
   = _generate_blog_content rt
       (with_target_audience (lit "general_audience") request) i)
  /\ (platform request = None \/ platform request = Some []
      \/ ~ In (resolved_platform request) (map fst limits) ->
      _generate_social_content rt request i
      = _generate_social_content rt (with_platform (Some (lit "general")) request) i).
Proof.
  split.
  - intros H; apply lookup_None in H.
    unfold _generate_blog_content, _build_blog_structure, get.
    cbn [target_audience with_target_audience].
    rewrite H. reflexivity.
  - intros [H|[H|H]];
      [unfold _generate_social_content; rewrite H; reflexivity ..|].
    assert (Hl : resolved_platform request <> lit "linkedin")
      by (intros E; apply H; rewrite E; simpl; auto).
    apply lookup_None in H.
    unfold _generate_social_content, _generate_social_cta.
    fold (resolved_platform request).
    change (or_str (platform (with_platform (Some (lit "general")) request))
              (lit "general")) with (lit "general").
    unfold get. rewrite H.
    destruct (PyStr.eqb (resolved_platform request) (lit "linkedin")) eqn:E;
      [apply eqb_eq in E; contradiction|].
    reflexivity.
Qed.

Lemma unknown_audience_and_platform_fall_back_witness :
  _generate_blog_content ref_runtime
    (with_target_audience (lit "students") devops_request) 0
  = _generate_blog_content ref_runtime
      (with_target_audience (lit "general_audience") devops_request) 0
  /\ _generate_social_content ref_runtime
       (with_platform (Some (lit "mastodon")) devops_request) 2
     = _generate_social_content ref_runtime
         (with_platform (Some (lit "general")) devops_request) 2
  /\ _generate_social_content ref_runtime (with_platform None devops_request) 1
     = _generate_social_content ref_runtime
         (with_platform (Some (lit "general")) devops_request) 1
  /\ _generate_social_content ref_runtime (with_platform (Some []) devops_request) 0
     = _generate_social_content ref_runtime
         (with_platform (Some (lit "general")) devops_request) 0.
Proof.
  destruct (unknown_audience_and_platform_fall_back ref_runtime
              (with_target_audience (lit "students") devops_request) 0) as [H1 _].
  destruct (unknown_audience_and_platform_fall_back ref_runtime
              (with_platform (Some (lit "mastodon")) devops_request) 2) as [_ H2].
  destruct (unknown_audience_and_platform_fall_back ref_runtime
              (with_platform None devops_request) 1) as [_ H3].
  destruct (unknown_audience_and_platform_fall_back ref_runtime
              (with_platform (Some []) devops_request) 0) as [_ H4].
  split; [|split; [|split]].
  - apply H1. apply lookup_None; reflexivity.
  - apply H2. right; right. apply lookup_None; reflexivity.
  - apply H3. left; reflexivity.
  - apply H4. right; left; reflexivity.
Defined.

(** ** What distinguishes the three variations *)

(** Everything of a variation but its title. *)
Definition same_but_title (v w : ContentOutput) : Prop :=
  content v = content w
  /\ headings v = headings w
  /\ o_call_to_action v = o_call_to_action w
  /\ tags v = tags w
  /\ o_word_count v = o_word_count w.

Lemma blog_content_form rt request :
  In (tone request) known_tones ->
  exists content,
    forall i,
      _generate_blog_content rt request i
      = ret {| title := subscript (blog_title_options request)
                          (i mod len_list (blog_title_options request));
               content := content;
               headings := _extract_headings content;
               o_call_to_action :=
                 Some (or_str (call_to_action request)
                         (_generate_default_cta rt request));
               tags := TagList (if include_seo request
                                then _generate_seo_tags rt (topic request)
                                else []);
               o_word_count := _count_words content |}.
Proof.
  intros H; apply lookup_Some in H; destruct H as [t Ht].
  unfold _generate_blog_content, _build_blog_structure, getitem.
  rewrite Ht. eexists; intros i; reflexivity.
Qed.

Lemma newsletter_content_form rt request :
  exists content,
    forall i,
      _generate_newsletter_content rt request i
      = {| title := subscript (newsletter_title_templates request)
                      (i mod len_list (newsletter_title_templates request));
           content := content;
           headings := _extract_headings content;
           o_call_to_action :=
             Some (lit "Subscribe to our weekly newsletter for more insights like this!");
           tags := TagList (_generate_seo_tags rt (topic request));
           o_word_count := _count_words content |}.
Proof. unfold _generate_newsletter_content. eexists; intros i; reflexivity. Qed.

(** X5.  The variation index reaches nothing but the title of an article or
    of a digest: any two variations of one request have the same body,
    headings, call to action, tags and word count. *)
Theorem article_and_digest_variations_differ_in_title_only
    (rt : Runtime) (request : ContentRequest) (i j : Z) :
  (In (tone request) known_tones ->
   exists v w,
     _generate_blog_content rt request i = inr v
     /\ _generate_blog_content rt request j = inr w
     /\ same_but_title v w)
  /\ same_but_title (_generate_newsletter_content rt request i)
       (_generate_newsletter_content rt request j).
Proof.
  split.
  - intros Htone. destruct (blog_content_form rt request Htone) as [c Hc].
    do 2 eexists. split; [apply Hc|]. split; [apply Hc|].
    unfold same_but_title; cbn [content headings o_call_to_action tags o_word_count].
    repeat split.
  - destruct (newsletter_content_form rt request) as [c Hc].
    rewrite !Hc.
    unfold same_but_title; cbn [content headings o_call_to_action tags o_word_count].
    repeat split.
Qed.

Lemma article_and_digest_variations_differ_in_title_only_witness :
  exists v w,
    _generate_blog_content ref_runtime devops_request 0 = inr v
    /\ _generate_blog_content ref_runtime devops_request 2 = inr w
    /\ same_but_title v w.
Proof.
  destruct (article_and_digest_variations_differ_in_title_only
              ref_runtime devops_request 0 2) as [H _].
  apply H. simpl; auto.
Defined.

(** Two titles differ when they differ in length or in some character of
    their fixed parts. *)
Ltac titles_differ :=
  let H := fresh "H" in
  intros H; cbv -[app] in H; cbn [app] in H;
  first
    [ discriminate H
    | apply (f_equal (@List.length char)) in H;
      cbn [List.length] in H; rewrite ?length_app in H; cbn [List.length] in H;
      unfold char in *; lia ].

Lemma blog_titles_distinct request :
  let t k := subscript (blog_title_options request)
               (k mod len_list (blog_title_options request)) in
  t 0 <> t 1 /\ t 0 <> t 2 /\ t 1 <> t 2.
Proof. cbv zeta. repeat split; titles_differ. Qed.

Lemma social_titles_distinct rt request :
  let t k := title (_generate_social_content rt request k) in
  t 0 <> t 1 /\ t 0 <> t 2 /\ t 1 <> t 2.
Proof.
  cbv beta zeta. rewrite !social_content_title.
  change (0 =? 0) with true; change (1 =? 0) with false;
    change (1 =? 1) with true; change (2 =? 0) with false;
    change (2 =? 1) with false. cbv iota.
  repeat split; titles_differ.
Qed.

Lemma newsletter_titles_distinct rt request :
  let t k := title (_generate_newsletter_content rt request k) in
  t 0 <> t 1 /\ t 0 <> t 2 /\ t 1 <> t 2.
Proof.
  cbv beta zeta. destruct (newsletter_content_form rt request) as [c Hc].
  rewrite !Hc. cbn [title].
  repeat split; titles_differ.
Qed.

Lemma video_titles_distinct request :
  let t k := subscript (video_title_templates request)
               (k mod len_list (video_title_templates request)) in
  t 0 <> t 1 /\ t 0 <> t 2 /\ t 1 <> t 2.
Proof. cbv zeta. repeat split; titles_differ. Qed.

Lemma email_campaign_title rt request i :
  title (_generate_email_campaign rt request i)
  = subscript (get (email_title_templates request)
                 (subscript campaign_types (i mod 3)) [])
      (i mod len_list (get (email_title_templates request)
                         (subscript campaign_types (i mod 3)) [])).
Proof. reflexivity. Qed.

Lemma email_titles_distinct rt request :
  let t k := title (_generate_email_campaign rt request k) in
  t 0 <> t 1 /\ t 0 <> t 2 /\ t 1 <> t 2.
Proof.
  cbv beta zeta. rewrite !email_campaign_title.
  repeat split; titles_differ.
Qed.

(** X6.  Whenever [generate_content] returns, the three variations carry
    three different titles, whatever the topic is. *)
Theorem variation_titles_pairwise_distinct (rt : Runtime) (request : ContentRequest) :
  well_formed request ->
  exists v0 v1 v2 analysis,
    generate_content rt request = inr ([v0; v1; v2], analysis)
    /\ title v0 <> title v1 /\ title v0 <> title v2 /\ title v1 <> title v2.
Proof.
  intros Hwf.
  destruct (generate_content_ok rt request Hwf) as (v0 & v1 & v2 & E & E0 & E1 & E2).
  exists v0, v1, v2, (_generate_content_analysis rt request [v0; v1; v2]).
  split; [exact E|].
  destruct Hwf as (Hct & Htone & Hfloat). content_type_cases Hct.
  - rewrite single_variation_blog in E0, E1, E2 by exact Hct.
    destruct (blog_content_form rt request (Htone Hct)) as [c Hc].
    rewrite Hc in E0, E1, E2.
    injection E0 as <-; injection E1 as <-; injection E2 as <-.
    apply (blog_titles_distinct request).
  - rewrite single_variation_social in E0, E1, E2 by exact Hct.
    injection E0 as <-; injection E1 as <-; injection E2 as <-.
    apply (social_titles_distinct rt request).
  - rewrite single_variation_newsletter in E0, E1, E2 by exact Hct.
    injection E0 as <-; injection E1 as <-; injection E2 as <-.
    apply (newsletter_titles_distinct rt request).
  - rewrite single_variation_video in E0, E1, E2 by exact Hct.
    destruct (video_script_ok rt request 0 (Hfloat Hct)) as (w0 & F0 & _ & T0 & _).
    destruct (video_script_ok rt request 1 (Hfloat Hct)) as (w1 & F1 & _ & T1 & _).
    destruct (video_script_ok rt request 2 (Hfloat Hct)) as (w2 & F2 & _ & T2 & _).
    rewrite E0 in F0; rewrite E1 in F1; rewrite E2 in F2.
    injection F0 as <-; injection F1 as <-; injection F2 as <-.
    rewrite T0, T1, T2. apply (video_titles_distinct request).
  - rewrite single_variation_email in E0, E1, E2 by exact Hct.
    injection E0 as <-; injection E1 as <-; injection E2 as <-.
    apply (email_titles_distinct rt request).
Qed.

Lemma variation_titles_pairwise_distinct_witness :
  exists v0 v1 v2 analysis,
    generate_content ref_runtime devops_request = inr ([v0; v1; v2], analysis)
    /\ title v0 <> title v1 /\ title v0 <> title v2 /\ title v1 <> title v2.
Proof.
  apply (variation_titles_pairwise_distinct ref_runtime devops_request).
  exact devops_request_well_formed.
Defined.

(** ** Counting words *)

Lemma split_go_word (cur t rest : str) :
  Forall (fun c => isspace c = false) t ->
  split_go cur (t ++ rest) = split_go (rev t ++ cur) rest.
Proof.
  intros H; revert cur; induction H as [|c t Hc Ht IH]; intros cur; [reflexivity|].
  simpl. rewrite Hc, IH, <- app_assoc. reflexivity.
Qed.

Lemma split_go_space (cur rest : str) (c : char) :
  isspace c = true ->
  split_go cur (c :: rest) = split_go cur [] ++ split rest.
Proof. intros H; simpl. rewrite H. destruct cur; reflexivity. Qed.

(** Splitting goes through a whitespace character. *)
Lemma split_go_app (cur a b : str) (c : char) :
  isspace c = true ->
  split_go cur (a ++ c :: b) = split_go cur a ++ split b.
Proof.
  intros Hc; revert cur; induction a as [|x a IH]; intros cur.
  - now apply split_go_space.
  - change ((x :: a) ++ c :: b) with (x :: a ++ c :: b).
    unfold split_go; fold split_go.
    destruct (isspace x); [|apply IH].
    destruct cur; rewrite IH; reflexivity.
Qed.

Lemma split_app (a b : str) (c : char) :
  isspace c = true -> split (a ++ c :: b) = split a ++ split b.
Proof. apply split_go_app. Qed.

Lemma split_go_words (cur s : str) :
  Forall (fun c => isspace c = false) cur -> Forall is_word (split_go cur s).
Proof.
  revert cur; induction s as [|c s IH]; intros cur Hcur.
  - destruct cur as [|x cur]; constructor; [|constructor].
    split; [intros E; apply (f_equal (@List.length _)) in E;
            rewrite length_rev in E; discriminate|].
    now apply Forall_rev.
  - simpl. destruct (isspace c) eqn:Hc.
    + destruct cur as [|x cur]; [apply IH; constructor|].
      constructor; [|apply IH; constructor].
      split; [intros E; apply (f_equal (@List.length _)) in E;
              rewrite length_rev in E; discriminate|].
      now apply Forall_rev.
    + apply IH. now constructor.
Qed.

Lemma split_words (s : str) : Forall is_word (split s).
Proof. apply split_go_words; constructor. Qed.

(** Joining words with one blank and splitting gives the words back. *)
Lemma split_join_words (ws : list str) :
  Forall is_word ws -> split (join (lit " ") ws) = ws.
Proof.
  induction 1 as [|t ws [Hne Ht] Hws IH]; [reflexivity|].
  assert (Ht' : split_go [] (t ++ []) = [t]).
  { rewrite split_go_word by assumption. rewrite app_nil_r.
    simpl. destruct (rev t) eqn:E.
    - apply (f_equal (@List.length _)) in E. rewrite length_rev in E.
      destruct t; [contradiction | discriminate].
    - now rewrite <- E, rev_involutive. }
  rewrite app_nil_r in Ht'.
  destruct ws as [|t' ws]; [exact Ht'|].
  change (join (lit " ") (t :: t' :: ws))
    with (t ++ space :: join (lit " ") (t' :: ws)).
  rewrite split_app by reflexivity.
  unfold split at 1. rewrite Ht', IH. reflexivity.
Qed.

Lemma count_words_join (c : char) (parts : list str) :
  isspace c = true ->
  _count_words (join [c] parts)
  = fold_right Z.add 0 (map _count_words parts).
Proof.
  intros Hc. induction parts as [|p parts IH]; [reflexivity|].
  destruct parts as [|q parts]; [simpl; lia|].
  change (join [c] (p :: q :: parts)) with (p ++ c :: join [c] (q :: parts)).
  unfold _count_words in *. rewrite split_app by assumption.
  rewrite length_app, Nat2Z.inj_add, IH. reflexivity.
Qed.

(** X7.  [_count_words] counts what [split] returns, and [split] returns
    words: none is empty and none contains whitespace.  Written out with
    single blanks and split again they come back unchanged, so the word
    count of a text is that of its words joined by blanks. *)
Theorem split_gives_words_and_round_trips (text : str) :
  Forall is_word (split text)
  /\ split (join (lit " ") (split text)) = split text
  /\ _count_words (join (lit " ") (split text)) = _count_words text.
Proof.
  pose proof (split_words text) as Hw.
  split; [exact Hw|]. split; [now apply split_join_words|].
  unfold _count_words. now rewrite split_join_words.
Qed.

(** X8.  Word counts add up across whitespace: a text cut at a whitespace
    character has the words of its two parts, and parts joined by line
    breaks (as the builders join their sections) have the sum of the parts'
    word counts.  An empty text has no words. *)
Theorem count_words_additive (a b : str) (c : char) (parts : list str) :
  _count_words [] = 0
  /\ (isspace c = true ->
      split (a ++ c :: b) = split a ++ split b
      /\ _count_words (a ++ c :: b) = _count_words a + _count_words b)
  /\ _count_words (join nl parts) = fold_right Z.add 0 (map _count_words parts).
Proof.
  split; [reflexivity|]. split.
  - intros Hc. split; [now apply split_app|].
    unfold _count_words. rewrite split_app by assumption.
    rewrite length_app. lia.
  - now apply count_words_join.
Qed.

Lemma count_words_additive_witness :
  _count_words (lit "two words" ++ 9%N :: lit "and three more") = 2 + 3.
Proof.
  destruct (count_words_additive (lit "two words") (lit "and three more") 9%N [])
    as (_ & H & _).
  specialize (H eq_refl). destruct H as [_ H].
  exact (eq_trans H eq_refl).
Defined.

(** ** Extracting headings *)

(** The text behind a matched line: nothing, or a line break and more. *)
Definition at_line_end (tail : str) : Prop :=
  tail = [] \/ exists rest, tail = newline :: rest.

Lemma count_prefix_le (p : char -> bool) (s : str) :
  (count_prefix p s <= List.length s)%nat.
Proof. induction s as [|c s IH]; simpl; [lia|]. destruct (p c); simpl; lia. Qed.

(** A run that stops inside [a] is not prolonged by what follows [a]. *)
Lemma count_prefix_app_short (p : char -> bool) (a b : str) :
  (count_prefix p a < List.length a)%nat ->
  count_prefix p (a ++ b) = count_prefix p a.
Proof.
  induction a as [|c a IH]; simpl; [lia|].
  destruct (p c); [|reflexivity]. intros H. rewrite IH by lia. reflexivity.
Qed.

Lemma count_prefix_skipn (p : char -> bool) (s : str) (c : char) (t : str) :
  skipn (count_prefix p s) s = c :: t -> p c = false.
Proof.
  induction s as [|x s IH]; simpl; [discriminate|].
  destruct (p x) eqn:E; simpl; [exact IH|].
  intros H; injection H as -> _. exact E.
Qed.

Lemma count_prefix_at_line_end (tail : str) :
  at_line_end tail -> count_prefix (N.eqb hash_sign) tail = 0%nat.
Proof. intros [->|[rest ->]]; reflexivity. Qed.

Lemma take_line_app (t tail : str) :
  newline_free t -> at_line_end tail -> take_line (t ++ tail) = t.
Proof.
  intros Ht Htail. induction Ht as [|c t Hc Ht IH]; simpl.
  - destruct Htail as [->|[rest ->]]; reflexivity.
  - destruct (N.eqb_spec c newline); [contradiction|]. now rewrite IH.
Qed.

Lemma skipn_In {A} (n : nat) (l : list A) (x : A) : In x (skipn n l) -> In x l.
Proof.
  intros H; rewrite <- (firstn_skipn n l); apply in_or_app; now right.
Qed.

Lemma newline_free_skipn (n : nat) (l : str) :
  newline_free l -> newline_free (skipn n l).
Proof.
  unfold newline_free; rewrite !Forall_forall.
  intros H x Hx; apply H; now apply skipn_In in Hx.
Qed.

(** One match attempt at the start of a line sees that line only. *)
Lemma match_heading_line (l tail : str) :
  newline_free l -> line_goes_on l -> at_line_end tail ->
  match_heading (l ++ tail)
  = option_map (fun t => (t, List.length l)) (heading_of_line l).
Proof.
  intros Hnl Hgo Htail.
  unfold match_heading, heading_of_line, line_goes_on in *.
  set (h := count_prefix (N.eqb hash_sign) l) in *.
  set (r := skipn h l) in *.
  set (w := count_prefix isspace r) in *.
  pose proof (count_prefix_le (N.eqb hash_sign) l) as Hh. fold h in Hh.
  assert (Hlr : List.length r = (List.length l - h)%nat)
    by (unfold r; apply length_skipn).
  pose proof (count_prefix_le isspace r) as Hw. fold w in Hw.
  assert (Hcount : count_prefix (N.eqb hash_sign) (l ++ tail) = h).
  { destruct (Nat.eq_dec h (List.length l)) as [E|E].
    - assert (Hr : r = []) by (unfold r; apply skipn_all2; lia).
      destruct Hgo as [H0|Hne].
      + assert (l = []) by (destruct l; [reflexivity | simpl in *; lia]).
        subst l. simpl. rewrite count_prefix_at_line_end by assumption.
        symmetry; exact H0.
      + rewrite Hr in Hne. destruct w; simpl in Hne; contradiction.
    - apply count_prefix_app_short. fold h. lia. }
  rewrite Hcount.
  destruct h as [|h'] eqn:Eh; [reflexivity|].
  destruct Hgo as [H0|Hne]; [discriminate|].
  assert (Hskip : skipn (S h') (l ++ tail) = r ++ tail).
  { rewrite skipn_app. fold r.
    replace (S h' - List.length l)%nat with 0%nat by lia. reflexivity. }
  rewrite Hskip.
  destruct (skipn w r) as [|c t] eqn:Et; [contradiction|].
  assert (Hwr : (w < List.length r)%nat).
  { apply (f_equal (@List.length _)) in Et. rewrite length_skipn in Et.
    simpl in Et. unfold char in *. lia. }
  rewrite (count_prefix_app_short isspace r tail Hwr). fold w.
  destruct w as [|w'] eqn:Ew; [reflexivity|].
  assert (Hc : nth_error (r ++ tail) (S w') = Some c).
  { rewrite nth_error_app1 by lia.
    rewrite <- (Nat.add_0_r (S w')), <- nth_error_skipn, Et. reflexivity. }
  assert (Hfree : newline_free (c :: t)).
  { rewrite <- Et. apply newline_free_skipn. unfold r.
    now apply newline_free_skipn. }
  unfold backtrack_ws; fold backtrack_ws. rewrite Hc.
  destruct (N.eqb_spec c newline) as [->|_];
    [inversion Hfree; contradiction|].
  rewrite skipn_app, Et.
  replace (S w' - List.length r)%nat with 0%nat by lia.
  change (skipn 0 tail) with tail.
  rewrite take_line_app by assumption.
  simpl option_map. do 2 f_equal.
  apply (f_equal (@List.length _)) in Et. rewrite length_skipn in Et.
  unfold char in *. lia.
Qed.

(** Behind a line start the scan passes over a line without matching. *)
Lemma findall_go_rest_of_line (m tail : str) :
  newline_free m ->
  findall_go 0 false (m ++ tail) = findall_go 0 false tail.
Proof.
  induction 1 as [|c m Hc Hm IH]; [reflexivity|].
  simpl. destruct (N.eqb_spec c newline); [contradiction | exact IH].
Qed.

Lemma findall_go_skip_line (m tail : str) :
  newline_free m ->
  findall_go (List.length m) false (m ++ tail) = findall_go 0 false tail.
Proof.
  induction 1 as [|c m Hc Hm IH]; [reflexivity|].
  simpl. destruct (N.eqb_spec c newline); [contradiction | exact IH].
Qed.

Lemma findall_go_line (l tail : str) :
  newline_free l -> line_goes_on l -> at_line_end tail ->
  findall_go 0 true (l ++ tail)
  = match heading_of_line l with Some t => [t] | None => [] end
    ++ findall_go 0 false tail.
Proof.
  intros Hnl Hgo Htail.
  destruct l as [|c l'].
  - destruct Htail as [->|[rest ->]]; reflexivity.
  - pose proof (match_heading_line (c :: l') tail Hnl Hgo Htail) as Hm.
    change ((c :: l') ++ tail) with (c :: l' ++ tail) in *.
    unfold findall_go; fold findall_go. rewrite Hm.
    inversion Hnl as [|? ? Hc Hl']; subst.
    destruct (N.eqb_spec c newline); [contradiction|].
    destruct (heading_of_line (c :: l')) as [t|]; simpl option_map; cbv iota.
    + replace (S (List.length l') - 1)%nat with (List.length l') by lia.
      rewrite findall_go_skip_line by assumption. reflexivity.
    + now apply findall_go_rest_of_line.
Qed.

(** The scan of a document, line after line. *)
Lemma findall_go_lines (lines : list str) :
  Forall newline_free lines ->
  Forall line_goes_on lines ->
  findall_go 0 true (join nl lines) = headings_of_lines lines.
Proof.
  induction lines as [|l ls IH]; intros Hnl Hgo; [reflexivity|].
  inversion Hnl as [|? ? Hl Hls]; inversion Hgo as [|? ? Gl Gls]; subst.
  destruct ls as [|l2 ls].
  - simpl join. rewrite <- (app_nil_r l) at 1.
    rewrite findall_go_line by (assumption || now left).
    simpl. now rewrite !app_nil_r.
  - change (join nl (l :: l2 :: ls)) with (l ++ newline :: join nl (l2 :: ls)).
    rewrite findall_go_line by (assumption || (right; eauto)).
    change (findall_go 0 false (newline :: join nl (l2 :: ls)))
      with (findall_go 0 true (join nl (l2 :: ls))).
    rewrite IH by assumption. reflexivity.
Qed.

(** X9.  [_extract_headings] works line by line: on a document whose lines
    that start with [#] go on after the [#]s and the blanks behind them, it
    returns the headings of the lines, in document order and with
    duplicates kept; a line gives a heading exactly when it consists of one
    or more [#], one or more whitespace characters and a non-empty rest,
    which is the heading. *)
Theorem extract_headings_line_by_line (lines : list str) :
  Forall newline_free lines ->
  Forall line_goes_on lines ->
  _extract_headings (join nl lines) = headings_of_lines lines.
Proof.
  intros Hnl Hgo. unfold _extract_headings, findall_headings.
  now apply findall_go_lines.
Qed.

Lemma extract_headings_line_by_line_witness :
  _extract_headings
    (join nl [lit "# A"; lit "plain text"; lit "##  B"; lit "#C"; lit "### A"])
  = [lit "A"; lit "B"; lit "A"].
Proof.
  rewrite extract_headings_line_by_line; [reflexivity | |].
  - repeat (apply Forall_cons; [repeat constructor; discriminate|]).
    apply Forall_nil.
  - repeat (apply Forall_cons;
            [first [left; reflexivity | right; vm_compute; discriminate]|]).
    apply Forall_nil.
Defined.

(** Without the proviso a match runs on into the next line. *)
Example heading_across_lines :
  _extract_headings (join nl [lit "##"; lit "not a heading line"])
  = [lit "not a heading line"].
Proof. reflexivity. Qed.

Lemma heading_of_rendered_line (h : str) :
  heading_text h -> heading_of_line (lit "## " ++ h) = Some h.
Proof.
  intros (_ & c & t & -> & Hc).
  unfold heading_of_line. cbn [lit map list_ascii_of_string app].
  cbn [count_prefix N.eqb N_of_ascii N_of_digits hash_sign Pos.eqb skipn
       N.add N.mul Pos.add Pos.mul Pos.succ].
  change (isspace 32%N) with true. cbv iota. cbn [count_prefix].
  rewrite Hc. reflexivity.
Qed.

Lemma rendered_line_goes_on (h : str) :
  heading_text h -> line_goes_on (lit "## " ++ h).
Proof.
  intros (_ & c & t & -> & Hc).
  unfold line_goes_on. right. cbn [lit map list_ascii_of_string app].
  cbn [count_prefix N.eqb N_of_ascii N_of_digits hash_sign Pos.eqb skipn
       N.add N.mul Pos.add Pos.mul Pos.succ].
  change (isspace 32%N) with true. cbv iota. cbn [count_prefix].
  rewrite Hc. discriminate.
Qed.

(** X10.  Rendering and extracting headings is a round trip: a document
    made of the lines [## h], one per heading text [h] (on one line, not
    starting with whitespace), gives back exactly those texts, in order
    and with repetitions. *)
Theorem extract_rendered_headings (hs : list str) :
  Forall heading_text hs ->
  _extract_headings (join nl (map (fun h => lit "## " ++ h) hs)) = hs.
Proof.
  intros H. unfold _extract_headings, findall_headings.
  rewrite findall_go_lines.
  - unfold headings_of_lines. induction H as [|h hs Hh Hhs IH]; [reflexivity|].
    cbn [map flat_map]. rewrite heading_of_rendered_line by assumption.
    cbn [map flat_map] in IH. now rewrite IH.
  - apply Forall_map. apply (Forall_impl _ (P := heading_text)); [|exact H].
    intros h [Hh _]. apply Forall_app; split; [|exact Hh].
    repeat constructor; discriminate.
  - apply Forall_map. apply (Forall_impl _ (P := heading_text)); [|exact H].
    intros h Hh. now apply rendered_line_goes_on.
Qed.

Lemma extract_rendered_headings_witness :
  _extract_headings
    (join nl (map (fun h => lit "## " ++ h)
                [lit "The Problem"; lit "Key Benefits"; lit "The Problem"]))
  = [lit "The Problem"; lit "Key Benefits"; lit "The Problem"].
Proof.
  apply extract_rendered_headings.
  repeat (apply Forall_cons;
          [split; [repeat constructor; discriminate
                  | do 2 eexists; split; reflexivity]|]).
  apply Forall_nil.
Defined.

(** ** More on tags and hashtags *)

Lemma specific_tags_In (topic_words : list str) (w : str) :
  In w (specific_tags topic_words) <-> In w topic_words /\ ~ In w stop_words.
Proof.
  unfold specific_tags. rewrite filter_In, negb_true_iff.
  split; intros [Hw Hs]; (split; [exact Hw|]).
  - intros Hin; apply mem_In in Hin; congruence.
  - destruct (mem w stop_words) eqn:E; [apply mem_In in E; contradiction | reflexivity].
Qed.

Lemma py_set_length_le (rt : Runtime) (l : list str) :
  (List.length (py_set rt l) <= List.length l)%nat.
Proof.
  apply NoDup_incl_length; [apply py_set_NoDup|].
  intros x Hx; now apply py_set_In in Hx.
Qed.

Lemma base_tags_NoDup : NoDup base_tags.
Proof.
  repeat (apply NoDup_cons;
          [intros H; apply mem_In in H; vm_compute in H; discriminate|]).
  apply NoDup_nil.
Qed.

Lemma seo_tag_set_at_least_five (rt : Runtime) (topic : str) :
  (5 <= List.length (seo_tag_set rt topic))%nat.
Proof.
  change 5%nat with (List.length base_tags).
  apply NoDup_incl_length; [apply base_tags_NoDup|].
  intros x Hx. apply seo_tag_set_In; now left.
Qed.

Lemma filter_length_le {A} (f : A -> bool) (l : list A) :
  (List.length (filter f l) <= List.length l)%nat.
Proof. induction l as [|x l IH]; simpl; [lia|]. destruct (f x); simpl; lia. Qed.

(** X11.  Every tag is a base tag or a word of the lower-cased topic that
    is not a stop word, and no tag occurs twice.  When the topic has at
    most five words nothing is cut off: every base tag and every such topic
    word is among the tags. *)
Theorem seo_tags_membership (rt : Runtime) (topic : str) :
  let topic_words := split (py_lower rt topic) in
  NoDup (_generate_seo_tags rt topic)
  /\ (forall w, In w (_generate_seo_tags rt topic) ->
                In w base_tags \/ (In w topic_words /\ ~ In w stop_words))
  /\ ((List.length topic_words <= 5)%nat ->
      forall w, In w base_tags \/ (In w topic_words /\ ~ In w stop_words) ->
                In w (_generate_seo_tags rt topic)).
Proof.
  cbv zeta. split; [apply seo_tags_NoDup|]. split.
  - intros w Hw. apply seo_tags_subset, seo_tag_set_In in Hw.
    rewrite specific_tags_In in Hw. exact Hw.
  - intros Hfew w Hw.
    unfold _generate_seo_tags, take. rewrite firstn_all2.
    + apply seo_tag_set_In. rewrite specific_tags_In. exact Hw.
    + unfold seo_tag_set.
      pose proof (py_set_length_le rt
                    (base_tags ++ specific_tags (split (py_lower rt topic)))) as H.
      rewrite length_app in H.
      pose proof (filter_length_le (fun word => negb (mem word stop_words))
                    (split (py_lower rt topic))) as Hf.
      unfold specific_tags in *. change (List.length base_tags) with 5%nat in H.
      lia.
Qed.

Lemma seo_tags_membership_witness :
  In (lit "devops") (_generate_seo_tags ref_runtime (lit "Benefits of DevOps"))
  /\ In (lit "growth") (_generate_seo_tags ref_runtime (lit "Benefits of DevOps")).
Proof.
  destruct (seo_tags_membership ref_runtime (lit "Benefits of DevOps"))
    as (_ & _ & H).
  split; apply H; try (vm_compute; lia).
  - right; split; [vm_compute; auto 10|].
    intros Hs; apply mem_In in Hs; vm_compute in Hs; discriminate.
  - left; vm_compute; auto 10.
Defined.

(** With more words the cut at 10 can drop a base tag. *)
Example base_tag_crowded_out :
  ~ In (lit "technology")
      (_generate_seo_tags reversed_runtime
         (lit "one two three four five six seven")).
Proof.
  intros H; apply mem_In in H; vm_compute in H; discriminate.
Qed.

Lemma seo_tags_are_words (rt : Runtime) (topic : str) :
  Forall is_word (_generate_seo_tags rt topic).
Proof.
  apply Forall_forall. intros w Hw.
  apply seo_tags_subset, seo_tag_set_In in Hw. destruct Hw as [Hb|Hs].
  - simpl in Hb.
    repeat (destruct Hb as [<-|Hb];
            [split; [discriminate | repeat constructor]|]).
    contradiction.
  - apply specific_tags_In in Hs. destruct Hs as [Hs _].
    pose proof (split_words (py_lower rt topic)) as H.
    rewrite Forall_forall in H. now apply H.
Qed.

(** X12.  The hashtag string of a short post always holds exactly five
    hashtags: splitting it at whitespace gives five words, each of them [#]
    followed by one of the first five tags. *)
Theorem social_tags_are_five_hashtags (rt : Runtime) (topic : str) :
  split (_generate_social_tags rt topic)
  = map (fun tag => lit "#" ++ tag) (firstn 5 (_generate_seo_tags rt topic))
  /\ _count_words (_generate_social_tags rt topic) = 5.
Proof.
  assert (Hsplit : split (_generate_social_tags rt topic)
                   = map (fun tag => lit "#" ++ tag)
                       (firstn 5 (_generate_seo_tags rt topic))).
  { unfold _generate_social_tags, take. apply split_join_words.
    apply Forall_map.
    assert (Hw : Forall is_word (firstn 5 (_generate_seo_tags rt topic))).
    { apply Forall_forall; intros w Hw. apply In_firstn in Hw.
      pose proof (seo_tags_are_words rt topic) as H.
      rewrite Forall_forall in H; now apply H. }
    apply (Forall_impl _ (P := is_word)); [|exact Hw].
    intros w [_ Hfree]. split; [discriminate|].
    constructor; [reflexivity | exact Hfree]. }
  split; [exact Hsplit|].
  unfold _count_words. rewrite Hsplit, length_map, length_firstn.
  unfold _generate_seo_tags, take. rewrite length_firstn.
  pose proof (seo_tag_set_at_least_five rt topic). lia.
Qed.

(** ** The headings of the generated documents *)

Lemma no_newline_spec (s : str) : no_newline s = true -> newline_free s.
Proof.
  unfold no_newline, newline_free. rewrite forallb_forall, Forall_forall.
  intros H c Hc E. specialize (H c Hc). subst c. discriminate.
Qed.

Lemma newline_free_no_newline (s : str) : newline_free s -> no_newline s = true.
Proof.
  unfold no_newline, newline_free. rewrite forallb_forall, Forall_forall.
  intros H c Hc. specialize (H c Hc).
  destruct (N.eqb_spec c newline); [contradiction | reflexivity].
Qed.

(** The scan, one piece of a document at a time. *)
Lemma scan_piece (m rest : str) :
  no_newline m = true ->
  findall_go 0 false (m ++ rest) = findall_go 0 false rest.
Proof. intros H; apply findall_go_rest_of_line; now apply no_newline_spec. Qed.

Lemma scan_last_piece (m : str) :
  no_newline m = true -> findall_go 0 false m = [].
Proof.
  intros H. rewrite <- (app_nil_r m). rewrite scan_piece by assumption.
  reflexivity.
Qed.

Lemma scan_newline (b : bool) (rest : str) :
  findall_go 0 b (nl ++ rest) = findall_go 0 true rest.
Proof. destruct b; reflexivity. Qed.

Lemma scan_plain_start (m rest : str) :
  plain_start m = true ->
  findall_go 0 true (m ++ rest) = findall_go 0 false rest.
Proof.
  destruct m as [|c m]; [discriminate|]. unfold plain_start.
  rewrite andb_true_iff, negb_true_iff. intros [Hc Hm].
  change ((c :: m) ++ rest) with (c :: m ++ rest).
  unfold findall_go; fold findall_go.
  unfold match_heading. cbn [count_prefix].
  rewrite N.eqb_sym, Hc.
  simpl in Hm. apply andb_true_iff in Hm. destruct Hm as [Hc' Hm].
  apply negb_true_iff in Hc'. rewrite Hc'. now apply scan_piece.
Qed.

Lemma scan_heading (l t rest : str) :
  no_newline l = true -> heading_of_line l = Some t ->
  findall_go 0 true (l ++ nl ++ rest) = t :: findall_go 0 true rest.
Proof.
  intros Hl Ht.
  rewrite findall_go_line.
  - rewrite Ht, scan_newline. reflexivity.
  - now apply no_newline_spec.
  - right. unfold heading_of_line in Ht. cbv zeta in Ht.
    destruct (count_prefix (N.eqb hash_sign) l); [discriminate|].
    destruct (count_prefix isspace _); [discriminate|].
    destruct (skipn _ _); [discriminate | discriminate].
  - right; eexists; reflexivity.
Qed.

Lemma scan_rendered_heading (h rest : str) :
  no_newline h = true -> plain_start h = true -> isspace (hd 0%N h) = false ->
  findall_go 0 true (lit "## " ++ h ++ nl ++ rest) = h :: findall_go 0 true rest.
Proof.
  intros Hn Hp Hs. rewrite app_assoc. apply scan_heading.
  - apply newline_free_no_newline. apply Forall_app.
    split; [repeat constructor; discriminate | now apply no_newline_spec].
  - apply heading_of_rendered_line. split; [now apply no_newline_spec|].
    destruct h as [|c t]; [discriminate|]. eauto.
Qed.

Lemma replace_go_In (old : str) (k : nat) (s : str) (x : char) :
  In x (replace_go old [] k s) -> In x s.
Proof.
  revert k; induction s as [|c s IH]; intros k; [tauto|].
  unfold replace_go; fold replace_go.
  destruct k as [|k]; [|right; eauto].
  destruct (starts_with old (c :: s)); [right; eauto|].
  intros [->|H]; [now left | right; eauto].
Qed.

Lemma topic_clean_In (topic : str) (x : char) :
  In x (topic_clean topic) -> In x topic.
Proof.
  unfold topic_clean. rewrite !replace_unfold by discriminate.
  intros H. apply replace_go_In in H. now apply replace_go_In in H.
Qed.

Lemma topic_clean_no_newline (topic : str) :
  no_newline topic = true -> no_newline (topic_clean topic) = true.
Proof.
  intros H. apply newline_free_no_newline.
  apply no_newline_spec in H. unfold newline_free in *.
  rewrite Forall_forall in *. intros x Hx. apply H. now apply topic_clean_In.
Qed.

Lemma lookup_In {A} (k : str) (d : list (str * A)) (v : A) :
  lookup k d = Some v -> In v (map snd d).
Proof.
  induction d as [|[k' v'] d IH]; simpl; [discriminate|].
  destruct (PyStr.eqb k k'); [intros E; injection E as ->; now left | auto].
Qed.

(** What the article's templates take from the two tables is plain text. *)
Lemma audience_profile_plain (k : str) :
  let audience := get audience_profiles k general_audience in
  no_newline (join (lit ", ") (take 2 (pain_points audience))) = true
  /\ no_newline (subscript (pain_points audience) 0) = true
  /\ no_newline (subscript (interests audience) 0) = true.
Proof.
  cbv zeta. pose proof (get_In audience_profiles k general_audience) as H.
  simpl in H.
  repeat (destruct H as [<-|H]; [repeat split; reflexivity|]).
  contradiction.
Qed.

Lemma tone_template_plain (k : str) (t : ToneTemplate) :
  lookup k tone_templates = Some t -> plain_start (examples t) = true.
Proof.
  intros H. apply lookup_In in H. simpl in H.
  repeat (destruct H as [<-|H]; [reflexivity|]).
  contradiction.
Qed.

Lemma plain_start_no_newline (s : str) :
  plain_start s = true -> no_newline s = true.
Proof.
  destruct s; [discriminate|]. unfold plain_start.
  rewrite andb_true_iff. tauto.
Qed.

(** Side conditions of the scan: an assumption, or a check on a literal. *)
Ltac piece_ok :=
  solve [ assumption | vm_compute; reflexivity ].

Ltac scan_document :=
  repeat first
    [ rewrite scan_newline
    | erewrite scan_heading by piece_ok
    | rewrite scan_rendered_heading by piece_ok
    | rewrite scan_piece by piece_ok
    | rewrite scan_plain_start by piece_ok
    | rewrite scan_last_piece by piece_ok ].

(** The sections of the article hold no heading of their own: scanned from
    a line start, each is passed over and ends inside its last line. *)
Section ArticleSections.

Variables (topic : str) (audience : AudienceProfile) (tone : ToneTemplate).
Variable rest : str.
Hypothesis topic_plain : no_newline topic = true.
Hypothesis clean_plain : no_newline (topic_clean topic) = true.
Hypothesis pain_points_plain :
  no_newline (join (lit ", ") (take 2 (pain_points audience))) = true.
Hypothesis pain_point_plain : no_newline (subscript (pain_points audience) 0) = true.
Hypothesis interest_plain : no_newline (subscript (interests audience) 0) = true.
Hypothesis examples_plain : plain_start (examples tone) = true.
Hypothesis examples_plain' : no_newline (examples tone) = true.

Lemma scan_blog_introduction rt :
  findall_go 0 true (_generate_blog_introduction rt topic audience tone ++ rest)
  = findall_go 0 false rest.
Proof.
  unfold _generate_blog_introduction.
  cbv zeta. unfold len_list. cbn [List.length]. change (Z.of_nat 3) with 3.
  unfold subscript at 1.
  destruct (mod3_cases (py_hash rt topic)) as [E|[E|E]]; rewrite E;
    [ change (Z.to_nat 0) with 0%nat
    | change (Z.to_nat 1) with 1%nat
    | change (Z.to_nat 2) with 2%nat ];
    cbn [nth]; rewrite <- !app_assoc;
    rewrite scan_plain_start by piece_ok; scan_document; reflexivity.
Qed.

Lemma scan_problem_section :
  findall_go 0 true (_generate_problem_section topic audience ++ rest)
  = findall_go 0 false rest.
Proof.
  unfold _generate_problem_section. cbv zeta. rewrite <- !app_assoc.
  scan_document; reflexivity.
Qed.

Lemma scan_solution_section :
  findall_go 0 true (_generate_solution_section topic audience tone ++ rest)
  = findall_go 0 false rest.
Proof.
  unfold _generate_solution_section. rewrite <- !app_assoc.
  scan_document; reflexivity.
Qed.

Lemma scan_benefits_section :
  findall_go 0 true (_generate_benefits_section topic audience tone ++ rest)
  = findall_go 0 false rest.
Proof.
  unfold _generate_benefits_section. rewrite <- !app_assoc.
  scan_document; reflexivity.
Qed.

Lemma scan_implementation_section :
  findall_go 0 true (_generate_implementation_section topic audience ++ rest)
  = findall_go 0 false rest.
Proof.
  unfold _generate_implementation_section. rewrite <- !app_assoc.
  scan_document; reflexivity.
Qed.

Lemma scan_examples_section :
  findall_go 0 true (_generate_examples_section topic tone ++ rest)
  = findall_go 0 false rest.
Proof.
  unfold _generate_examples_section. rewrite <- !app_assoc.
  scan_document; reflexivity.
Qed.

Lemma scan_blog_conclusion :
  findall_go 0 true (_generate_blog_conclusion topic audience tone ++ rest)
  = findall_go 0 false rest.
Proof.
  unfold _generate_blog_conclusion. rewrite <- !app_assoc.
  scan_document; reflexivity.
Qed.

End ArticleSections.

Lemma blog_structure_headings rt request title wc t :
  lookup (tone request) tone_templates = Some t ->
  no_newline (topic request) = true ->
  exists c,
    _build_blog_structure rt request title wc = ret c
    /\ _extract_headings c = blog_headings.
Proof.
  intros Ht Htopic.
  unfold _build_blog_structure, getitem. rewrite Ht.
  eexists; split; [reflexivity|].
  pose proof (audience_profile_plain (target_audience request)) as HA.
  cbv zeta in HA. destruct HA as (HP2 & HP0 & HI0).
  pose proof (tone_template_plain _ _ Ht) as HEX.
  pose proof (plain_start_no_newline _ HEX) as HEX'.
  pose proof (topic_clean_no_newline _ Htopic) as HTC.
  unfold _extract_headings, findall_headings.
  cbv zeta. cbn [join flat_map app]. rewrite <- !app_assoc.
  rewrite scan_blog_introduction by assumption.
  rewrite scan_newline, scan_rendered_heading by piece_ok.
  rewrite scan_problem_section by assumption.
  rewrite !scan_newline, scan_rendered_heading by piece_ok.
  rewrite scan_solution_section by assumption.
  rewrite !scan_newline, scan_rendered_heading by piece_ok.
  rewrite scan_benefits_section by assumption.
  rewrite !scan_newline, scan_rendered_heading by piece_ok.
  rewrite scan_implementation_section by assumption.
  rewrite !scan_newline, scan_rendered_heading by piece_ok.
  rewrite scan_examples_section by assumption.
  rewrite !scan_newline.
  erewrite scan_heading by piece_ok.
  rewrite <- (app_nil_r (_generate_blog_conclusion _ _ _)).
  rewrite scan_blog_conclusion by assumption.
  reflexivity.
Qed.

(** X13.  An article whose tone is known and whose topic holds no line
    break has the same six headings in every variation, whatever the topic,
    audience, word count and runtime: The Problem, The Solution, Key
    Benefits, Implementation, Real-World Examples, Conclusion. *)
Theorem article_headings_fixed rt request i :
  In (tone request) known_tones ->
  no_newline (topic request) = true ->
  exists v,
    _generate_blog_content rt request i = inr v
    /\ headings v = blog_headings.
Proof.
  intros Htone Htopic.
  apply lookup_Some in Htone. destruct Htone as [t Ht].
  unfold _generate_blog_content. cbv zeta.
  destruct (blog_structure_headings rt request
              (subscript (blog_title_options request)
                 (i mod len_list (blog_title_options request)))
              (or_int (word_count request) (_get_default_word_count (lit "blog")))
              t Ht Htopic) as (c & Hc & Hh).
  rewrite Hc. eexists; split; [reflexivity|].
  cbn [headings]. exact Hh.
Qed.

Lemma article_headings_fixed_witness :
  exists v,
    _generate_blog_content ref_runtime devops_request 1 = inr v
    /\ headings v = blog_headings.
Proof.
  apply (article_headings_fixed ref_runtime devops_request 1).
  - vm_compute. auto 10.
  - vm_compute. reflexivity.
Defined.

(** A topic that holds a line break followed by a heading mark adds a
    heading of its own to the article. *)
Example topic_with_line_break_adds_heading :
  exists v,
    _generate_blog_content ref_runtime
      (with_topic (lit "AI" ++ nl ++ lit "# Notes") devops_request) 0 = inr v
    /\ (6 < List.length (headings v))%nat.
Proof.
  eexists; split; [vm_compute; reflexivity|].
  vm_compute. lia.
Qed.

(** ** The headings of the other documents *)

Lemma no_newline_app (a b : str) :
  no_newline (a ++ b) = no_newline a && no_newline b.
Proof. unfold no_newline. apply forallb_app. Qed.

(** A line that starts with a piece not starting with [#], possibly an
    empty one, and goes on with plain text, is no heading. *)
Lemma scan_unmarked_start (m p rest : str) :
  no_newline m = true -> starts_with (lit "#") m = false ->
  plain_start p = true ->
  findall_go 0 true (m ++ p ++ rest) = findall_go 0 false rest.
Proof.
  intros Hm Hs Hp. destruct m as [|c m].
  - cbn [app]. now apply scan_plain_start.
  - rewrite (scan_plain_start (c :: m)).
    + apply scan_piece. now apply plain_start_no_newline.
    + unfold plain_start. rewrite Hm, andb_true_r.
      cbn in Hs. destruct (N.eqb_spec 35 c) as [<-|Hc]; [discriminate|].
      destruct (N.eqb_spec c hash_sign) as [->|]; [now elim Hc | reflexivity].
Qed.

(** A heading line made of several pieces. *)
Lemma scan_heading2 (a b t rest : str) :
  no_newline (a ++ b) = true -> heading_of_line (a ++ b) = Some t ->
  findall_go 0 true (a ++ b ++ nl ++ rest) = t :: findall_go 0 true rest.
Proof. intros H1 H2. rewrite app_assoc. now apply scan_heading. Qed.

Lemma scan_heading3 (a b c t rest : str) :
  no_newline (a ++ b ++ c) = true -> heading_of_line (a ++ b ++ c) = Some t ->
  findall_go 0 true (a ++ b ++ c ++ nl ++ rest) = t :: findall_go 0 true rest.
Proof.
  intros H1 H2.
  replace (a ++ b ++ c ++ nl ++ rest) with ((a ++ b ++ c) ++ nl ++ rest)
    by now rewrite <- ?app_assoc.
  now apply scan_heading.
Qed.

Lemma scan_heading5 (a b c d e t rest : str) :
  no_newline (a ++ b ++ c ++ d ++ e) = true ->
  heading_of_line (a ++ b ++ c ++ d ++ e) = Some t ->
  findall_go 0 true (a ++ b ++ c ++ d ++ e ++ nl ++ rest)
  = t :: findall_go 0 true rest.
Proof.
  intros H1 H2.
  replace (a ++ b ++ c ++ d ++ e ++ nl ++ rest)
    with ((a ++ b ++ c ++ d ++ e) ++ nl ++ rest)
    by now rewrite <- ?app_assoc.
  now apply scan_heading.
Qed.

(** The pieces of a line are plain when each of them is. *)
Ltac plain_pieces :=
  rewrite ?no_newline_app;
  repeat (apply andb_true_intro; split); piece_ok.

(** *** The digest *)

Section DigestSections.

Variables (topic audience tone rest : str).
Hypothesis clean_plain : no_newline (topic_clean topic) = true.

Lemma scan_newsletter_intro :
  findall_go 0 true (_generate_newsletter_intro topic audience ++ rest)
  = findall_go 0 false rest.
Proof.
  unfold _generate_newsletter_intro. rewrite <- ?app_assoc.
  scan_document; reflexivity.
Qed.

Lemma scan_newsletter_main :
  findall_go 0 true (_generate_newsletter_main topic audience tone ++ rest)
  = findall_go 0 false rest.
Proof.
  unfold _generate_newsletter_main. rewrite <- ?app_assoc.
  scan_document; reflexivity.
Qed.

Lemma scan_newsletter_featured :
  findall_go 0 true (_generate_newsletter_featured topic ++ rest)
  = findall_go 0 false rest.
Proof.
  unfold _generate_newsletter_featured. rewrite <- ?app_assoc.
  scan_document; reflexivity.
Qed.

Lemma scan_newsletter_conclusion :
  findall_go 0 true (_generate_newsletter_conclusion topic ++ rest)
  = findall_go 0 false rest.
Proof.
  unfold _generate_newsletter_conclusion. rewrite <- ?app_assoc.
  scan_document; reflexivity.
Qed.

Lemma newsletter_ps_plain : no_newline (_generate_newsletter_ps topic) = true.
Proof. unfold _generate_newsletter_ps. plain_pieces. Qed.

End DigestSections.

(** X14.  A digest on a topic that holds no line break has four headings
    in every variation: Welcome to This Week's Issue, Featured Article:
    followed by the topic as the request gives it, What's Trending, and
    Closing Thoughts.  The title is not among them. *)
Theorem newsletter_headings_listed rt request i :
  no_newline (topic request) = true ->
  headings (_generate_newsletter_content rt request i)
  = newsletter_headings (topic request).
Proof.
  intros Htopic.
  pose proof (topic_clean_no_newline _ Htopic) as HTC.
  pose proof (newsletter_ps_plain (topic request) HTC) as HPS.
  unfold _generate_newsletter_content. cbv zeta. cbn [headings].
  unfold _extract_headings, findall_headings. rewrite <- ?app_assoc.
  erewrite (scan_heading (lit "## Welcome to This Week's Issue")) by piece_ok.
  rewrite scan_newline.
  rewrite scan_newsletter_intro by assumption.
  rewrite !scan_newline.
  erewrite (scan_heading2 (lit "## Featured Article: ") (topic request))
    by (first [plain_pieces | vm_compute; reflexivity]).
  rewrite scan_newline.
  rewrite scan_newsletter_main by assumption.
  rewrite !scan_newline.
  erewrite (scan_heading (lit "## What's Trending")) by piece_ok.
  rewrite scan_newline.
  rewrite scan_newsletter_featured by assumption.
  rewrite !scan_newline.
  erewrite (scan_heading (lit "## Closing Thoughts")) by piece_ok.
  rewrite scan_newline.
  rewrite scan_newsletter_conclusion by assumption.
  rewrite !scan_newline.
  rewrite (scan_plain_start (lit "---")) by piece_ok.
  rewrite scan_newline.
  rewrite (scan_plain_start (lit "P.S. ")) by piece_ok.
  rewrite scan_piece by assumption.
  reflexivity.
Qed.

Lemma newsletter_headings_listed_witness :
  headings (_generate_newsletter_content ref_runtime devops_request 2)
  = newsletter_headings (topic devops_request).
Proof.
  apply (newsletter_headings_listed ref_runtime devops_request 2).
  vm_compute. reflexivity.
Defined.

(** *** The campaign email *)

Lemma mod2_cases (h : Z) : h mod 2 = 0 \/ h mod 2 = 1.
Proof. pose proof (Z.mod_pos_bound h 2); lia. Qed.

Section EmailSections.

Variables (topic audience rest : str).
Hypothesis clean_plain : no_newline (topic_clean topic) = true.

Lemma email_subject_plain rt campaign_type :
  In campaign_type campaign_types ->
  no_newline (_generate_email_subject rt topic campaign_type) = true.
Proof.
  intros H. simpl in H.
  destruct H as [<-|[<-|[<-|[]]]];
    unfold _generate_email_subject; cbv zeta;
    unfold get; cbn [lookup];
    repeat match goal with
    | |- context [eqb (lit ?a) (lit ?b)] =>
        let v := eval vm_compute in (eqb (lit a) (lit b)) in
        change (eqb (lit a) (lit b)) with v
    end;
    cbv iota;
    unfold len_list; cbn [List.length]; change (Z.of_nat 2) with 2;
    unfold subscript;
    destruct (mod2_cases (py_hash rt topic)) as [E|E]; rewrite E;
    [ change (Z.to_nat 0) with 0%nat | change (Z.to_nat 1) with 1%nat
    | change (Z.to_nat 0) with 0%nat | change (Z.to_nat 1) with 1%nat
    | change (Z.to_nat 0) with 0%nat | change (Z.to_nat 1) with 1%nat ];
    cbn [nth]; plain_pieces.
Qed.

Lemma scan_email_body campaign_type :
  findall_go 0 true (_generate_email_body topic campaign_type audience ++ rest)
  = findall_go 0 false rest.
Proof.
  unfold _generate_email_body.
  destruct (eqb campaign_type (lit "welcome"));
    [|destruct (eqb campaign_type (lit "educational"))];
    rewrite <- ?app_assoc; scan_document; reflexivity.
Qed.

Lemma scan_email_footer :
  findall_go 0 true (_generate_email_footer topic ++ rest)
  = findall_go 0 false rest.
Proof.
  unfold _generate_email_footer. rewrite <- ?app_assoc.
  scan_document; reflexivity.
Qed.

End EmailSections.

Lemma campaign_type_known (i : Z) :
  In (subscript campaign_types (i mod len_list campaign_types)) campaign_types.
Proof.
  unfold len_list, campaign_types. cbn [List.length]. change (Z.of_nat 3) with 3.
  destruct (mod3_cases i) as [E|[E|E]]; rewrite E; simpl; auto.
Qed.

(** X15.  A campaign email on a topic that holds no line break has no
    headings at all, in every variation and whatever the subject line the
    hash selects: no line of the document starts with a heading mark. *)
Theorem email_has_no_headings rt request i :
  no_newline (topic request) = true ->
  headings (_generate_email_campaign rt request i) = [].
Proof.
  intros Htopic.
  pose proof (topic_clean_no_newline _ Htopic) as HTC.
  pose proof (email_subject_plain (topic request) HTC rt _ (campaign_type_known i))
    as HS.
  unfold _generate_email_campaign. cbv zeta. cbn [headings].
  unfold _extract_headings, findall_headings. rewrite <- ?app_assoc.
  rewrite (scan_plain_start (lit "**Subject Line:** ")) by piece_ok.
  rewrite scan_piece by assumption.
  rewrite !scan_newline.
  rewrite (scan_plain_start (lit "---")) by piece_ok.
  rewrite !scan_newline.
  rewrite (scan_plain_start (lit "**Email Body:**")) by piece_ok.
  rewrite !scan_newline.
  rewrite scan_email_body by assumption.
  rewrite !scan_newline.
  rewrite (scan_plain_start (lit "---")) by piece_ok.
  rewrite !scan_newline.
  rewrite (scan_plain_start (lit "**Footer:**")) by piece_ok.
  rewrite !scan_newline.
  rewrite scan_email_footer by assumption.
  reflexivity.
Qed.

Lemma email_has_no_headings_witness :
  headings (_generate_email_campaign ref_runtime devops_request 1) = [].
Proof.
  apply (email_has_no_headings ref_runtime devops_request 1).
  vm_compute. reflexivity.
Defined.

(** *** The script *)

Lemma no_newline_digits (u : Decimal.uint) :
  no_newline (lit (NilEmpty.string_of_uint u)) = true.
Proof. induction u; [reflexivity | exact IHu ..]. Qed.

Lemma no_newline_string_of_uint (u : Decimal.uint) :
  no_newline (lit (NilZero.string_of_uint u)) = true.
Proof. destruct u; first [reflexivity | apply no_newline_digits]. Qed.

Lemma no_newline_of_Z (n : Z) : no_newline (of_Z n) = true.
Proof.
  unfold of_Z. destruct (Z.to_int n) as [u|u];
    exact (no_newline_string_of_uint u).
Qed.

Lemma no_newline_of_half_less (d : Z) : no_newline (of_half_less d) = true.
Proof.
  unfold of_half_less. pose proof no_newline_of_Z as H.
  destruct (1 <=? d); rewrite ?no_newline_app, !H; reflexivity.
Qed.

Lemma sub_half_exact rt d :
  - 2 ^ 52 < d <= 2 ^ 52 -> sub_half rt d = ret (of_half_less d).
Proof.
  intros H. unfold sub_half.
  assert (2 ^ 52 < float_overflow) as Hf by (vm_compute; reflexivity).
  destruct (float_overflow <=? Z.abs d) eqn:E1; [apply Z.leb_le in E1; lia|].
  destruct (- 2 ^ 52 <? d) eqn:E2; [|apply Z.ltb_ge in E2; lia].
  destruct (d <=? 2 ^ 52) eqn:E3; [|apply Z.leb_gt in E3; lia].
  reflexivity.
Qed.

Lemma video_title_plain request i :
  no_newline (topic request) = true ->
  no_newline (subscript (video_title_templates request)
                (i mod len_list (video_title_templates request))) = true.
Proof.
  intros H. unfold video_title_templates, len_list. cbn [List.length].
  change (Z.of_nat 4) with 4. unfold subscript.
  destruct (mod4_cases i) as [E|[E|[E|E]]]; rewrite E;
    [ change (Z.to_nat 0) with 0%nat | change (Z.to_nat 1) with 1%nat
    | change (Z.to_nat 2) with 2%nat | change (Z.to_nat 3) with 3%nat ];
    cbn [nth]; plain_pieces.
Qed.

Ltac scan_script :=
  repeat first
    [ rewrite scan_newline
    | rewrite scan_piece by piece_ok
    | rewrite scan_plain_start by piece_ok
    | rewrite scan_unmarked_start by piece_ok
    | rewrite scan_last_piece by piece_ok ].

Section ScriptSections.

Variables (topic audience rest : str).
Hypothesis clean_plain : no_newline (topic_clean topic) = true.
Hypothesis clean_unmarked : starts_with (lit "#") (topic_clean topic) = false.

Lemma scan_video_hook :
  findall_go 0 true (_generate_video_hook topic audience ++ rest)
  = findall_go 0 false rest.
Proof.
  unfold _generate_video_hook. rewrite <- ?app_assoc. scan_script; reflexivity.
Qed.

Lemma scan_video_intro :
  findall_go 0 true (_generate_video_intro topic ++ rest)
  = findall_go 0 false rest.
Proof.
  unfold _generate_video_intro. rewrite <- ?app_assoc. scan_script; reflexivity.
Qed.

Lemma scan_video_main_points :
  findall_go 0 true (_generate_video_main_points topic audience ++ rest)
  = findall_go 0 false rest.
Proof.
  unfold _generate_video_main_points. rewrite <- ?app_assoc.
  scan_script; reflexivity.
Qed.

Lemma scan_video_demonstration :
  findall_go 0 true (_generate_video_demonstration topic ++ rest)
  = findall_go 0 false rest.
Proof.
  unfold _generate_video_demonstration. rewrite <- ?app_assoc.
  scan_script; reflexivity.
Qed.

Lemma scan_video_conclusion :
  findall_go 0 true (_generate_video_conclusion topic ++ rest)
  = findall_go 0 false rest.
Proof.
  unfold _generate_video_conclusion. rewrite <- ?app_assoc.
  scan_script; reflexivity.
Qed.

Lemma scan_video_cta :
  findall_go 0 true (_generate_video_cta topic ++ rest)
  = findall_go 0 false rest.
Proof.
  unfold _generate_video_cta. rewrite <- ?app_assoc. scan_script; reflexivity.
Qed.

End ScriptSections.

(** The script document, with its variable pieces named. *)
Lemma script_document_headings
    (topic audience title shown_audience d d1 half : str) :
  no_newline (topic_clean topic) = true ->
  starts_with (lit "#") (topic_clean topic) = false ->
  no_newline title = true -> no_newline shown_audience = true ->
  no_newline d = true -> no_newline d1 = true -> no_newline half = true ->
  findall_go 0 true
    (lit "# Video Script: " ++ title ++ nl ++
     lit "**Duration: ~" ++ d ++ lit " minutes**" ++ nl ++
     lit "**Target Audience: " ++ shown_audience ++ lit "**" ++ nl ++
     nl ++
     lit "## Hook (0-15 seconds)" ++ nl ++
     _generate_video_hook topic audience ++ nl ++
     nl ++
     lit "## Introduction (15-45 seconds)" ++ nl ++
     _generate_video_intro topic ++ nl ++
     nl ++
     lit "## Main Content (45 seconds - " ++ d1 ++ lit " minutes)" ++ nl ++
     _generate_video_main_points topic audience ++ nl ++
     nl ++
     lit "## Demonstration/Example (" ++ d1 ++ lit "-" ++ half ++ lit " minutes)" ++ nl ++
     _generate_video_demonstration topic ++ nl ++
     nl ++
     lit "## Conclusion (" ++ half ++ lit "-" ++ d ++ lit " minutes)" ++ nl ++
     _generate_video_conclusion topic ++ nl ++
     nl ++
     lit "## Call to Action (final 15 seconds)" ++ nl ++
     _generate_video_cta topic ++ nl ++
     nl ++
     lit "## Production Notes" ++ nl ++
     lit "- Include engaging visuals and graphics" ++ nl ++
     lit "- Add subtitles for accessibility" ++ nl ++
     lit "- Use energetic, clear delivery" ++ nl ++
     lit "- Maintain eye contact with camera" ++ nl ++
     lit "- Include relevant background music at low volume" ++ nl)
  = [ lit "Video Script: " ++ title;
      lit "Hook (0-15 seconds)";
      lit "Introduction (15-45 seconds)";
      lit "Main Content (45 seconds - " ++ d1 ++ lit " minutes)";
      lit "Demonstration/Example (" ++ d1 ++ lit "-" ++ half ++ lit " minutes)";
      lit "Conclusion (" ++ half ++ lit "-" ++ d ++ lit " minutes)";
      lit "Call to Action (final 15 seconds)";
      lit "Production Notes" ].
Proof.
  intros HTC HU Ht Ha Hd Hd1 Hh.
  erewrite (scan_heading2 (lit "# Video Script: ") title)
    by (first [plain_pieces | vm_compute; reflexivity]).
  rewrite (scan_plain_start (lit "**Duration: ~")) by piece_ok.
  rewrite !scan_piece by piece_ok. rewrite scan_newline.
  rewrite (scan_plain_start (lit "**Target Audience: ")) by piece_ok.
  rewrite !scan_piece by piece_ok. rewrite !scan_newline.
  erewrite (scan_heading (lit "## Hook (0-15 seconds)")) by piece_ok.
  rewrite scan_video_hook by assumption. rewrite !scan_newline.
  erewrite (scan_heading (lit "## Introduction (15-45 seconds)")) by piece_ok.
  rewrite scan_video_intro by assumption. rewrite !scan_newline.
  erewrite (scan_heading3 (lit "## Main Content (45 seconds - ") d1 (lit " minutes)"))
    by (first [plain_pieces | vm_compute; reflexivity]).
  rewrite scan_video_main_points by assumption. rewrite !scan_newline.
  erewrite (scan_heading5 (lit "## Demonstration/Example (") d1 (lit "-") half
              (lit " minutes)"))
    by (first [plain_pieces | vm_compute; reflexivity]).
  rewrite scan_video_demonstration by assumption. rewrite !scan_newline.
  erewrite (scan_heading5 (lit "## Conclusion (") half (lit "-") d (lit " minutes)"))
    by (first [plain_pieces | vm_compute; reflexivity]).
  rewrite scan_video_conclusion by assumption. rewrite !scan_newline.
  erewrite (scan_heading (lit "## Call to Action (final 15 seconds)")) by piece_ok.
  rewrite scan_video_cta by assumption. rewrite !scan_newline.
  erewrite (scan_heading (lit "## Production Notes")) by piece_ok.
  scan_script. reflexivity.
Qed.

(** X16.  A script has eight headings, the first of which carries the
    title: Video Script: title, Hook, Introduction, Main Content,
    Demonstration/Example, Conclusion, Call to Action and Production Notes,
    with the time marks computed from the duration (the word count divided
    by 150).  This holds when the topic holds no line break and, once
    normalized, does not start with a heading mark, the shown audience holds
    no line break, and the duration is above -2^52 and at most 2^52. *)
Theorem script_headings_listed rt request i :
  no_newline (topic request) = true ->
  starts_with (lit "#") (topic_clean (topic request)) = false ->
  no_newline (py_title rt (replace (target_audience request) (lit "_") (lit " ")))
  = true ->
  - 2 ^ 52 < script_duration request <= 2 ^ 52 ->
  exists v,
    _generate_video_script rt request i = inr v
    /\ headings v = script_headings (title v) (script_duration request).
Proof.
  intros Htopic Hmark Haud Hd.
  unfold _generate_video_script. cbv zeta.
  change (or_int (word_count request) 1200 / 150) with (script_duration request).
  rewrite (sub_half_exact rt _ Hd). cbn [bind ret].
  eexists; split; [reflexivity|].
  cbn [headings title]. unfold _extract_headings, findall_headings, script_headings.
  apply script_document_headings;
    auto using topic_clean_no_newline, video_title_plain, no_newline_of_Z,
      no_newline_of_half_less.
Qed.

Lemma script_headings_listed_witness :
  exists v,
    _generate_video_script ref_runtime video_request 0 = inr v
    /\ headings v = script_headings (title v) (script_duration video_request).
Proof.
  apply (script_headings_listed ref_runtime video_request 0).
  - vm_compute. reflexivity.
  - vm_compute. reflexivity.
  - vm_compute. reflexivity.
  - vm_compute. split; [reflexivity | discriminate].
Defined.

(** A topic that starts with a heading mark and a blank adds headings of
    its own to the script. *)
Example marked_topic_adds_script_headings :
  exists v,
    _generate_video_script ref_runtime
      (with_topic (lit "# Notes") video_request) 0 = inr v
    /\ (8 < List.length (headings v))%nat.
Proof.
  eexists; split; [vm_compute; reflexivity|].
  vm_compute. lia.
Qed.

(** ** What the truncator keeps *)

Lemma slice_to_prefix (s : str) (k : Z) :
  exists q, s = slice_to s k ++ q.
Proof.
  unfold slice_to.
  destruct (0 <=? k); eexists; symmetry; apply firstn_skipn.
Qed.

Lemma len_slice_to_le (s : str) (k : Z) : len (slice_to s k) <= len s.
Proof. unfold slice_to. destruct (0 <=? k); rewrite len_firstn; lia. Qed.

Lemma len_slice_to_lt (s : str) (k : Z) :
  s <> [] -> k < len s -> len (slice_to s k) < len s.
Proof.
  intros Hs Hk. assert (0 < len s) by (destruct s; [congruence | unfold len; simpl; lia]).
  unfold slice_to.
  destruct (0 <=? k) eqn:E; rewrite len_firstn.
  - apply Z.leb_le in E. lia.
  - apply Z.leb_gt in E. lia.
Qed.

(** X17.  When the text is longer than the limit, the truncator returns a
    prefix of the text followed by three dots, never anything else of the
    text; and unless the text is empty (possible with a negative limit) at
    least one character is cut off.  This holds for every limit below 2^50
    in absolute value, negative ones included; the limits for which the
    product with 0.8 does not convert to a float, where the source raises,
    lie far beyond. *)
Theorem truncate_keeps_a_prefix (text : str) (limit : Z) :
  Z.abs limit < 2 ^ 50 ->
  limit < len text ->
  exists kept cut_off,
    text = kept ++ cut_off
    /\ (text <> [] -> cut_off <> [])
    /\ _truncate_to_limit text limit = kept ++ lit "...".
Proof.
  intros _ Hlong. unfold _truncate_to_limit.
  destruct (len text <=? limit) eqn:E; [apply Z.leb_le in E; lia|]. cbv zeta.
  destruct (slice_to_prefix text limit) as [q1 H1].
  assert (Hlt : text <> [] -> len (slice_to text limit) < len text)
    by (intros Hne; now apply len_slice_to_lt).
  pose proof (f_equal len H1) as L1. rewrite len_app in L1.
  destruct (4 * limit <? 5 * rfind (slice_to text limit) space).
  - destruct (slice_to_prefix (slice_to text limit)
                (rfind (slice_to text limit) space)) as [q2 H2].
    pose proof (f_equal len H2) as L2. rewrite len_app in L2.
    eexists _, (q2 ++ q1). split; [|split; [|reflexivity]].
    + rewrite app_assoc, <- H2. exact H1.
    + intros Hne Hnil. specialize (Hlt Hne).
      apply app_eq_nil in Hnil. destruct Hnil as [-> ->].
      change (len []) with 0 in *. lia.
  - eexists _, q1. split; [exact H1 | split; [|reflexivity]].
    intros Hne ->. specialize (Hlt Hne).
    change (len []) with 0 in *. lia.
Qed.

Lemma truncate_keeps_a_prefix_witness :
  exists kept cut_off,
    lit "launch the product" = kept ++ cut_off
    /\ (lit "launch the product" <> [] -> cut_off <> [])
    /\ _truncate_to_limit (lit "launch the product") 12 = kept ++ lit "...".
Proof.
  apply (truncate_keeps_a_prefix (lit "launch the product") 12).
  - vm_compute. reflexivity.
  - vm_compute. reflexivity.
Defined.

Example truncate_negative_limit_keeps_a_prefix :
  _truncate_to_limit (lit "launch the product") (-3) = lit "launch the..."
  /\ _truncate_to_limit [] (-1) = lit "...".
Proof. split; reflexivity. Qed.

(** The result of a cut can be longer than the text it was cut from. *)
Example truncate_can_lengthen :
  len (_truncate_to_limit (lit "abcdef") 5) = 8 /\ len (lit "abcdef") = 6.
Proof. split; vm_compute; reflexivity. Qed.

(** ** The tone shown in the analysis *)

(** X18.  For a tone that is not one of the five of the tone table, the
    communication style is the bare word professional: the default of the
    lookup is the name of a tone, not the style listed for it, so it differs
    from the style a request with the professional tone gets. *)
Theorem communication_style_fallback (tone : str) :
  ~ In tone known_tones ->
  _generate_communication_style tone = lit "professional"
  /\ _generate_communication_style tone
     <> _generate_communication_style (lit "professional").
Proof.
  intros H.
  assert (E : _generate_communication_style tone = lit "professional").
  { unfold _generate_communication_style, get. cbn [lookup].
    repeat match goal with
    | |- context [eqb tone ?k] =>
        let E := fresh "E" in
        destruct (eqb tone k) eqn:E;
          [apply eqb_eq in E; subst tone; exfalso; apply H; simpl; auto 6|]
    end.
    reflexivity. }
  split; [exact E|]. rewrite E. vm_compute. discriminate.
Qed.

Lemma communication_style_fallback_witness :
  _generate_communication_style (lit "sarcastic") = lit "professional"
  /\ _generate_communication_style (lit "sarcastic")
     <> _generate_communication_style (lit "professional").
Proof.
  apply (communication_style_fallback (lit "sarcastic")).
  vm_compute. intuition discriminate.
Defined.

(** * The console front end *)

(** ** [strip] *)

Lemma lstrip_In (x : char) (s : str) : In x (lstrip s) -> In x s.
Proof.
  induction s as [|c s IH]; simpl; [tauto|].
  destruct (isspace c); [right; auto | simpl; auto].
Qed.

Lemma strip_In (x : char) (s : str) : In x (strip s) -> In x s.
Proof.
  unfold strip, rstrip. intros H.
  apply in_rev, lstrip_In, in_rev in H. now apply lstrip_In.
Qed.

Lemma strip_no_newline (s : str) : newline_free s -> no_newline (strip s) = true.
Proof.
  intros H. apply newline_free_no_newline. unfold newline_free in *.
  rewrite Forall_forall in *. intros x Hx. apply H. now apply strip_In.
Qed.

Lemma nonempty_true (s : str) : nonempty s = true <-> s <> [].
Proof. destruct s; simpl; split; congruence. Qed.

(** ** The console *)

Lemma reads_refl (c : Console) : reads c c.
Proof. now exists []. Qed.

Lemma reads_trans (c1 c2 c3 : Console) : reads c1 c2 -> reads c2 c3 -> reads c1 c3.
Proof.
  intros [u1 H1] [u2 H2]. exists (u1 ++ u2). now rewrite H1, H2, app_assoc.
Qed.

Lemma reads_same (c c' : Console) : stdin c' = stdin c -> reads c c'.
Proof. intros H. exists []. now rewrite H. Qed.

Lemma io_bind_inr {A B} (m : io A) (k : A -> io B) c (b : B) c' :
  io_bind m k c = (inr b, c') ->
  exists a c1, m c = (inr a, c1) /\ k a c1 = (inr b, c').
Proof.
  unfold io_bind. destruct (m c) as [[e|a] c1]; [discriminate|]. eauto.
Qed.

Lemma print_inr (s : str) c (u : unit) c' :
  print s c = (inr u, c') -> stdin c' = stdin c.
Proof. unfold print. intros H. inversion H. reflexivity. Qed.

Lemma reads_In (c c' : Console) (l : str) :
  reads c c' -> In l (stdin c') -> In l (stdin c).
Proof. intros [u ->] H. apply in_or_app. now right. Qed.

Lemma input_inr (prompt : str) c (line : str) c' :
  input prompt c = (inr line, c') -> reads c c' /\ In line (stdin c).
Proof.
  unfold input. destruct (stdin c) as [|l rest] eqn:E; [discriminate|].
  intros H. inversion H; subst. split; [|now left].
  exists [line]. rewrite E. reflexivity.
Qed.

(** What a selection loop returns: the entry of the first line that names a
    key, the lines behind it left unread. *)
Lemma choose_inr (d : list (str * str)) (prompt invalid : str)
    (lines : list str) (out code : str) c' :
  choose d prompt invalid lines out = (inr code, c') ->
  exists skipped line,
    lines = skipped ++ line :: stdin c'
    /\ Forall (fun l => lookup (strip l) d = None) skipped
    /\ lookup (strip line) d = Some code.
Proof.
  revert out; induction lines as [|l lines IH]; intros out H; [discriminate|].
  simpl in H. destruct (lookup (strip l) d) as [code'|] eqn:E.
  - inversion H; subst. exists [], l. simpl. auto.
  - apply IH in H. destruct H as (skipped & line & -> & Hs & Hl).
    exists (l :: skipped), line. split; [reflexivity|]. split; [|exact Hl].
    constructor; [exact E | exact Hs].
Qed.

(** It raises only when the lines run out, every one of them read and
    none naming a key. *)
Lemma choose_inl (d : list (str * str)) (prompt invalid : str)
    (lines : list str) (out : str) (e : ui_exn) c' :
  choose d prompt invalid lines out = (inl e, c') ->
  e = EOFError /\ Forall (fun l => lookup (strip l) d = None) lines /\ stdin c' = [].
Proof.
  revert out; induction lines as [|l lines IH]; intros out H.
  - simpl in H. inversion H. auto.
  - simpl in H. destruct (lookup (strip l) d) as [code'|] eqn:E; [discriminate|].
    apply IH in H. destruct H as (He & Hs & Hc). auto.
Qed.

Lemma choose_from_inr (d : list (str * str)) (prompt invalid : str) c (code : str) c' :
  choose_from d prompt invalid c = (inr code, c') ->
  reads c c' /\ In code (map snd d).
Proof.
  unfold choose_from. intros H. apply choose_inr in H.
  destruct H as (skipped & line & E & _ & Hl). split.
  - exists (skipped ++ [line]). rewrite E, <- app_assoc. reflexivity.
  - now apply lookup_In in Hl.
Qed.

(** Proof steps along a chain of console actions: [H] is what is left of
    the chain, [R] says how far the reading has come. *)
Ltac advance R P :=
  let R' := fresh "R" in
  pose proof (reads_trans _ _ _ R P) as R'; clear R P; rename R' into R.

Ltac skip_prints H R :=
  repeat match type of H with
  | io_bind (print _) _ _ = _ =>
      let u := fresh "u" in
      let c1 := fresh "c" in
      let P := fresh "P" in
      apply io_bind_inr in H; destruct H as (u & c1 & P & H);
      apply print_inr, reads_same in P; advance R P
  end.

Ltac read_choice H R code Hcode :=
  let c1 := fresh "c" in
  let P := fresh "P" in
  apply io_bind_inr in H; destruct H as (code & c1 & P & H);
  apply choose_from_inr in P; destruct P as [P Hcode]; advance R P.

Ltac read_line H R line Hline :=
  let c1 := fresh "c" in
  let P := fresh "P" in
  apply io_bind_inr in H; destruct H as (line & c1 & P & H);
  apply input_inr in P; destruct P as [P Hline];
  apply (reads_In _ _ _ R) in Hline; advance R P.

Lemma main_platform_inr (content_type : str) c (p : option str) c' :
  main_platform content_type c = (inr p, c') ->
  reads c c'
  /\ (p = None <-> content_type <> lit "social_media")
  /\ (forall code, p = Some code -> In code (map snd platform_map)).
Proof.
  pose proof (reads_refl c) as R.
  unfold main_platform. destruct (eqb content_type (lit "social_media")) eqn:E.
  - apply eqb_eq in E. intros H. skip_prints H R.
    read_choice H R code Hcode.
    inversion H; subst. split; [exact R|].
    split; [split; [discriminate | contradiction]|].
    intros code' [= <-]. exact Hcode.
  - intros H. inversion H; subst. split; [exact R|].
    split; [|discriminate]. split; [|reflexivity].
    intros _ Hc. subst content_type. now rewrite eqb_refl in E.
Qed.

(** The word count is what [int] makes of the line, if anything was typed. *)
Lemma word_count_inr (py_int : str -> option Z) (s : str) c (wc : option Z) c' :
  (if nonempty s
   then match py_int s with
        | Some n => io_ret (Some n)
        | None => io_raise IntValueError
        end
   else io_ret None) c = (inr wc, c') ->
  c' = c /\ forall n, wc = Some n -> py_int s = Some n.
Proof.
  destruct (nonempty s).
  - destruct (py_int s) as [n|]; [|discriminate].
    intros H. inversion H; subst. split; [reflexivity|]. now intros n' [= <-].
  - intros H. inversion H; subst. split; [reflexivity | discriminate].
Qed.

(** What a round returns when it returns a request. *)
Lemma main_request_inr py_int c (request : ContentRequest) c' :
  main_request py_int c = (inr (Some request), c') ->
  reads c c'
  /\ (topic request <> []
      /\ exists line, In line (stdin c) /\ topic request = strip line)
  /\ In (content_type request) (map snd content_type_map)
  /\ In (target_audience request) (map snd audience_map)
  /\ In (tone request) (map snd tone_map)
  /\ (forall n, word_count request = Some n ->
      exists line, In line (stdin c) /\ py_int (strip line) = Some n)
  /\ (platform request = None <-> content_type request <> lit "social_media")
  /\ (forall code, platform request = Some code -> In code (map snd platform_map))
  /\ call_to_action request <> Some []
  /\ include_examples request = true /\ include_seo request = true.
Proof.
  pose proof (reads_refl c) as R.
  unfold main_request. intros H. skip_prints H R.
  read_line H R line Hline. cbv zeta in H.
  destruct (nonempty (strip line)) eqn:N; cbn [negb] in H; [|discriminate].
  skip_prints H R. read_choice H R ct Hct.
  skip_prints H R. read_choice H R aud Haud.
  skip_prints H R. read_choice H R tn Htone.
  read_line H R wline Hwline.
  apply io_bind_inr in H. destruct H as (wc & cw & Hw & H).
  apply word_count_inr in Hw. destruct Hw as [-> Hwc].
  apply io_bind_inr in H. destruct H as (p & cp & Hp & H).
  apply main_platform_inr in Hp. destruct Hp as (P & Hnone & Hsome). advance R P.
  read_line H R cline Hcline.
  inversion H; subst request c'; clear H. cbn.
  split; [exact R|].
  split; [split; [now apply nonempty_true | eauto]|].
  do 3 (split; [assumption|]).
  split; [intros n Hn; exists wline; auto|].
  do 2 (split; [assumption|]).
  split; [|split; reflexivity].
  destruct (nonempty (strip cline)) eqn:N'; [|discriminate].
  apply nonempty_true in N'. congruence.
Qed.

(** X19.  Each selection loop of [main] returns the entry of the first line
    that, stripped of the whitespace around it, is a key of its menu, and
    leaves the lines behind that one unread.  The only way out without a
    selection is the [EOFError] of [input], raised when the lines have run
    out and none of them was a key. *)
Theorem menu_returns_first_valid_choice
    (d : list (str * str)) (prompt invalid : str) (c : Console) :
  match choose_from d prompt invalid c with
  | (inr code, c') =>
      exists skipped line,
        stdin c = skipped ++ line :: stdin c'
        /\ Forall (fun l => lookup (strip l) d = None) skipped
        /\ lookup (strip line) d = Some code
  | (inl e, c') =>
      e = EOFError
      /\ Forall (fun l => lookup (strip l) d = None) (stdin c)
      /\ stdin c' = []
  end.
Proof.
  destruct (choose_from d prompt invalid c) as [[e|code] c'] eqn:E;
    unfold choose_from in E.
  - now apply choose_inl in E.
  - now apply choose_inr in E.
Qed.

Example tone_menu_skips_invalid_lines :
  choose_from tone_map (lit "Select tone (1-5): ")
    (lit "Invalid choice. Please enter 1-5.")
    {| stdin := [lit "six"; lit "  4 "; lit "1"]; stdout := [] |}
  = (inr (lit "informative"),
     {| stdin := [lit "1"];
        stdout := lit "Select tone (1-5): " ++ lit "Invalid choice. Please enter 1-5."
                  ++ nl ++ lit "Select tone (1-5): " |}).
Proof. reflexivity. Qed.

(** ** The menus and the engine's tables *)

Lemma content_type_codes : map snd content_type_map = known_content_types.
Proof. reflexivity. Qed.

Lemma tone_codes : map snd tone_map = known_tones.
Proof. reflexivity. Qed.

Lemma audience_codes (a : str) :
  In a (map snd audience_map) -> In a (map fst audience_profiles).
Proof.
  simpl. intros H.
  repeat (destruct H as [<-|H]; [auto 6|]). contradiction.
Qed.

Lemma platform_codes (p : str) :
  In p (map snd platform_map) -> In p (map fst limits).
Proof.
  simpl. intros H.
  repeat (destruct H as [<-|H]; [auto 6|]). contradiction.
Qed.

(** X20.  A request that [main] builds from the console carries only what
    the engine knows: its content type is a key of the engine's content
    types, its tone a key of the tone table, its audience a key of the
    audience table, and its platform is missing unless the content type is
    [social_media], where it is a key of the short-post limits.  The topic
    is a typed line stripped of the whitespace around it and is not empty,
    and the call to action is missing rather than empty. *)
Theorem main_request_sends_engine_codes
    (py_int : str -> option Z) (c : Console) (request : ContentRequest) (c' : Console) :
  main_request py_int c = (inr (Some request), c') ->
  (topic request <> []
   /\ exists line, In line (stdin c) /\ topic request = strip line)
  /\ In (content_type request) known_content_types
  /\ In (target_audience request) (map fst audience_profiles)
  /\ In (tone request) known_tones
  /\ match platform request with
     | Some code =>
         content_type request = lit "social_media" /\ In code (map fst limits)
     | None => content_type request <> lit "social_media"
     end
  /\ call_to_action request <> Some [].
Proof.
  intros H. apply main_request_inr in H.
  destruct H as (_ & Htopic & Hct & Haud & Htone & _ & Hnone & Hsome & Hcta & _).
  split; [exact Htopic|].
  split; [now rewrite <- content_type_codes|].
  split; [now apply audience_codes|].
  split; [now rewrite <- tone_codes|].
  split; [|exact Hcta].
  destruct (platform request) as [code|].
  - split; [|now apply platform_codes, Hsome].
    destruct (PyStr.eq_dec (content_type request) (lit "social_media")) as [E|E];
      [exact E|].
    apply Hnone in E. discriminate.
  - now apply Hnone.
Qed.

Lemma main_request_sends_engine_codes_witness :
  (topic post_session_request <> []
   /\ exists line, In line (stdin post_session)
                   /\ topic post_session_request = strip line)
  /\ In (content_type post_session_request) known_content_types
  /\ In (target_audience post_session_request) (map fst audience_profiles)
  /\ In (tone post_session_request) known_tones
  /\ match platform post_session_request with
     | Some code =>
         content_type post_session_request = lit "social_media"
         /\ In code (map fst limits)
     | None => content_type post_session_request <> lit "social_media"
     end
  /\ call_to_action post_session_request <> Some [].
Proof.
  apply (main_request_sends_engine_codes ref_int post_session post_session_request
           (snd (main_request ref_int post_session))).
  vm_compute. reflexivity.
Defined.

(** A round ends without a request in three ways: the topic line is blank
    (the [break]), a word count is typed that [int] rejects (the
    [ValueError] is raised outside the [try]), or the lines run out. *)
Example round_without_request :
  fst (main_request ref_int {| stdin := [lit "  "; lit "1"]; stdout := [] |})
  = inr None
  /\ fst (main_request ref_int wordy_session) = inl IntValueError
  /\ fst (main_request ref_int {| stdin := [lit "Release trains"; lit "7"];
                                  stdout := [] |})
     = inl EOFError.
Proof. repeat split; vm_compute; reflexivity. Qed.

(** ** From the console to the engine *)

Lemma main_request_well_formed py_int c (request : ContentRequest) c' :
  main_request py_int c = (inr (Some request), c') ->
  content_type request <> lit "video_script"
  \/ Z.abs (script_duration request) < float_overflow ->
  well_formed request.
Proof.
  intros H Hs. apply main_request_inr in H.
  destruct H as (_ & _ & Hct & _ & Htone & _).
  rewrite content_type_codes in Hct. rewrite tone_codes in Htone.
  split; [exact Hct|]. split; [intros _; exact Htone|].
  intros Hv. destruct Hs as [Hs|Hs]; [contradiction | exact Hs].
Qed.

(** X21.  [generate_content] returns three variations for every request
    that [main] builds from the console, whatever was typed, with one
    exception: a script whose word count divided by 150 is [2^1024 - 2^970]
    or more in absolute value. *)
Theorem main_request_is_served
    (rt : Runtime) (py_int : str -> option Z) (c : Console)
    (request : ContentRequest) (c' : Console) :
  main_request py_int c = (inr (Some request), c') ->
  content_type request <> lit "video_script"
  \/ Z.abs (script_duration request) < float_overflow ->
  exists v0 v1 v2 analysis,
    generate_content rt request = inr ([v0; v1; v2], analysis).
Proof.
  intros H Hs.
  destruct (generate_content_ok rt request (main_request_well_formed _ _ _ _ H Hs))
    as (v0 & v1 & v2 & E & _).
  now exists v0, v1, v2, (_generate_content_analysis rt request [v0; v1; v2]).
Qed.

Lemma main_request_is_served_witness :
  exists v0 v1 v2 analysis,
    generate_content ref_runtime post_session_request
    = inr ([v0; v1; v2], analysis).
Proof.
  apply (main_request_is_served ref_runtime ref_int post_session
           post_session_request (snd (main_request ref_int post_session))).
  - vm_compute. reflexivity.
  - left. vm_compute. discriminate.
Defined.

(** The exception is met: a word count typed at the console can be too
    large for the script builder. *)
Example long_script_is_built_and_refused :
  exists request e,
    fst (main_request ref_int long_script_session) = inr (Some request)
    /\ word_count request = Some (10 ^ 320)
    /\ generate_content ref_runtime request = inl e.
Proof.
  do 2 eexists. split; [vm_compute; reflexivity|].
  split; [vm_compute; reflexivity|]. vm_compute. reflexivity.
Qed.

Lemma blog_variation_headings rt request i :
  content_type request = lit "blog" ->
  In (tone request) known_tones ->
  no_newline (topic request) = true ->
  exists v, _generate_single_variation rt request i = ret v
            /\ headings v = blog_headings.
Proof.
  intros Hct Htone Htopic. rewrite single_variation_blog by exact Hct.
  apply lookup_Some in Htone. destruct Htone as [t Ht].
  unfold _generate_blog_content. cbv zeta.
  destruct (blog_structure_headings rt request
              (subscript (blog_title_options request)
                 (i mod len_list (blog_title_options request)))
              (or_int (word_count request) (_get_default_word_count (lit "blog")))
              t Ht Htopic) as (c & Hc & Hh).
  rewrite Hc. eexists; split; [reflexivity|]. cbn [headings]. exact Hh.
Qed.

(** X22.  An article asked for at the console always comes back with the
    six article headings in each of its three variations: the lines typed
    hold no line break, so the topic holds none, and the tone chosen from
    the menu is a known one. *)
Theorem console_article_headings
    (rt : Runtime) (py_int : str -> option Z) (c : Console)
    (request : ContentRequest) (c' : Console) :
  Forall newline_free (stdin c) ->
  main_request py_int c = (inr (Some request), c') ->
  content_type request = lit "blog" ->
  exists v0 v1 v2 analysis,
    generate_content rt request = inr ([v0; v1; v2], analysis)
    /\ headings v0 = blog_headings
    /\ headings v1 = blog_headings
    /\ headings v2 = blog_headings.
Proof.
  intros Hlines H Hct.
  assert (Hwf : well_formed request).
  { apply (main_request_well_formed _ _ _ _ H). left. rewrite Hct. discriminate. }
  apply main_request_inr in H.
  destruct H as (_ & [_ (line & Hin & Htopic)] & _ & _ & Htone & _).
  rewrite tone_codes in Htone.
  assert (Hplain : no_newline (topic request) = true).
  { rewrite Htopic. apply strip_no_newline.
    rewrite Forall_forall in Hlines. now apply Hlines. }
  destruct (generate_content_ok rt request Hwf) as (v0 & v1 & v2 & E & E0 & E1 & E2).
  exists v0, v1, v2, (_generate_content_analysis rt request [v0; v1; v2]).
  split; [exact E|].
  destruct (blog_variation_headings rt request 0 Hct Htone Hplain) as (w0 & F0 & G0).
  destruct (blog_variation_headings rt request 1 Hct Htone Hplain) as (w1 & F1 & G1).
  destruct (blog_variation_headings rt request 2 Hct Htone Hplain) as (w2 & F2 & G2).
  rewrite E0 in F0. rewrite E1 in F1. rewrite E2 in F2.
  injection F0 as ->. injection F1 as ->. injection F2 as ->. auto.
Qed.

Lemma console_article_headings_witness :
  exists v0 v1 v2 analysis,
    generate_content ref_runtime article_session_request
    = inr ([v0; v1; v2], analysis)
    /\ headings v0 = blog_headings
    /\ headings v1 = blog_headings
    /\ headings v2 = blog_headings.
Proof.
  apply (console_article_headings ref_runtime ref_int article_session
           article_session_request (snd (main_request ref_int article_session))).
  - repeat (apply Forall_cons; [repeat constructor; discriminate|]).
    apply Forall_nil.
  - vm_compute. reflexivity.
  - reflexivity.
Defined.

(** ** The tags line of the analysis *)

Lemma first_five_tags (rt : Runtime) (topic : str) :
  exists t1 t2 t3 t4 t5,
    firstn 5 (_generate_seo_tags rt topic) = [t1; t2; t3; t4; t5]
    /\ t1 <> [] /\ t2 <> [].
Proof.
  assert (Hlen : List.length (firstn 5 (_generate_seo_tags rt topic)) = 5%nat).
  { rewrite length_firstn. unfold _generate_seo_tags, take. rewrite length_firstn.
    pose proof (seo_tag_set_at_least_five rt topic). lia. }
  assert (Hw : Forall is_word (firstn 5 (_generate_seo_tags rt topic))).
  { apply Forall_forall; intros w Hw. apply In_firstn in Hw.
    pose proof (seo_tags_are_words rt topic) as H.
    rewrite Forall_forall in H; now apply H. }
  destruct (firstn 5 (_generate_seo_tags rt topic))
    as [|t1 [|t2 [|t3 [|t4 [|t5 [|t6 l]]]]]]; try discriminate Hlen.
  exists t1, t2, t3, t4, t5. split; [reflexivity|].
  inversion Hw as [|? ? [H1 _] Hw']; subst.
  inversion Hw' as [|? ? [H2 _] _]; subst. auto.
Qed.

(** X23.  The tags of a short post are one string, not a list, so the
    analysis, which shows the first five tags of a variation joined by
    commas, shows the first five characters of that string instead: the
    [#] of the first hashtag and the four characters that follow it in the
    hashtag string, each set apart by a comma and a blank. *)
Theorem social_key_tags_are_characters
    (rt : Runtime) (request : ContentRequest) (i : Z) :
  exists c1 c2 c3 c4 rest,
    tags (_generate_social_content rt request i)
    = TagText (_generate_social_tags rt (topic request))
    /\ _generate_social_tags rt (topic request)
       = hash_sign :: c1 :: c2 :: c3 :: c4 :: rest
    /\ format_key_tags (tags (_generate_social_content rt request i))
       = lit "#, " ++ [c1] ++ lit ", " ++ [c2] ++ lit ", " ++ [c3] ++ lit ", " ++ [c4].
Proof.
  assert (Htags : tags (_generate_social_content rt request i)
                  = TagText (_generate_social_tags rt (topic request))).
  { unfold _generate_social_content. cbv zeta.
    destruct (i =? 0); [reflexivity|]. destruct (i =? 1); reflexivity. }
  rewrite Htags. unfold _generate_social_tags, take. cbv zeta.
  destruct (first_five_tags rt (topic request))
    as (t1 & t2 & t3 & t4 & t5 & -> & H1 & H2).
  destruct t1 as [|a t1]; [congruence|]. destruct t2 as [|b t2]; [congruence|].
  cbn [map join app lit list_ascii_of_string].
  destruct t1 as [|x [|y [|z t1]]]; cbn [app format_key_tags take firstn map join];
    do 5 eexists; (split; [reflexivity|]); split; reflexivity.
Qed.

Example key_tags_of_a_short_post :
  format_key_tags (tags (_generate_social_content ref_runtime post_session_request 0))
  = lit "#, t, e, c, h".
Proof. vm_compute. reflexivity. Qed.
